(** * finance-control: the record store, its aggregates and the goal progress

    A shallow embedding of [database.py] (class [DatabaseManager], a SQLite
    store of income, expense and goal rows) and of the computations of
    [app.py] (dashboard totals, filtered statistics, goal progress), followed
    by the properties of the specification that these definitions settle.

    Conventions of the model.
    - [valor] is a Python float / SQLite REAL; it is taken as an exact
      rational ([Q]), and equalities between amounts are stated with [==]:
      what is proved of an amount holds of the code up to the rounding of its
      double-precision operations.  Where the rounding itself decides a
      property, the order of a sum, the amounts are IEEE 754 binary64 numbers
      ([Float64]) and the sum is taken in the order in which numpy adds a
      column ([Numpy], [Pandas]).
    - a [datetime.date] is taken by its proleptic ordinal ([date.toordinal()]),
      which has the same order as the ISO text SQLite compares.
    - ids are SQLite rowids of [INTEGER PRIMARY KEY AUTOINCREMENT] columns,
      taken as unbounded integers.  [Database] has the methods over the
      values SQLite holds; [DatabaseManager] has the calls whose argument is
      a Python value that SQLite may refuse: an [int] id, which is bound as a
      64-bit signed integer, and a data frame, whose cells may be missing.
    - a table keeps its rows in rowid order, the order of a table scan, and
      carries the counter of [sqlite_sequence].
    - [ORDER BY] is the engine's sorter run over the scan: a stable sort on
      the requested key.  For [GROUP BY categoria ORDER BY total DESC] SQLite
      gives the grouping the direction of the [ORDER BY], so the groups reach
      the sorter in descending order of the category (bytewise comparison of
      the text).
    - every statement runs in its own connection and is committed on its
      own; the storage layer may raise on any statement, which then leaves
      the database as it was.
    - columns of [metas] that share a name with columns of the other tables
      carry the prefix [m_], the category column of a group the prefix
      [g_].
    - of [sheets_sync.py] the import is modelled, over the values of the
      three worksheets and the rows of the three local files; the export
      renders numbers as text and is left out. *)

From Stdlib Require Import ZArith QArith Qminmax List String Ascii Bool.
From Stdlib Require Import Lia Lra Lqa Permutation Sorted.
From Stdlib Require SpecFloat.
Import ListNotations.

Set Implicit Arguments.

(* ----------------------------------------------------------------- *)
(** ** Python values shared by both files *)

Definition date := Z.
Definition timestamp := Z.
Bind Scope Z_scope with date timestamp.

(** Truthiness of an [Optional[str]]: [None] and the empty text are false. *)
Definition truthy_str (s : option string) : bool :=
  match s with
  | None => false
  | Some t => negb (String.eqb t EmptyString)
  end.

(** [a > b] on amounts. *)
Definition Qgt_bool (a b : Q) : bool := negb (Qle_bool a b).

(** Python's [min(a, b)]: the first argument unless the second is smaller. *)
Definition py_min (a b : Q) : Q := if Qgt_bool a b then b else a.

(** Sum of a column, from the left, starting at 0. *)
Definition soma (vs : list Q) : Q := fold_left Qplus vs 0.

(** The engine's sorter: [x] is placed before the first element that is not
    strictly ahead of it, so rows with equal keys keep their input order.
    (The result of a stable sort does not depend on the algorithm; insertion
    is the shortest one to write.) *)
Fixpoint inserir (A : Type) (antes : A -> A -> bool) (x : A) (l : list A)
  : list A :=
  match l with
  | [] => [x]
  | y :: l' => if antes y x then y :: inserir antes x l' else x :: y :: l'
  end.

Definition order_by (A : Type) (antes : A -> A -> bool) (l : list A) : list A :=
  fold_right (inserir antes) [] l.

(* ----------------------------------------------------------------- *)
(** ** Python floats, and the sum of a column of them *)

Module Float64.

(** A Python [float]: an IEEE 754 binary64 number. *)
Definition float := SpecFloat.spec_float.

Definition prec : Z := 53.
Definition emax : Z := 1024.

Definition zero : float := SpecFloat.S754_zero false.

(** [x + y], rounded to the nearest double, ties to even. *)
Definition add (x y : float) : float := SpecFloat.SFadd prec emax x y.

Definition of_Z (z : Z) : float :=
  SpecFloat.binary_normalize prec emax z 0 false.

(** The float written [m / 10^k] in decimal, as in ["0.1"] for [m = 1] and
    [k = 1]: the double nearest to it. *)
Definition decimal (m k : Z) : float :=
  SpecFloat.SFdiv prec emax (of_Z m) (of_Z (10 ^ k)).

Definition is_nan (x : float) : bool :=
  match x with
  | SpecFloat.S754_nan => true
  | _ => false
  end.

End Float64.

Module Numpy.

Section Sum.
Variable T : Type.
Variable add : T -> T -> T.
Variable zero : T.

(** [for i in range(n): res += a[i]], from [res] on. *)
Definition somar_em (res : T) (vs : list T) : T := fold_left add vs res.

(** [r[j] += a[i + j]] over the eight accumulators. *)
Fixpoint somar_bloco (r bloco : list T) : list T :=
  match r, bloco with
  | x :: r', y :: bloco' => add x y :: somar_bloco r' bloco'
  | _, _ => r
  end.

(** The loop over [k] whole blocks of eight: the accumulators, and what is
    left of the array. *)
Fixpoint somar_blocos (k : nat) (r vs : list T) : list T * list T :=
  match k with
  | O => (r, vs)
  | S k' => somar_blocos k' (somar_bloco r (firstn 8 vs)) (skipn 8 vs)
  end.

(** [((r[0] + r[1]) + (r[2] + r[3])) + ((r[4] + r[5]) + (r[6] + r[7]))]. *)
Definition juntar (r : list T) : T :=
  match r with
  | [r0; r1; r2; r3; r4; r5; r6; r7] =>
      add (add (add r0 r1) (add r2 r3)) (add (add r4 r5) (add r6 r7))
  | _ => zero
  end.

(** numpy's [pairwise_sum] of a float array: fewer than 8 elements are added
    one after the other; up to 128 are added into eight accumulators, block
    by block, the accumulators joined and the rest added on; more are cut in
    two near the middle, at a multiple of 8.  [fuel] bounds the depth of the
    halving: the length of the array is enough. *)
Fixpoint pairwise_sum_em (fuel : nat) (vs : list T) : T :=
  let n := List.length vs in
  if Nat.ltb n 8 then somar_em zero vs
  else if Nat.leb n 128
  then
    let (r, resto) :=
      somar_blocos (Nat.div n 8 - 1) (firstn 8 vs) (skipn 8 vs) in
    somar_em (juntar r) resto
  else
    match fuel with
    | O => zero
    | S fuel' =>
        let n2 := (Nat.div n 2 - Nat.modulo (Nat.div n 2) 8)%nat in
        add (pairwise_sum_em fuel' (firstn n2 vs))
          (pairwise_sum_em fuel' (skipn n2 vs))
    end.

Definition pairwise_sum (vs : list T) : T :=
  pairwise_sum_em (List.length vs) vs.

(** [np.add.reduce] over a whole array: the identity, then the pairwise
    sum. *)
Definition add_reduce (vs : list T) : T := add zero (pairwise_sum vs).

End Sum.

End Numpy.

Module Pandas.

(** [Series.sum()] of a float64 column: the missing cells ([NaN]) count as 0
    and the column is summed by numpy. *)
Definition Series_sum (cells : list Float64.float) : Float64.float :=
  Numpy.add_reduce Float64.add Float64.zero
    (map (fun x => if Float64.is_nan x then Float64.zero else x) cells).

End Pandas.

(* ----------------------------------------------------------------- *)
(** ** database.py *)

Module Database.

(** Rows of [receitas] and [despesas] (same seven columns). *)
Record transacao := {
  id : Z;
  data : date;
  descricao : string;
  valor : Q;
  categoria : string;
  created_at : timestamp;
  updated_at : timestamp
}.

(** Rows of [metas]. *)
Record meta := {
  m_id : Z;
  data_limite : date;
  m_descricao : string;
  valor_meta : Q;
  m_categoria : string;
  status : string;
  m_created_at : timestamp;
  m_updated_at : timestamp
}.

(** A table: its rows in rowid order and its [sqlite_sequence] counter. *)
Record tabela (R : Type) := {
  linhas : list R;
  seq : Z
}.

Record banco := {
  receitas : tabela transacao;
  despesas : tabela transacao;
  metas : tabela meta
}.

(** What a call runs in: the database file, the clock read by
    [CURRENT_TIMESTAMP], and for each coming statement whether the storage
    layer raises on it ([true]); an exhausted list means no more faults. *)
Record mundo := {
  db : banco;
  relogio : timestamp;
  falhas : list bool
}.

(** The exceptions the store meets: [sqlite3.Error] and its like, raised by
    the storage layer, and the [OverflowError] of the [sqlite3] module for a
    Python [int] that SQLite cannot hold. *)
Inductive exn :=
| StorageError
| OverflowError.

Inductive outcome (A : Type) :=
| Return (a : A)
| Raise (e : exn).
Arguments Return {A} a.
Arguments Raise {A} e.

Definition M (A : Type) := mundo -> outcome A * mundo.

Definition ret (A : Type) (a : A) : M A := fun w => (Return a, w).

Definition bind (A B : Type) (m : M A) (k : A -> M B) : M B :=
  fun w => match m w with
           | (Return a, w') => k a w'
           | (Raise e, w') => (Raise e, w')
           end.

(** [try: m except Exception as e: h e]. *)
Definition try_except (A : Type) (m : M A) (h : exn -> M A) : M A :=
  fun w => match m w with
           | (Return a, w') => (Return a, w')
           | (Raise e, w') => h e w'
           end.

Declare Scope db_scope.
Delimit Scope db_scope with db.
Notation "x <- c ;; k" := (bind c (fun x => k))
  (at level 100, c at next level, right associativity) : db_scope.
Notation "c ;;; k" := (bind c (fun _ => k))
  (at level 100, right associativity) : db_scope.
Open Scope db_scope.

(** [for x in xs: body x]. *)
Fixpoint for_each (A : Type) (xs : list A) (body : A -> M unit) : M unit :=
  match xs with
  | [] => ret tt
  | x :: xs' => body x ;;; for_each xs' body
  end.

(** A SQL statement, as the function it computes from the clock and the
    database to its result and the database it leaves. *)
Definition statement (A : Type) := timestamp -> banco -> A * banco.

(** The body shared by [_execute_query] and [_execute_insert]: connect,
    execute, read the result, commit, close.  When the storage layer raises,
    nothing was committed, the error is logged and raised again. *)
Definition executar (A : Type) (q : statement A) : M A :=
  fun w =>
    match falhas w with
    | true :: fs =>
        (Raise StorageError,
         {| db := db w; relogio := relogio w; falhas := fs |})
    | _ =>
        let (a, d) := q (relogio w) (db w) in
        (Return a,
         {| db := d; relogio := relogio w; falhas := tl (falhas w) |})
    end.

Definition _execute_query (A : Type) (query : statement A) : M A :=
  executar query.

Definition _execute_insert (query : statement Z) : M Z :=
  executar query.

(** *** The three tables *)

Definition com_receitas (f : tabela transacao -> tabela transacao) (b : banco)
  : banco :=
  {| receitas := f (receitas b); despesas := despesas b; metas := metas b |}.

Definition com_despesas (f : tabela transacao -> tabela transacao) (b : banco)
  : banco :=
  {| receitas := receitas b; despesas := f (despesas b); metas := metas b |}.

Definition com_metas (f : tabela meta -> tabela meta) (b : banco) : banco :=
  {| receitas := receitas b; despesas := despesas b; metas := f (metas b) |}.

(** [INSERT] into an AUTOINCREMENT table: the new rowid is one more than the
    largest ever used, the row goes last in rowid order. *)
Definition tab_insert (R : Type) (mk : Z -> R) (t : tabela R) : Z * tabela R :=
  let novo := (seq t + 1)%Z in
  (novo, {| linhas := linhas t ++ [mk novo]; seq := novo |}).

(** [DELETE FROM t WHERE id = ?]. *)
Definition tab_delete (R : Type) (id_of : R -> Z) (i : Z) (t : tabela R)
  : tabela R :=
  {| linhas := filter (fun r => negb (id_of r =? i)%Z) (linhas t);
     seq := seq t |}.

(** [UPDATE t SET ... WHERE id = ?]. *)
Definition tab_update (R : Type) (id_of : R -> Z) (set : R -> R) (i : Z)
  (t : tabela R) : tabela R :=
  {| linhas := map (fun r => if (id_of r =? i)%Z then set r else r) (linhas t);
     seq := seq t |}.

(** [DELETE FROM t]: the rows go, [sqlite_sequence] stays. *)
Definition tab_clear (R : Type) (t : tabela R) : tabela R :=
  {| linhas := []; seq := seq t |}.

(** *** Statements on [receitas] and [despesas] *)

Definition nova_transacao (d : date) (desc : string) (v : Q) (cat : string)
  (agora : timestamp) (i : Z) : transacao :=
  {| id := i; data := d; descricao := desc; valor := v; categoria := cat;
     created_at := agora; updated_at := agora |}.

Definition set_transacao (d : date) (desc : string) (v : Q) (cat : string)
  (agora : timestamp) (r : transacao) : transacao :=
  {| id := id r; data := d; descricao := desc; valor := v; categoria := cat;
     created_at := created_at r; updated_at := agora |}.

Definition INSERT_receitas (d : date) (desc : string) (v : Q) (cat : string)
  : statement Z :=
  fun agora b =>
    let (i, t) := tab_insert (nova_transacao d desc v cat agora) (receitas b) in
    (i, com_receitas (fun _ => t) b).

Definition INSERT_despesas (d : date) (desc : string) (v : Q) (cat : string)
  : statement Z :=
  fun agora b =>
    let (i, t) := tab_insert (nova_transacao d desc v cat agora) (despesas b) in
    (i, com_despesas (fun _ => t) b).

Definition DELETE_receitas_id (i : Z) : statement (list unit) :=
  fun _ b => ([], com_receitas (tab_delete id i) b).

Definition DELETE_despesas_id (i : Z) : statement (list unit) :=
  fun _ b => ([], com_despesas (tab_delete id i) b).

Definition UPDATE_receitas (d : date) (desc : string) (v : Q) (cat : string)
  (i : Z) : statement (list unit) :=
  fun agora b =>
    ([], com_receitas (tab_update id (set_transacao d desc v cat agora) i) b).

Definition UPDATE_despesas (d : date) (desc : string) (v : Q) (cat : string)
  (i : Z) : statement (list unit) :=
  fun agora b =>
    ([], com_despesas (tab_update id (set_transacao d desc v cat agora) i) b).

Definition DELETE_receitas : statement (list unit) :=
  fun _ b => ([], com_receitas (@tab_clear _) b).

Definition DELETE_despesas : statement (list unit) :=
  fun _ b => ([], com_despesas (@tab_clear _) b).

(** The [WHERE] clause built by [obter_receitas] and [obter_despesas]:
    a date is always true as a condition, so a bound applies when given;
    the category applies when it is a non-empty text. *)
Definition where_transacao (data_inicio data_fim : option date)
  (cat : option string) (r : transacao) : bool :=
  match data_inicio with Some di => (di <=? data r)%Z | None => true end
  && match data_fim with Some df => (data r <=? df)%Z | None => true end
  && (if truthy_str cat
      then match cat with
           | Some c => String.eqb (categoria r) c
           | None => true
           end
      else true).

(** [ORDER BY data DESC]. *)
Definition data_desc (a b : transacao) : bool := (data b <? data a)%Z.

Definition SELECT_receitas (data_inicio data_fim : option date)
  (cat : option string) : statement (list transacao) :=
  fun _ b =>
    (order_by data_desc
       (filter (where_transacao data_inicio data_fim cat)
          (linhas (receitas b))), b).

Definition SELECT_despesas (data_inicio data_fim : option date)
  (cat : option string) : statement (list transacao) :=
  fun _ b =>
    (order_by data_desc
       (filter (where_transacao data_inicio data_fim cat)
          (linhas (despesas b))), b).

(** *** Statements on [metas] *)

(** The insert names no [status]: the column default ['ativa'] applies. *)
Definition nova_meta (d : date) (desc : string) (v : Q) (cat : string)
  (agora : timestamp) (i : Z) : meta :=
  {| m_id := i; data_limite := d; m_descricao := desc; valor_meta := v;
     m_categoria := cat; status := "ativa";
     m_created_at := agora; m_updated_at := agora |}.

Definition set_meta (d : date) (desc : string) (v : Q) (cat : string)
  (st : option string) (agora : timestamp) (r : meta) : meta :=
  {| m_id := m_id r; data_limite := d; m_descricao := desc; valor_meta := v;
     m_categoria := cat;
     status := match st with Some s => s | None => status r end;
     m_created_at := m_created_at r; m_updated_at := agora |}.

Definition INSERT_metas (d : date) (desc : string) (v : Q) (cat : string)
  : statement Z :=
  fun agora b =>
    let (i, t) := tab_insert (nova_meta d desc v cat agora) (metas b) in
    (i, com_metas (fun _ => t) b).

Definition DELETE_metas_id (i : Z) : statement (list unit) :=
  fun _ b => ([], com_metas (tab_delete m_id i) b).

Definition UPDATE_metas (d : date) (desc : string) (v : Q) (cat : string)
  (st : option string) (i : Z) : statement (list unit) :=
  fun agora b =>
    ([], com_metas (tab_update m_id (set_meta d desc v cat st agora) i) b).

Definition DELETE_metas : statement (list unit) :=
  fun _ b => ([], com_metas (@tab_clear _) b).

Definition where_meta (st cat : option string) (r : meta) : bool :=
  (if truthy_str st
   then match st with Some s => String.eqb (status r) s | None => true end
   else true)
  && (if truthy_str cat
      then match cat with
           | Some c => String.eqb (m_categoria r) c
           | None => true
           end
      else true).

(** [ORDER BY data_limite ASC]. *)
Definition data_limite_asc (a b : meta) : bool :=
  (data_limite a <? data_limite b)%Z.

Definition SELECT_metas (st cat : option string) : statement (list meta) :=
  fun _ b =>
    (order_by data_limite_asc (filter (where_meta st cat) (linhas (metas b))),
     b).

(** *** The methods of [DatabaseManager] *)

(** The ids and the fields are taken here as SQLite holds them.  The calls
    with a Python [int] as id and with frames that may miss cells are in the
    module [DatabaseManager] below. *)

Definition adicionar_receita (d : date) (desc : string) (v : Q) (cat : string)
  : M Z :=
  _execute_insert (INSERT_receitas d desc v cat).

Definition obter_receitas (data_inicio data_fim : option date)
  (cat : option string) : M (list transacao) :=
  _execute_query (SELECT_receitas data_inicio data_fim cat).

Definition excluir_receita (receita_id : Z) : M bool :=
  try_except
    (_execute_query (DELETE_receitas_id receita_id) ;;; ret true)
    (fun _ => ret false).

Definition atualizar_receita (receita_id : Z) (d : date) (desc : string)
  (v : Q) (cat : string) : M bool :=
  try_except
    (_execute_query (UPDATE_receitas d desc v cat receita_id) ;;; ret true)
    (fun _ => ret false).

Definition adicionar_despesa (d : date) (desc : string) (v : Q) (cat : string)
  : M Z :=
  _execute_insert (INSERT_despesas d desc v cat).

Definition obter_despesas (data_inicio data_fim : option date)
  (cat : option string) : M (list transacao) :=
  _execute_query (SELECT_despesas data_inicio data_fim cat).

Definition excluir_despesa (despesa_id : Z) : M bool :=
  try_except
    (_execute_query (DELETE_despesas_id despesa_id) ;;; ret true)
    (fun _ => ret false).

Definition atualizar_despesa (despesa_id : Z) (d : date) (desc : string)
  (v : Q) (cat : string) : M bool :=
  try_except
    (_execute_query (UPDATE_despesas d desc v cat despesa_id) ;;; ret true)
    (fun _ => ret false).

Definition adicionar_meta (d : date) (desc : string) (v : Q) (cat : string)
  : M Z :=
  _execute_insert (INSERT_metas d desc v cat).

Definition obter_metas (st cat : option string) : M (list meta) :=
  _execute_query (SELECT_metas st cat).

Definition excluir_meta (meta_id : Z) : M bool :=
  try_except
    (_execute_query (DELETE_metas_id meta_id) ;;; ret true)
    (fun _ => ret false).

(** [if status:] picks the statement that also sets the status. *)
Definition atualizar_meta (meta_id : Z) (d : date) (desc : string) (v : Q)
  (cat : string) (st : option string) : M bool :=
  try_except
    (_execute_query
       (UPDATE_metas d desc v cat (if truthy_str st then st else None) meta_id)
     ;;; ret true)
    (fun _ => ret false).

(** *** Statistics *)

(** The date filter of the statistics queries: [BETWEEN] when both bounds
    are given, else the one given, else none. *)
Definition where_periodo (data_inicio data_fim : option date) (r : transacao)
  : bool :=
  match data_inicio, data_fim with
  | Some di, Some df => (di <=? data r)%Z && (data r <=? df)%Z
  | Some di, None => (di <=? data r)%Z
  | None, Some df => (data r <=? df)%Z
  | None, None => true
  end.

(** SQL [SUM]: [NULL] over no row. *)
Definition SUM (vs : list Q) : option Q :=
  match vs with
  | [] => None
  | _ :: _ => Some (soma vs)
  end.

Definition SELECT_SUM_receitas (data_inicio data_fim : option date)
  : statement (list (option Q)) :=
  fun _ b =>
    ([SUM (map valor
             (filter (where_periodo data_inicio data_fim)
                (linhas (receitas b))))], b).

Definition SELECT_SUM_despesas (data_inicio data_fim : option date)
  : statement (list (option Q)) :=
  fun _ b =>
    ([SUM (map valor
             (filter (where_periodo data_inicio data_fim)
                (linhas (despesas b))))], b).

Definition SELECT_COUNT_receitas (data_inicio data_fim : option date)
  : statement (list Z) :=
  fun _ b =>
    ([Z.of_nat
        (List.length (filter (where_periodo data_inicio data_fim)
                   (linhas (receitas b))))], b).

Definition SELECT_COUNT_despesas (data_inicio data_fim : option date)
  : statement (list Z) :=
  fun _ b =>
    ([Z.of_nat
        (List.length (filter (where_periodo data_inicio data_fim)
                   (linhas (despesas b))))], b).

(** [result[0][0] if result and result[0][0] else 0]: no row, [NULL] and a
    zero sum all give 0. *)
Definition soma_ou_zero (result : list (option Q)) : Q :=
  match result with
  | Some v :: _ => if Qeq_bool v 0 then 0 else v
  | _ => 0
  end.

(** [result[0][0] if result else 0]. *)
Definition contagem_ou_zero (result : list Z) : Z :=
  match result with
  | n :: _ => n
  | [] => 0%Z
  end.

(** [(total_despesas / total_receitas * 100) if total_receitas > 0 else 0]. *)
Definition percentual (total_despesas total_receitas : Q) : Q :=
  if Qgt_bool total_receitas 0
  then total_despesas / total_receitas * 100
  else 0.

Record estatisticas := {
  total_receitas : Q;
  total_despesas : Q;
  saldo : Q;
  percentual_despesas : Q;
  count_receitas : Z;
  count_despesas : Z
}.

Definition obter_estatisticas_gerais (data_inicio data_fim : option date)
  : M estatisticas :=
  receitas_result <-
    _execute_query (SELECT_SUM_receitas data_inicio data_fim) ;;
  let total_receitas := soma_ou_zero receitas_result in
  despesas_result <-
    _execute_query (SELECT_SUM_despesas data_inicio data_fim) ;;
  let total_despesas := soma_ou_zero despesas_result in
  let saldo := total_receitas - total_despesas in
  let percentual_despesas := percentual total_despesas total_receitas in
  count_receitas_result <-
    _execute_query (SELECT_COUNT_receitas data_inicio data_fim) ;;
  let count_receitas := contagem_ou_zero count_receitas_result in
  count_despesas_result <-
    _execute_query (SELECT_COUNT_despesas data_inicio data_fim) ;;
  let count_despesas := contagem_ou_zero count_despesas_result in
  ret {| total_receitas := total_receitas;
         total_despesas := total_despesas;
         saldo := saldo;
         percentual_despesas := percentual_despesas;
         count_receitas := count_receitas;
         count_despesas := count_despesas |}.

(** *** Grouping by category *)

(** A row of
    [SELECT categoria, SUM(valor) as total, COUNT( * ) as quantidade]. *)
Record grupo := {
  g_categoria : string;
  total : Q;
  quantidade : Z
}.

(** One more row for the group of category [c]; the groups are kept in
    descending order of the category text: a group of a smaller name comes
    after [c]. *)
Fixpoint acumular (c : string) (v : Q) (gs : list grupo) : list grupo :=
  match gs with
  | [] => [{| g_categoria := c; total := v; quantidade := 1 |}]
  | g :: gs' =>
      match String.compare (g_categoria g) c with
      | Eq => {| g_categoria := g_categoria g; total := total g + v;
                 quantidade := quantidade g + 1 |} :: gs'
      | Lt => {| g_categoria := c; total := v; quantidade := 1 |} :: g :: gs'
      | Gt => g :: acumular c v gs'
      end
  end.

(** [GROUP BY categoria] over the rows that pass the filter.  The query
    groups by one term and orders by one term, [DESC]: the engine then sorts
    the rows for the grouping in descending order as well, and the groups come
    out by descending category. *)
Definition group_by_categoria (rs : list transacao) : list grupo :=
  fold_left (fun gs r => acumular (categoria r) (valor r) gs) rs [].

(** [ORDER BY total DESC]. *)
Definition total_desc (a b : grupo) : bool := Qgt_bool (total a) (total b).

Definition SELECT_por_categoria (rs : banco -> list transacao)
  (data_inicio data_fim : option date) : statement (list grupo) :=
  fun _ b =>
    (order_by total_desc
       (group_by_categoria
          (filter (where_periodo data_inicio data_fim) (rs b))), b).

Definition obter_despesas_por_categoria (data_inicio data_fim : option date)
  : M (list grupo) :=
  _execute_query
    (SELECT_por_categoria (fun b => linhas (despesas b)) data_inicio data_fim).

Definition obter_receitas_por_categoria (data_inicio data_fim : option date)
  : M (list grupo) :=
  _execute_query
    (SELECT_por_categoria (fun b => linhas (receitas b)) data_inicio data_fim).

(** *** Backup and restore *)

(** The dictionary of data frames; a key may be missing on import. *)
Record dados := {
  d_receitas : option (list transacao);
  d_despesas : option (list transacao);
  d_metas : option (list meta)
}.

Definition exportar_dados : M dados :=
  r <- obter_receitas None None None ;;
  d <- obter_despesas None None None ;;
  m <- obter_metas None None ;;
  ret {| d_receitas := Some r; d_despesas := Some d; d_metas := Some m |}.

(** [if key in dados and not dados[key].empty: for _, row in ....iterrows()]. *)
Definition importar_tabela (R : Type) (df : option (list R))
  (adicionar : R -> M Z) : M unit :=
  match df with
  | Some (r :: rs) => for_each (r :: rs) (fun row => adicionar row ;;; ret tt)
  | _ => ret tt
  end.

Definition importar_dados (dados : dados) : M bool :=
  try_except
    (_execute_query DELETE_receitas ;;;
     _execute_query DELETE_despesas ;;;
     _execute_query DELETE_metas ;;;
     importar_tabela (d_receitas dados)
       (fun row =>
          adicionar_receita (data row) (descricao row) (valor row)
            (categoria row)) ;;;
     importar_tabela (d_despesas dados)
       (fun row =>
          adicionar_despesa (data row) (descricao row) (valor row)
            (categoria row)) ;;;
     importar_tabela (d_metas dados)
       (fun row =>
          adicionar_meta (data_limite row) (m_descricao row) (valor_meta row)
            (m_categoria row)) ;;;
     ret true)
    (fun _ => ret false).

Definition limpar_dados : M bool :=
  try_except
    (_execute_query DELETE_receitas ;;;
     _execute_query DELETE_despesas ;;;
     _execute_query DELETE_metas ;;;
     ret true)
    (fun _ => ret false).

(** The database left by [_create_tables] on a new file. *)
Definition banco_vazio : banco :=
  {| receitas := {| linhas := []; seq := 0 |};
     despesas := {| linhas := []; seq := 0 |};
     metas := {| linhas := []; seq := 0 |} |}.

Definition mundo_inicial (agora : timestamp) (fs : list bool) : mundo :=
  {| db := banco_vazio; relogio := agora; falhas := fs |}.

End Database.

(* ----------------------------------------------------------------- *)
(** ** database.py, from the caller's side *)

Module DatabaseManager.
Import Database.

(** The integers SQLite holds: 64 bits, signed. *)
Definition cabe_int64 (i : Z) : bool :=
  (- 2 ^ 63 <=? i)%Z && (i <=? 2 ^ 63 - 1)%Z.

(** [_execute_query(query, params)] where [params] ends with the id [i]: the
    connection is opened as for any statement; binding an [int] that does not
    fit raises [OverflowError], and the statement is not run. *)
Definition executar_com_id (A : Type) (i : Z) (query : Z -> statement A)
  : M A :=
  if cabe_int64 i
  then _execute_query (query i)
  else fun w =>
         (Raise match falhas w with
                | true :: _ => StorageError
                | _ => OverflowError
                end,
          {| db := db w; relogio := relogio w; falhas := tl (falhas w) |}).

Definition excluir_receita (receita_id : Z) : M bool :=
  try_except
    (executar_com_id receita_id DELETE_receitas_id ;;; ret true)
    (fun _ => ret false).

Definition atualizar_receita (receita_id : Z) (d : date) (desc : string)
  (v : Q) (cat : string) : M bool :=
  try_except
    (executar_com_id receita_id (UPDATE_receitas d desc v cat) ;;; ret true)
    (fun _ => ret false).

Definition excluir_despesa (despesa_id : Z) : M bool :=
  try_except
    (executar_com_id despesa_id DELETE_despesas_id ;;; ret true)
    (fun _ => ret false).

Definition atualizar_despesa (despesa_id : Z) (d : date) (desc : string)
  (v : Q) (cat : string) : M bool :=
  try_except
    (executar_com_id despesa_id (UPDATE_despesas d desc v cat) ;;; ret true)
    (fun _ => ret false).

Definition excluir_meta (meta_id : Z) : M bool :=
  try_except
    (executar_com_id meta_id DELETE_metas_id ;;; ret true)
    (fun _ => ret false).

Definition atualizar_meta (meta_id : Z) (d : date) (desc : string) (v : Q)
  (cat : string) (st : option string) : M bool :=
  try_except
    (executar_com_id meta_id
       (UPDATE_metas d desc v cat (if truthy_str st then st else None))
     ;;; ret true)
    (fun _ => ret false).

(** A row of a data frame given to [importar_dados], by the four columns it
    reads: the date, and three cells passed on as they are, each of which may
    be missing ([NaN] or [None]).  In the frame of the goals the date is
    [data_limite] and the amount [valor_meta]. *)
Record linha := {
  c_data : date;
  c_descricao : option string;
  c_valor : option Q;
  c_categoria : option string
}.

Record frames := {
  f_receitas : option (list linha);
  f_despesas : option (list linha);
  f_metas : option (list linha)
}.

(** An [INSERT] with a missing cell among its parameters: the cell is bound
    as [NULL], the [NOT NULL] of the column refuses it, and the statement
    raises [sqlite3.IntegrityError] with nothing stored. *)
Definition INSERT_recusado : M Z :=
  fun w =>
    (Raise StorageError,
     {| db := db w; relogio := relogio w; falhas := tl (falhas w) |}).

(** [self.adicionar_receita(row['data'].date(), row['descricao'],
    row['valor'], row['categoria'])], and the same for the other two. *)
Definition adicionar_linha (adicionar : date -> string -> Q -> string -> M Z)
  (row : linha) : M Z :=
  match c_descricao row, c_valor row, c_categoria row with
  | Some desc, Some v, Some cat => adicionar (c_data row) desc v cat
  | _, _, _ => INSERT_recusado
  end.

Definition importar_dados (dados : frames) : M bool :=
  try_except
    (_execute_query DELETE_receitas ;;;
     _execute_query DELETE_despesas ;;;
     _execute_query DELETE_metas ;;;
     importar_tabela (f_receitas dados) (adicionar_linha adicionar_receita) ;;;
     importar_tabela (f_despesas dados) (adicionar_linha adicionar_despesa) ;;;
     importar_tabela (f_metas dados) (adicionar_linha adicionar_meta) ;;;
     ret true)
    (fun _ => ret false).

End DatabaseManager.

(* ----------------------------------------------------------------- *)
(** ** app.py *)

Module App.

(** A row of the CSV data frames: [data, descricao, valor, categoria]. *)
Record registro := {
  data : date;
  descricao : string;
  valor : Q;
  categoria : string
}.

Definition DataFrame := list registro.

(** [df.empty]. *)
Definition empty (df : DataFrame) : bool :=
  match df with
  | [] => true
  | _ :: _ => false
  end.

(** [df['valor'].sum()]. *)
Definition sum_valor (df : DataFrame) : Q := soma (map valor df).

(** [adicionar_registro]: [pd.concat([df, novo_registro])]. *)
Definition adicionar_registro (df : DataFrame) (d : date) (desc : string)
  (v : Q) (cat : string) : DataFrame :=
  df ++ [{| data := d; descricao := desc; valor := v; categoria := cat |}].

(** *** Dashboard metrics *)

Record metricas := {
  total_receitas : Q;
  total_despesas : Q;
  saldo : Q;
  percentual_despesas : Q
}.

Definition dashboard (receitas_df despesas_df : DataFrame) : metricas :=
  let total_receitas :=
    if negb (empty receitas_df) then sum_valor receitas_df else 0 in
  let total_despesas :=
    if negb (empty despesas_df) then sum_valor despesas_df else 0 in
  let saldo := total_receitas - total_despesas in
  let percentual_despesas :=
    if Qgt_bool total_receitas 0
    then (total_despesas / total_receitas) * 100
    else 0 in
  {| total_receitas := total_receitas;
     total_despesas := total_despesas;
     saldo := saldo;
     percentual_despesas := percentual_despesas |}.

(** *** Statistics of the filtered list *)

(** A pandas float result: a number or [NaN]. *)
Inductive numero :=
| NaN
| Num (q : Q).

(** [Series.mean()] of a column without missing cells: [NaN] for no row,
    else the sum over the count. *)
Definition mean (vs : list Q) : numero :=
  match vs with
  | [] => NaN
  | _ :: _ => Num (soma vs / inject_Z (Z.of_nat (List.length vs)))
  end.

(** The filters of the income and expense pages: the category unless it is
    ["Todas"], and the inclusive date range. *)
Definition filtrar (df : DataFrame) (categoria_filtro : string)
  (data_inicio data_fim : date) : DataFrame :=
  let filtradas :=
    if negb (String.eqb categoria_filtro "Todas")
    then filter (fun r => String.eqb (categoria r) categoria_filtro) df
    else df in
  filter (fun r => (data_inicio <=? data r)%Z && (data r <=? data_fim)%Z)
    filtradas.

Record estatisticas_filtradas := {
  total_filtrado : Q;
  media : numero;
  quantidade : nat
}.

(** The three metrics under the list, reached when the frame has rows;
    [None] when the page shows "Nenhuma receita registrada" instead. *)
Definition pagina_estatisticas (df : DataFrame) (categoria_filtro : string)
  (data_inicio data_fim : date) : option estatisticas_filtradas :=
  if negb (empty df)
  then
    let filtradas := filtrar df categoria_filtro data_inicio data_fim in
    Some {| total_filtrado := sum_valor filtradas;
            media := mean (map valor filtradas);
            quantidade := List.length filtradas |}
  else None.

(** *** Goal progress *)

Record meta_com_progresso := {
  meta : registro;
  progresso : Q;
  economias : Q
}.

(** The body of the loop over [metas_com_progresso.iterrows()]. *)
Definition calcular_progresso (receitas_df despesas_df : DataFrame)
  (meta : registro) : meta_com_progresso :=
  let data_meta := data meta in
  let receitas_ate_meta :=
    if negb (empty receitas_df)
    then sum_valor (filter (fun r => (data r <=? data_meta)%Z) receitas_df)
    else 0 in
  let despesas_ate_meta :=
    if negb (empty despesas_df)
    then sum_valor (filter (fun r => (data r <=? data_meta)%Z) despesas_df)
    else 0 in
  let economias := receitas_ate_meta - despesas_ate_meta in
  let progresso :=
    if Qgt_bool (valor meta) 0
    then py_min ((economias / valor meta) * 100) 100
    else 0 in
  {| meta := meta; progresso := progresso; economias := economias |}.

(** The goals page: [None] when there is no goal to show. *)
Definition metas_com_progresso (receitas_df despesas_df metas_df : DataFrame)
  : option (list meta_com_progresso) :=
  if negb (empty metas_df)
  then Some (map (calcular_progresso receitas_df despesas_df) metas_df)
  else None.

(** [len(metas_com_progresso[metas_com_progresso['progresso'] >= 100])]. *)
Definition metas_concluidas (ms : list meta_com_progresso) : nat :=
  List.length (filter (fun m => Qle_bool 100 (progresso m)) ms).

(** *** Deleting from the filtered list *)

(** A frame with its index labels: after [carregar_dados] these are the
    positions 0, 1, ... *)
Definition indexado (df : DataFrame) : list (nat * registro) :=
  combine (List.seq 0 (List.length df)) df.

(** The filtered frame, which keeps the labels of the full one. *)
Definition filtrar_indexado (df : DataFrame) (categoria_filtro : string)
  (data_inicio data_fim : date) : list (nat * registro) :=
  let filtradas :=
    if negb (String.eqb categoria_filtro "Todas")
    then filter (fun p => String.eqb (categoria (snd p)) categoria_filtro)
           (indexado df)
    else indexado df in
  filter
    (fun p => (data_inicio <=? data (snd p))%Z && (data (snd p) <=? data_fim)%Z)
    filtradas.

(** The options of the select box: [receitas_filtradas.index]. *)
Definition indices_excluir (df : DataFrame) (categoria_filtro : string)
  (data_inicio data_fim : date) : list nat :=
  map fst (filtrar_indexado df categoria_filtro data_inicio data_fim).

(** [df.drop(i)] where the labels are the positions: the row of that label
    goes; [KeyError] ([None]) for a label the frame has not. *)
Definition drop (df : DataFrame) (i : nat) : option DataFrame :=
  if (i <? List.length df)%nat
  then Some (firstn i df ++ skipn (S i) df)
  else None.

(** *** Default filters *)

(** [df['data'].min()] and [df['data'].max()] of a frame with a first row. *)
Definition data_min (r : registro) (rs : DataFrame) : date :=
  fold_left (fun m x => Z.min m (data x)) rs (data r).

Definition data_max (r : registro) (rs : DataFrame) : date :=
  fold_left (fun m x => Z.max m (data x)) rs (data r).

(** What the three filter widgets hold before the user touches them:
    ["Todas"], the earliest date and the latest date of the frame. *)
Definition filtros_padrao (df : DataFrame) : option (string * date * date) :=
  match df with
  | [] => None
  | r :: rs => Some ("Todas"%string, data_min r rs, data_max r rs)
  end.

(** *** Statistics of the goals *)

(** [metas_com_progresso['valor'].sum()]. *)
Definition total_metas (ms : list meta_com_progresso) : Q :=
  soma (map (fun m => valor (meta m)) ms).

(** [metas_com_progresso['progresso'].mean()]. *)
Definition media_progresso (ms : list meta_com_progresso) : numero :=
  mean (map progresso ms).

(** *** Statistics of the system *)

Record estatisticas_sistema := {
  n_receitas : nat;
  n_despesas : nat;
  n_metas : nat;
  primeiro_registro : option date;
  ultimo_registro : option date;
  dias_uso : Z
}.

(** The metrics of the settings page; [None] is shown as "N/A". *)
Definition sistema (receitas_df despesas_df metas_df : DataFrame)
  : estatisticas_sistema :=
  let primeiro_registro :=
    match receitas_df with
    | r :: rs => Some (data_min r rs)
    | [] => None
    end in
  let ultimo_dias :=
    match receitas_df, despesas_df with
    | r :: rs, d :: ds =>
        (Some (Z.max (data_max r rs) (data_max d ds)),
         (Z.max (data_max r rs) (data_max d ds)
          - Z.min (data_min r rs) (data_min d ds))%Z)
    | r :: rs, [] => (Some (data_max r rs), 0%Z)
    | [], d :: ds => (Some (data_max d ds), 0%Z)
    | [], [] => (None, 0%Z)
    end in
  {| n_receitas := List.length receitas_df;
     n_despesas := List.length despesas_df;
     n_metas := List.length metas_df;
     primeiro_registro := primeiro_registro;
     ultimo_registro := fst ultimo_dias;
     dias_uso := snd ultimo_dias |}.

(** *** Six months ago *)

(** The calendar fields of [datetime.now()]; [replace] keeps the time of
    day, which is left out. *)
Record datetime := {
  year : Z;
  month : Z;
  day : Z
}.

Definition is_leap (y : Z) : bool :=
  (y mod 4 =? 0)%Z && (negb (y mod 100 =? 0)%Z || (y mod 400 =? 0)%Z).

Definition days_in_month (y m : Z) : Z :=
  if (m =? 2)%Z then (if is_leap y then 29 else 28)%Z
  else if (m =? 4)%Z || (m =? 6)%Z || (m =? 9)%Z || (m =? 11)%Z then 30%Z
  else 31%Z.

(** The check of the [datetime] constructor. *)
Definition valid (d : datetime) : bool :=
  (1 <=? year d)%Z && (year d <=? 9999)%Z
  && (1 <=? month d)%Z && (month d <=? 12)%Z
  && (1 <=? day d)%Z && (day d <=? days_in_month (year d) (month d))%Z.

(** [d.replace(year=y, month=m)]: the new value goes through the
    constructor, which raises [ValueError] ([None]) for a date that is not
    in the calendar. *)
Definition replace (y m : Z) (d : datetime) : option datetime :=
  let d' := {| year := y; month := m; day := day d |} in
  if valid d' then Some d' else None.

(** The start of the chart of the last six months. *)
Definition seis_meses_atras (hoje : datetime) : option datetime :=
  if (6 <? month hoje)%Z
  then replace (year hoje) (month hoje - 6) hoje
  else replace (year hoje - 1) (month hoje + 6) hoje.

End App.

(* ----------------------------------------------------------------- *)
(** ** sheets_sync.py *)

Module Sheets.

(** A row of cells, as [get_all_values] returns it and as a CSV line holds
    it. *)
Definition linha := list string.

(** The keys of [CSV_FILES], in the order the loops visit them. *)
Inductive chave :=
| receitas
| despesas
| metas.

Definition chaves : list chave := [receitas; despesas; metas].

Definition chave_eqb (a b : chave) : bool :=
  match a, b with
  | receitas, receitas | despesas, despesas | metas, metas => true
  | _, _ => false
  end.

Definition CSV_FILES (k : chave) : string :=
  match k with
  | receitas => "dados/receitas.csv"
  | despesas => "dados/despesas.csv"
  | metas => "dados/metas.csv"
  end.

Definition WORKSHEET_TITLES (k : chave) : string :=
  match k with
  | receitas => "Receitas"
  | despesas => "Despesas"
  | metas => "Metas"
  end.

Definition COLUMNS (k : chave) : linha :=
  ["data"; "descricao"; "valor"; "categoria"]%string.

Fixpoint linha_eqb (a b : linha) : bool :=
  match a, b with
  | [], [] => true
  | x :: a', y :: b' => String.eqb x y && linha_eqb a' b'
  | _, _ => false
  end.

(** The spreadsheet 'Finance Control' as the script sees it: for each of
    the three titles, the values of that worksheet as [get_all_values]
    returns them (the rows of the filled range, all of one width), [None]
    when the spreadsheet has no worksheet of that title. *)
Definition planilha := chave -> option (list linha).

(** The spreadsheet service ([None]: no spreadsheet of that name yet) and
    the local CSV files, each by its rows, header first ([None]: no file). *)
Record estado := {
  nuvem : option planilha;
  arquivos : chave -> option (list linha)
}.

Definition definir (A : Type) (f : chave -> A) (k : chave) (v : A)
  : chave -> A :=
  fun k' => if chave_eqb k k' then v else f k'.

(** [get_or_create_sheet]: the spreadsheet, created without any of the
    three worksheets when there is none. *)
Definition get_or_create_sheet (n : option planilha) : planilha :=
  match n with
  | Some p => p
  | None => fun _ => None
  end.

(** [get_or_create_worksheet]: the worksheet of that title; when there is
    none it is added and gets the header as its only row. *)
Definition get_or_create_worksheet (sheet : planilha) (k : chave)
  : planilha * list linha :=
  match sheet k with
  | Some ws => (sheet, ws)
  | None => (definir sheet k (Some [COLUMNS k]), [COLUMNS k])
  end.

(** One round of the loop of [import_from_sheets]: a worksheet with no
    value or another first row is skipped; else the rows under the header
    become the frame, written with its header over the local file. *)
Definition importar_chave (s : planilha * (chave -> option (list linha)))
  (k : chave) : planilha * (chave -> option (list linha)) :=
  let (sheet, ws) := get_or_create_worksheet (fst s) k in
  match ws with
  | [] => (sheet, snd s)
  | cabecalho :: linhas =>
      if negb (linha_eqb cabecalho (COLUMNS k))
      then (sheet, snd s)
      else (sheet, definir (snd s) k (Some (COLUMNS k :: linhas)))
  end.

Definition import_from_sheets (s : estado) : estado :=
  let sheet := get_or_create_sheet (nuvem s) in
  let r := fold_left importar_chave chaves (sheet, arquivos s) in
  {| nuvem := Some (fst r); arquivos := snd r |}.

End Sheets.

(* ----------------------------------------------------------------- *)
(** ** Vocabulary of the properties *)

Import Database.

(** The next statement meets no storage fault. *)
Definition proxima_ok (w : mundo) : Prop := hd false (falhas w) = false.

(** No storage fault is to come. *)
Definition sem_falhas (w : mundo) : Prop := falhas w = [].

(** The next statement meets a storage fault. *)
Definition proxima_falha (w : mundo) : Prop := hd false (falhas w) = true.

(** The world after one statement that left the database [d]. *)
Definition apos (d : banco) (w : mundo) : mundo :=
  {| db := d; relogio := relogio w; falhas := tl (falhas w) |}.

(** What a stable sort of a list in [R0] order gives: [a] comes before [b]
    when it is strictly ahead on the sort key, or level with it on the key
    and ahead in [R0]. *)
Definition ordem_estavel (A : Type) (antes : A -> A -> bool)
  (R0 : A -> A -> Prop) (a b : A) : Prop :=
  antes a b = true \/ (antes a b = false /\ antes b a = false /\ R0 a b).

(** A call that fails and leaves the database as it was. *)
Definition rejeita (A : Type) (m : M A) (w : mundo) : Prop :=
  exists e w', m w = (Raise e, w') /\ db w' = db w.

(** A table as the engine keeps it: rows in increasing rowid order, every
    rowid at most the [sqlite_sequence] counter. *)
Definition tabela_ok (R : Type) (id_of : R -> Z) (t : tabela R) : Prop :=
  StronglySorted (fun a b => (id_of a < id_of b)%Z) (linhas t)
  /\ Forall (fun r => (id_of r <= seq t)%Z) (linhas t).

Definition banco_ok (b : banco) : Prop :=
  tabela_ok id (receitas b)
  /\ tabela_ok id (despesas b)
  /\ tabela_ok m_id (metas b).

(** A call that keeps the tables as the engine keeps them, however it
    ends. *)
Definition preserva (A : Type) (m : M A) : Prop :=
  forall w, banco_ok (db w) -> banco_ok (db (snd (m w))).

(** [t'] is [t] with the one row [r] added last, under the id [i] that is
    above every id of [t] and every id [t] ever gave out. *)
Definition inseriu (R : Type) (id_of : R -> Z) (t t' : tabela R) (i : Z)
  (r : R) : Prop :=
  linhas t' = linhas t ++ [r]
  /\ id_of r = i
  /\ Forall (fun x => (id_of x < i)%Z) (linhas t)
  /\ (seq t < i)%Z.

(** A database in use: two incomes on the same day and one later, two
    expenses, two goals of which one was completed by hand; ids 2 of
    [receitas] and 1 of [metas] were deleted before. *)
Definition banco_exemplo : banco :=
  {| receitas :=
       {| linhas :=
            [ {| id := 1; Database.data := 738895;
                 Database.descricao := "Salario"; Database.valor := 5000;
                 Database.categoria := "Salario";
                 created_at := 10; updated_at := 10 |};
              {| id := 3; Database.data := 738917;
                 Database.descricao := "Site"; Database.valor := 800;
                 Database.categoria := "Freelance";
                 created_at := 12; updated_at := 12 |};
              {| id := 4; Database.data := 738895;
                 Database.descricao := "Bonus"; Database.valor := 800;
                 Database.categoria := "Outros";
                 created_at := 13; updated_at := 13 |} ];
          seq := 4 |};
     despesas :=
       {| linhas :=
            [ {| id := 1; Database.data := 738917;
                 Database.descricao := "Aluguel"; Database.valor := 1200;
                 Database.categoria := "Moradia";
                 created_at := 14; updated_at := 14 |};
              {| id := 2; Database.data := 738916;
                 Database.descricao := "Mercado"; Database.valor := 300;
                 Database.categoria := "Alimentacao";
                 created_at := 15; updated_at := 16 |} ];
          seq := 2 |};
     metas :=
       {| linhas :=
            [ {| m_id := 2; data_limite := 739251;
                 m_descricao := "Viagem"; valor_meta := 4000;
                 m_categoria := "Viagem"; status := "concluida";
                 m_created_at := 17; m_updated_at := 18 |};
              {| m_id := 3; data_limite := 738946;
                 m_descricao := "Reserva"; valor_meta := 1000;
                 m_categoria := "Emergencia"; status := "ativa";
                 m_created_at := 19; m_updated_at := 19 |} ];
          seq := 3 |} |}.

Definition mundo_exemplo (fs : list bool) : mundo :=
  {| db := banco_exemplo; relogio := 20; falhas := fs |}.

(** A backup holding the rows of [banco_exemplo]. *)
Definition dados_exemplo : dados :=
  {| d_receitas := Some (linhas (receitas banco_exemplo));
     d_despesas := Some (linhas (despesas banco_exemplo));
     d_metas := Some (linhas (metas banco_exemplo)) |}.

(** Date descending, ties by ascending id. *)
Definition ordem_transacoes (a b : transacao) : Prop :=
  (Database.data b < Database.data a)%Z
  \/ (Database.data a = Database.data b /\ (id a < id b)%Z).

(** Target date ascending, ties by ascending id. *)
Definition ordem_metas (a b : meta) : Prop :=
  (data_limite a < data_limite b)%Z
  \/ (data_limite a = data_limite b /\ (m_id a < m_id b)%Z).


(** Total descending, ties by descending category name: the order of the
    query on the engine. *)
Definition ordem_do_motor (a b : grupo) : Prop :=
  total b < total a
  \/ (total a == total b
      /\ String.compare (g_categoria b) (g_categoria a) = Lt).

(** The rows of one category. *)
Definition da_categoria (c : string) (rs : list transacao) : list transacao :=
  filter (fun r => String.eqb (Database.categoria r) c) rs.

(** The stored fields that are not assigned by the store. *)
Definition campos (r : transacao) : date * string * Q * string :=
  (Database.data r, Database.descricao r, Database.valor r,
   Database.categoria r).

Definition campos_meta (r : meta) : date * string * Q * string :=
  (data_limite r, m_descricao r, valor_meta r, m_categoria r).

(** What a data frame holds under a key, nothing when the key is missing. *)
Definition linhas_de (R : Type) (df : option (list R)) : list R :=
  match df with
  | Some l => l
  | None => []
  end.

(** Rows numbered from [i] on, in order. *)
Fixpoint renumerar (R T : Type) (mk : R -> Z -> T) (i : Z) (rs : list R)
  : list T :=
  match rs with
  | [] => []
  | r :: rs' => mk r i :: renumerar mk (i + 1) rs'
  end.

(** The table after one insert per row of [rs], in order. *)
Definition inserir_todas (R T : Type) (mk : R -> Z -> T) (rs : list R)
  (t : tabela T) : tabela T :=
  {| linhas := linhas t ++ renumerar mk (seq t + 1) rs;
     seq := seq t + Z.of_nat (List.length rs) |}.

(** The rows the three imports write, from the row read and the clock. *)
Definition reinserida (agora : timestamp) (row : transacao) (i : Z)
  : transacao :=
  nova_transacao (Database.data row) (Database.descricao row)
    (Database.valor row) (Database.categoria row) agora i.

Definition meta_reinserida (agora : timestamp) (row : meta) (i : Z) : meta :=
  nova_meta (data_limite row) (m_descricao row) (valor_meta row)
    (m_categoria row) agora i.

(** No new row has the id of an old row: every new id is above. *)
Definition ids_acima (R : Type) (id_of : R -> Z) (velhas novas : list R)
  : Prop :=
  forall r r', In r velhas -> In r' novas -> (id_of r < id_of r')%Z.

(** What [importar_dados] leaves in [w'] when run in [w] on [dd]: only the
    rows of [dd], written anew and numbered on from the counters of [w]. *)
Definition reimportado (w : mundo) (dd : dados) (w' : mundo) : Prop :=
  linhas (receitas (db w'))
  = renumerar (reinserida (relogio w)) (seq (receitas (db w)) + 1)
      (linhas_de (d_receitas dd))
  /\ linhas (despesas (db w'))
     = renumerar (reinserida (relogio w)) (seq (despesas (db w)) + 1)
         (linhas_de (d_despesas dd))
  /\ linhas (metas (db w'))
     = renumerar (meta_reinserida (relogio w)) (seq (metas (db w)) + 1)
         (linhas_de (d_metas dd)).

(** The total of the specification: the sum of the amounts, 0 for none. *)
Definition total_spec (vs : list Q) : Q := fold_right Qplus 0 vs.

(** The rows up to a date. *)
Definition ate (d : date) (df : App.DataFrame) : App.DataFrame :=
  filter (fun r => (App.data r <=? d)%Z) df.

(** The CSV frames of the scenarios of the specification. *)
Definition receitas_cenario : App.DataFrame :=
  [ {| App.data := 738895; App.descricao := "Salario"; App.valor := 5000;
       App.categoria := "Salario" |} ].

Definition despesas_cenario : App.DataFrame :=
  [ {| App.data := 738917; App.descricao := "Aluguel"; App.valor := 1200;
       App.categoria := "Moradia" |} ].

Definition meta_cenario (alvo : Q) : App.registro :=
  {| App.data := 738946; App.descricao := "Reserva"; App.valor := alvo;
     App.categoria := "Emergencia" |}.

(** A mean that is a number. *)
Definition definida (n : App.numero) : Prop := exists q, n = App.Num q.

(** Category names in descending order, bytewise. *)
Definition nome_depois (a b : grupo) : Prop :=
  String.compare (g_categoria b) (g_categoria a) = Lt.

(** The groups of the records [rs] by category: one group per category that
    occurs, holding the sum and the number of the records of that category;
    counts adding up to the number of records and totals to the total of the
    records. *)
Definition grupos_de (rs : list transacao) (gs : list grupo) : Prop :=
  NoDup (map g_categoria gs)
  /\ (forall c, In c (map g_categoria gs) <-> In c (map Database.categoria rs))
  /\ (forall g, In g gs ->
        total g
        == total_spec (map Database.valor (da_categoria (g_categoria g) rs))
        /\ quantidade g
           = Z.of_nat (List.length (da_categoria (g_categoria g) rs)))
  /\ fold_right Z.add 0%Z (map quantidade gs) = Z.of_nat (List.length rs)
  /\ total_spec (map total gs) == total_spec (map Database.valor rs).


(** What the query gives: the groups of the records, by descending total,
    equal totals by descending category name. *)
Definition agrupado_no_motor (rs : list transacao) (gs : list grupo) : Prop :=
  grupos_de rs gs /\ StronglySorted ordem_do_motor gs.

(** None of the next [n] statements meets a storage fault. *)
Definition limpa (n : nat) (fs : list bool) : bool :=
  forallb negb (firstn n fs).

(** [m] runs [n] statements one after the other: it returns when none of
    them meets a fault, with their [n] entries used up, and raises the
    storage error when one does. *)
Definition gasta (A : Type) (m : M A) (n : nat) : Prop :=
  forall w,
    (limpa n (falhas w) = true ->
     exists a w', m w = (Return a, w') /\ falhas w' = skipn n (falhas w))
    /\ (limpa n (falhas w) = false ->
        exists w', m w = (Raise StorageError, w')).

(** A call that leaves the database as it was, however it ends. *)
Definition so_leitura (A : Type) (m : M A) : Prop :=
  forall w, db (snd (m w)) = db w.

(** What a listing of the incomes or expenses lets through. *)
Definition passa_transacao (di df : option date) (cat : option string)
  (r : transacao) : Prop :=
  (forall d, di = Some d -> (d <= Database.data r)%Z)
  /\ (forall d, df = Some d -> (Database.data r <= d)%Z)
  /\ (forall c, cat = Some c -> c <> EmptyString -> Database.categoria r = c).

(** What a listing of the goals lets through. *)
Definition passa_meta (st cat : option string) (r : meta) : Prop :=
  (forall s, st = Some s -> s <> EmptyString -> status r = s)
  /\ (forall c, cat = Some c -> c <> EmptyString -> m_categoria r = c).

(** What the date filter of the statistics lets through. *)
Definition no_periodo (di df : option date) (r : transacao) : Prop :=
  (forall d, di = Some d -> (d <= Database.data r)%Z)
  /\ (forall d, df = Some d -> (Database.data r <= d)%Z).

(** The totals of the dashboard over the columns as they are, in double
    precision: [df['valor'].sum() if not df.empty else 0]. *)
Definition total_em_double (valores : list Float64.float) : Float64.float :=
  match valores with
  | [] => Float64.zero
  | _ :: _ => Pandas.Series_sum valores
  end.

(** The amounts 0.1, 0.2 and 0.3. *)
Definition um_decimo : Float64.float := Float64.decimal 1 1.
Definition dois_decimos : Float64.float := Float64.decimal 2 1.
Definition tres_decimos : Float64.float := Float64.decimal 3 1.

(** A whole amount, as a double. *)
Definition inteiro (n : N) : Float64.float := Float64.of_Z (Z.of_N n).

(** The sum of whole amounts. *)
Definition soma_inteiros (ns : list N) : N := fold_right N.add 0%N ns.

(** [m * 2^k], for [k] not negative. *)
Definition desloca (m : positive) (k : Z) : positive :=
  match k with
  | Zpos d => Pos.iter xO m d
  | _ => m
  end.

(** [x] is the whole amount [n] written with [phi], as long as [n] stays
    below [B]. *)
Definition vale (T : Type) (phi : N -> T) (B : N) (x : T) (n : N) : Prop :=
  (n < B)%N -> x = phi n.

(** The four cells of a row of a frame, when none is missing. *)
Definition celulas (row : DatabaseManager.linha)
  : option (date * string * Q * string) :=
  match DatabaseManager.c_descricao row, DatabaseManager.c_valor row,
        DatabaseManager.c_categoria row with
  | Some desc, Some v, Some cat =>
      Some (DatabaseManager.c_data row, desc, v, cat)
  | _, _, _ => None
  end.

Definition completa (row : DatabaseManager.linha) : bool :=
  match celulas row with
  | Some _ => true
  | None => false
  end.

(** A dataset with no missing cell. *)
Definition completo (dd : DatabaseManager.frames) : bool :=
  forallb completa (linhas_de (DatabaseManager.f_receitas dd))
  && forallb completa (linhas_de (DatabaseManager.f_despesas dd))
  && forallb completa (linhas_de (DatabaseManager.f_metas dd)).

(** The rows of a frame before the first one with a missing cell, by their
    cells, and whether the frame has no such row. *)
Fixpoint lidas (rows : list DatabaseManager.linha)
  : list (date * string * Q * string) * bool :=
  match rows with
  | [] => ([], true)
  | row :: rows' =>
      match celulas row with
      | Some c => (c :: fst (lidas rows'), snd (lidas rows'))
      | None => ([], false)
      end
  end.

(** The rows of the three frames before the first row with a missing cell,
    in the order [importar_dados] reads them: incomes, expenses, goals. *)
Definition lidas_de (dd : DatabaseManager.frames)
  : list (date * string * Q * string) * list (date * string * Q * string)
    * list (date * string * Q * string) :=
  let r := lidas (linhas_de (DatabaseManager.f_receitas dd)) in
  let d := lidas (linhas_de (DatabaseManager.f_despesas dd)) in
  let m := lidas (linhas_de (DatabaseManager.f_metas dd)) in
  (fst r,
   if snd r then fst d else [],
   if snd r && snd d then fst m else []).

(** The rows written for the cells [c], from the clock and the id. *)
Definition gravada (agora : timestamp) (c : date * string * Q * string)
  (i : Z) : transacao :=
  match c with
  | (d, desc, v, cat) => nova_transacao d desc v cat agora i
  end.

Definition meta_gravada (agora : timestamp) (c : date * string * Q * string)
  (i : Z) : meta :=
  match c with
  | (d, desc, v, cat) => nova_meta d desc v cat agora i
  end.

(** The database [b] with its three tables emptied and the rows [ls] added,
    numbered on from the counters of [b]. *)
Definition restaurado (b : banco) (agora : timestamp)
  (ls : list (date * string * Q * string) * list (date * string * Q * string)
        * list (date * string * Q * string)) : banco :=
  match ls with
  | (r, d, m) =>
      {| receitas := inserir_todas (gravada agora) r (tab_clear (receitas b));
         despesas := inserir_todas (gravada agora) d (tab_clear (despesas b));
         metas := inserir_todas (meta_gravada agora) m (tab_clear (metas b)) |}
  end.

(** The number of rows of a dataset, and of statements [importar_dados]
    runs on one without a missing cell. *)
Definition n_linhas (dd : DatabaseManager.frames) : nat :=
  List.length (linhas_de (DatabaseManager.f_receitas dd))
  + (List.length (linhas_de (DatabaseManager.f_despesas dd))
     + List.length (linhas_de (DatabaseManager.f_metas dd))).

(** A call that raises, whatever the storage does. *)
Definition sempre_falha (A : Type) (m : M A) : Prop :=
  forall w, exists e w', m w = (Raise e, w').

(** A frame row with its four cells present. *)
Definition linha_de (c : date * string * Q * string) : DatabaseManager.linha :=
  match c with
  | (d, desc, v, cat) =>
      {| DatabaseManager.c_data := d;
         DatabaseManager.c_descricao := Some desc;
         DatabaseManager.c_valor := Some v;
         DatabaseManager.c_categoria := Some cat |}
  end.

(** A backup of two incomes and one expense in which the amount of the
    second income is missing. *)
Definition frames_exemplo : DatabaseManager.frames :=
  {| DatabaseManager.f_receitas :=
       Some [ linha_de (738895%Z, "Salario"%string, 5000, "Salario"%string);
              {| DatabaseManager.c_data := 738917;
                 DatabaseManager.c_descricao := Some "Site"%string;
                 DatabaseManager.c_valor := None;
                 DatabaseManager.c_categoria := Some "Freelance"%string |} ];
     DatabaseManager.f_despesas :=
       Some [ linha_de (738917%Z, "Aluguel"%string, 1200, "Moradia"%string) ];
     DatabaseManager.f_metas := None |}.

(** A worksheet whose first row is the header of its key. *)
Definition com_cabecalho (k : Sheets.chave) (ws : list Sheets.linha) : Prop :=
  exists linhas, ws = Sheets.COLUMNS k :: linhas.

(* ----------------------------------------------------------------- *)
(** ** Sums *)

Lemma soma_acc (vs : list Q) (a : Q) : fold_left Qplus vs a == a + soma vs.
Proof.
  unfold soma. revert a.
  induction vs as [|v vs IH]; intros a; simpl.
  - ring.
  - rewrite (IH (a + v)), (IH (0 + v)). ring.
Qed.

Lemma soma_nil : soma [] = 0.
Proof. reflexivity. Qed.

Lemma soma_cons (v : Q) (vs : list Q) : soma (v :: vs) == v + soma vs.
Proof.
  unfold soma at 1. simpl. rewrite soma_acc. ring.
Qed.

Lemma soma_app (l1 l2 : list Q) : soma (l1 ++ l2) == soma l1 + soma l2.
Proof.
  induction l1 as [|v l1 IH]; simpl.
  - rewrite soma_nil. ring.
  - rewrite !soma_cons, IH. ring.
Qed.

Lemma soma_Permutation (l1 l2 : list Q) :
  Permutation l1 l2 -> soma l1 == soma l2.
Proof.
  induction 1 as [|x l l' _ IH|x y l|l l' l'' _ IH1 _ IH2].
  - reflexivity.
  - rewrite !soma_cons, IH. reflexivity.
  - rewrite !soma_cons. ring.
  - rewrite IH1. exact IH2.
Qed.

(* ----------------------------------------------------------------- *)
(** ** The sorter *)

Section Sorter.
Variable A : Type.
Variable antes : A -> A -> bool.
Variable R0 : A -> A -> Prop.

Hypothesis antes_trans :
  forall a b c, antes a b = true -> antes b c = true -> antes a c = true.
Hypothesis antes_negtrans :
  forall a b c, antes a b = false -> antes b c = false -> antes a c = false.

Lemma inserir_Permutation (x : A) (l : list A) :
  Permutation (inserir antes x l) (x :: l).
Proof.
  induction l as [|y l IH]; simpl.
  - apply Permutation_refl.
  - destruct (antes y x).
    + eapply perm_trans; [apply perm_skip, IH | apply perm_swap].
    + apply Permutation_refl.
Qed.

Lemma order_by_Permutation (l : list A) : Permutation (order_by antes l) l.
Proof.
  induction l as [|x l IH]; simpl.
  - apply perm_nil.
  - eapply perm_trans; [apply inserir_Permutation | apply perm_skip, IH].
Qed.

Lemma inserir_sorted (x : A) (l : list A) :
  StronglySorted (ordem_estavel antes R0) l ->
  Forall (R0 x) l ->
  StronglySorted (ordem_estavel antes R0) (inserir antes x l).
Proof.
  induction 1 as [|y l Hs IH Hy]; intros Hx; simpl.
  - constructor; constructor.
  - inversion Hx as [|? ? Hxy Hxl]; subst.
    destruct (antes y x) eqn:Eyx.
    + constructor; [apply IH, Hxl|].
      apply (Permutation_Forall (Permutation_sym (inserir_Permutation x l))).
      constructor; [left; exact Eyx | exact Hy].
    + constructor; [constructor; assumption|].
      constructor.
      * destruct (antes x y) eqn:Exy; [left; exact Exy | right; auto].
      * rewrite Forall_forall in *. intros z Hz.
        destruct (antes x z) eqn:Exz; [left; exact Exz | right].
        repeat split; auto.
        destruct (Hy z Hz) as [Hyz | (_ & Hzy & _)].
        -- destruct (antes z x) eqn:Ezx; [|reflexivity].
           rewrite (antes_trans Hyz Ezx) in Eyx. discriminate.
        -- exact (antes_negtrans Hzy Eyx).
Qed.

Lemma order_by_sorted (l : list A) :
  StronglySorted R0 l ->
  StronglySorted (ordem_estavel antes R0) (order_by antes l).
Proof.
  induction 1 as [|x l Hs IH Hx]; simpl.
  - constructor.
  - apply inserir_sorted; [exact IH|].
    apply (Permutation_Forall (Permutation_sym (order_by_Permutation l))).
    exact Hx.
Qed.
End Sorter.

Lemma StronglySorted_filter (A : Type) (R : A -> A -> Prop) (f : A -> bool)
  (l : list A) :
  StronglySorted R l -> StronglySorted R (filter f l).
Proof.
  induction 1 as [|x l Hs IH Hx]; simpl.
  - constructor.
  - destruct (f x); [|exact IH].
    constructor; [exact IH|].
    rewrite Forall_forall in *. intros y Hy.
    apply filter_In in Hy. apply Hx, Hy.
Qed.

Lemma StronglySorted_impl (A : Type) (R R' : A -> A -> Prop) (l : list A) :
  (forall a b, R a b -> R' a b) ->
  StronglySorted R l -> StronglySorted R' l.
Proof.
  intros HR. induction 1 as [|x l Hs IH Hx]; constructor; [exact IH|].
  eapply Forall_impl; [|exact Hx]. intros b. apply HR.
Qed.

(* ----------------------------------------------------------------- *)
(** ** Running one statement *)

Lemma executar_ok (A : Type) (q : statement A) (w : mundo) :
  proxima_ok w ->
  executar q w
  = (Return (fst (q (relogio w) (db w))), apos (snd (q (relogio w) (db w))) w).
Proof.
  unfold proxima_ok, executar, apos. intros H.
  destruct (falhas w) as [|[|] fs]; simpl in *;
    try discriminate; destruct (q (relogio w) (db w)); reflexivity.
Qed.

Lemma executar_falha (A : Type) (q : statement A) (w : mundo) :
  proxima_falha w ->
  executar q w = (Raise StorageError, apos (db w) w).
Proof.
  unfold proxima_falha, executar, apos. intros H.
  destruct (falhas w) as [|[|] fs]; simpl in *; try discriminate.
  reflexivity.
Qed.

Lemma sem_falhas_proxima_ok (w : mundo) : sem_falhas w -> proxima_ok w.
Proof. unfold sem_falhas, proxima_ok. intros ->. reflexivity. Qed.

Lemma sem_falhas_apos (d : banco) (w : mundo) :
  sem_falhas w -> sem_falhas (apos d w).
Proof. unfold sem_falhas, apos. intros ->. reflexivity. Qed.

(* ----------------------------------------------------------------- *)
(** ** Order of the listings *)

Lemma data_desc_trans (a b c : transacao) :
  data_desc a b = true -> data_desc b c = true -> data_desc a c = true.
Proof. unfold data_desc. rewrite !Z.ltb_lt. lia. Qed.

Lemma data_desc_negtrans (a b c : transacao) :
  data_desc a b = false -> data_desc b c = false -> data_desc a c = false.
Proof. unfold data_desc. rewrite !Z.ltb_ge. lia. Qed.

Lemma data_limite_asc_trans (a b c : meta) :
  data_limite_asc a b = true -> data_limite_asc b c = true ->
  data_limite_asc a c = true.
Proof. unfold data_limite_asc. rewrite !Z.ltb_lt. lia. Qed.

Lemma data_limite_asc_negtrans (a b c : meta) :
  data_limite_asc a b = false -> data_limite_asc b c = false ->
  data_limite_asc a c = false.
Proof. unfold data_limite_asc. rewrite !Z.ltb_ge. lia. Qed.

Lemma select_transacoes_ordenadas (f : transacao -> bool)
  (t : tabela transacao) :
  tabela_ok id t ->
  StronglySorted ordem_transacoes (order_by data_desc (filter f (linhas t))).
Proof.
  intros [Hs _].
  apply StronglySorted_impl
    with (R := ordem_estavel data_desc (fun a b => (id a < id b)%Z)).
  - unfold ordem_estavel, ordem_transacoes, data_desc.
    intros a b [H | (H1 & H2 & H3)].
    + left. apply Z.ltb_lt, H.
    + right. apply Z.ltb_ge in H1, H2. split; [lia | exact H3].
  - apply order_by_sorted.
    + exact data_desc_trans.
    + exact data_desc_negtrans.
    + apply StronglySorted_filter, Hs.
Qed.

Lemma select_metas_ordenadas (f : meta -> bool) (t : tabela meta) :
  tabela_ok m_id t ->
  StronglySorted ordem_metas (order_by data_limite_asc (filter f (linhas t))).
Proof.
  intros [Hs _].
  apply StronglySorted_impl
    with (R := ordem_estavel data_limite_asc (fun a b => (m_id a < m_id b)%Z)).
  - unfold ordem_estavel, ordem_metas, data_limite_asc.
    intros a b [H | (H1 & H2 & H3)].
    + left. apply Z.ltb_lt, H.
    + right. apply Z.ltb_ge in H1, H2. split; [lia | exact H3].
  - apply order_by_sorted.
    + exact data_limite_asc_trans.
    + exact data_limite_asc_negtrans.
    + apply StronglySorted_filter, Hs.
Qed.

(** C7. Every listing returns, leaves the database as it was, and is in
    order: [obter_receitas] and [obter_despesas] by date descending,
    [obter_metas] by target date ascending, and rows with the same date by
    ascending id, whatever the filters. *)
Theorem C7_listings_ordered (w : mundo) :
  banco_ok (db w) ->
  proxima_ok w ->
  (forall di df cat, exists rs,
      obter_receitas di df cat w = (Return rs, apos (db w) w)
      /\ StronglySorted ordem_transacoes rs)
  /\ (forall di df cat, exists rs,
         obter_despesas di df cat w = (Return rs, apos (db w) w)
         /\ StronglySorted ordem_transacoes rs)
  /\ (forall st cat, exists ms,
         obter_metas st cat w = (Return ms, apos (db w) w)
         /\ StronglySorted ordem_metas ms).
Proof.
  intros (Hr & Hd & Hm) Hw. repeat split; intros.
  - eexists. split.
    + unfold obter_receitas, _execute_query. rewrite executar_ok by exact Hw.
      reflexivity.
    + simpl. apply select_transacoes_ordenadas, Hr.
  - eexists. split.
    + unfold obter_despesas, _execute_query. rewrite executar_ok by exact Hw.
      reflexivity.
    + simpl. apply select_transacoes_ordenadas, Hd.
  - eexists. split.
    + unfold obter_metas, _execute_query. rewrite executar_ok by exact Hw.
      reflexivity.
    + simpl. apply select_metas_ordenadas, Hm.
Qed.

(* ----------------------------------------------------------------- *)
(** ** The tables under insert, delete and update *)

Lemma try_query_ok (A : Type) (q : statement A) (w : mundo) :
  proxima_ok w ->
  try_except (_execute_query q ;;; ret true) (fun _ => ret false) w
  = (Return true, apos (snd (q (relogio w) (db w))) w).
Proof.
  intros H. unfold try_except, bind, _execute_query.
  rewrite executar_ok by exact H. reflexivity.
Qed.

Lemma try_query_falha (A : Type) (q : statement A) (w : mundo) :
  proxima_falha w ->
  try_except (_execute_query q ;;; ret true) (fun _ => ret false) w
  = (Return false, apos (db w) w).
Proof.
  intros H. unfold try_except, bind, _execute_query.
  rewrite executar_falha by exact H. reflexivity.
Qed.

Lemma apos_sem_falhas (w : mundo) : sem_falhas w -> apos (db w) w = w.
Proof.
  unfold sem_falhas, apos. destruct w as [d r f]; simpl. intros ->.
  reflexivity.
Qed.

Section Tabela.
Variable R : Type.
Variable id_of : R -> Z.

Lemma StronglySorted_snoc (P : R -> R -> Prop) (l : list R) (x : R) :
  StronglySorted P l -> Forall (fun a => P a x) l ->
  StronglySorted P (l ++ [x]).
Proof.
  induction 1 as [|y l Hs IH Hy]; intros Hx; simpl.
  - constructor; constructor.
  - inversion Hx; subst. constructor; [apply IH; assumption|].
    apply Forall_app.
    split; [exact Hy | constructor; [assumption | constructor]].
Qed.

Lemma tab_insert_ok (mk : Z -> R) (t : tabela R) :
  (forall i, id_of (mk i) = i) ->
  tabela_ok id_of t -> tabela_ok id_of (snd (tab_insert mk t)).
Proof.
  intros Hmk [Hs Hb]. unfold tab_insert, tabela_ok; simpl. split.
  - apply StronglySorted_snoc; [exact Hs|].
    eapply Forall_impl; [|exact Hb]. intros a Ha; simpl in Ha.
    rewrite Hmk. lia.
  - apply Forall_app. split.
    + eapply Forall_impl; [|exact Hb]. intros a Ha; simpl in *. lia.
    + constructor; [|constructor]. rewrite Hmk. lia.
Qed.

Lemma tab_insert_fresh (mk : Z -> R) (t : tabela R) :
  tabela_ok id_of t ->
  Forall (fun r => (id_of r < fst (tab_insert mk t))%Z) (linhas t).
Proof.
  intros [_ Hb]. unfold tab_insert; simpl.
  eapply Forall_impl; [|exact Hb]. intros a Ha; simpl in *. lia.
Qed.

Lemma tab_delete_ok (i : Z) (t : tabela R) :
  tabela_ok id_of t -> tabela_ok id_of (tab_delete id_of i t).
Proof.
  intros [Hs Hb]. unfold tab_delete, tabela_ok; simpl. split.
  - apply StronglySorted_filter, Hs.
  - rewrite Forall_forall in *. intros r Hr.
    apply filter_In in Hr. apply Hb, Hr.
Qed.

Lemma tab_update_ok (set : R -> R) (i : Z) (t : tabela R) :
  (forall r, id_of (set r) = id_of r) ->
  tabela_ok id_of t -> tabela_ok id_of (tab_update id_of set i t).
Proof.
  intros Hset [Hs Hb]. unfold tab_update, tabela_ok; simpl.
  assert (Hid : forall r,
             id_of (if (id_of r =? i)%Z then set r else r) = id_of r).
  { intros r. destruct (id_of r =? i)%Z; [apply Hset | reflexivity]. }
  split.
  - clear Hb. induction Hs as [|x l Hs IH Hx]; simpl; constructor.
    + exact IH.
    + apply Forall_map. eapply Forall_impl; [|exact Hx].
      intros a Ha; simpl in *. rewrite !Hid. exact Ha.
  - apply Forall_map. eapply Forall_impl; [|exact Hb].
    intros a Ha; simpl in *. rewrite Hid. exact Ha.
Qed.

Lemma tab_clear_ok (t : tabela R) : tabela_ok id_of (tab_clear t).
Proof. split; constructor. Qed.

Lemma tab_delete_absent (i : Z) (t : tabela R) :
  ~ In i (map id_of (linhas t)) -> tab_delete id_of i t = t.
Proof.
  destruct t as [l s]. unfold tab_delete; simpl. intros H. f_equal.
  induction l as [|r l IH]; simpl in *; [reflexivity|].
  destruct (Z.eqb_spec (id_of r) i) as [E|E]; simpl.
  - exfalso. apply H. left. exact E.
  - f_equal. apply IH. intros Hin. apply H. right. exact Hin.
Qed.

Lemma tab_update_absent (set : R -> R) (i : Z) (t : tabela R) :
  ~ In i (map id_of (linhas t)) -> tab_update id_of set i t = t.
Proof.
  destruct t as [l s]. unfold tab_update; simpl. intros H. f_equal.
  induction l as [|r l IH]; simpl in *; [reflexivity|].
  destruct (Z.eqb_spec (id_of r) i) as [E|E]; simpl.
  - exfalso. apply H. left. exact E.
  - f_equal. apply IH. intros Hin. apply H. right. exact Hin.
Qed.

Lemma tab_delete_gone (i : Z) (t : tabela R) :
  ~ In i (map id_of (linhas (tab_delete id_of i t))).
Proof.
  unfold tab_delete; simpl. rewrite in_map_iff. intros (r & Hr & Hin).
  apply filter_In in Hin. destruct Hin as [_ Hne].
  rewrite <- Hr, Z.eqb_refl in Hne. discriminate.
Qed.

(** A listing of a table shows only rows of the table. *)
Lemma order_by_filter_ids (antes : R -> R -> bool) (f : R -> bool)
  (l : list R) (i : Z) :
  ~ In i (map id_of l) ->
  ~ In i (map id_of (order_by antes (filter f l))).
Proof.
  intros H Hin. apply H. rewrite in_map_iff in *.
  destruct Hin as (r & Hr & Hin). exists r. split; [exact Hr|].
  apply (Permutation_in _ (order_by_Permutation antes _)) in Hin.
  apply filter_In in Hin. apply Hin.
Qed.
End Tabela.

Lemma com_receitas_id (f : tabela transacao -> tabela transacao) (b : banco) :
  f (receitas b) = receitas b -> com_receitas f b = b.
Proof. destruct b; unfold com_receitas; simpl. intros ->. reflexivity. Qed.

Lemma com_despesas_id (f : tabela transacao -> tabela transacao) (b : banco) :
  f (despesas b) = despesas b -> com_despesas f b = b.
Proof. destruct b; unfold com_despesas; simpl. intros ->. reflexivity. Qed.

Lemma com_metas_id (f : tabela meta -> tabela meta) (b : banco) :
  f (metas b) = metas b -> com_metas f b = b.
Proof. destruct b; unfold com_metas; simpl. intros ->. reflexivity. Qed.

Lemma banco_vazio_ok : banco_ok banco_vazio.
Proof. repeat split; constructor. Qed.

(* ----------------------------------------------------------------- *)
(** ** The invariant of the tables *)

Lemma preserva_ret (A : Type) (a : A) : preserva (ret a).
Proof. intros w H. exact H. Qed.

Lemma preserva_bind (A B : Type) (m : M A) (k : A -> M B) :
  preserva m -> (forall a, preserva (k a)) -> preserva (bind m k).
Proof.
  intros Hm Hk w H. unfold bind. specialize (Hm w H).
  destruct (m w) as [[a|e] w']; simpl in *.
  - apply Hk, Hm.
  - exact Hm.
Qed.

Lemma preserva_try (A : Type) (m : M A) (h : exn -> M A) :
  preserva m -> (forall e, preserva (h e)) -> preserva (try_except m h).
Proof.
  intros Hm Hh w H. unfold try_except. specialize (Hm w H).
  destruct (m w) as [[a|e] w']; simpl in *.
  - exact Hm.
  - apply Hh, Hm.
Qed.

Lemma preserva_for_each (A : Type) (xs : list A) (body : A -> M unit) :
  (forall x, preserva (body x)) -> preserva (for_each xs body).
Proof.
  intros Hb. induction xs as [|x xs IH]; simpl.
  - apply preserva_ret.
  - apply preserva_bind; [apply Hb | intros _; exact IH].
Qed.

Lemma preserva_executar (A : Type) (q : statement A) :
  (forall t b, banco_ok b -> banco_ok (snd (q t b))) -> preserva (executar q).
Proof.
  intros Hq w H. unfold executar.
  destruct (falhas w) as [|[|] fs]; simpl; try exact H;
    specialize (Hq (relogio w) (db w) H);
    destruct (q (relogio w) (db w)); exact Hq.
Qed.

Lemma preserva_importar_tabela (R : Type) (df : option (list R))
  (adicionar : R -> M Z) :
  (forall r, preserva (adicionar r)) -> preserva (importar_tabela df adicionar).
Proof.
  intros H. destruct df as [[|r rs]|]; unfold importar_tabela;
    try apply preserva_ret.
  apply preserva_for_each. intros x.
  apply preserva_bind; [apply H | intros _; apply preserva_ret].
Qed.

Lemma INSERT_receitas_ok (d : date) (desc : string) (v : Q) (cat : string)
  (t : timestamp) (b : banco) :
  banco_ok b -> banco_ok (snd (INSERT_receitas d desc v cat t b)).
Proof.
  intros (Hr & Hd & Hm). split; [|split; [exact Hd | exact Hm]].
  exact (@tab_insert_ok transacao id (nova_transacao d desc v cat t)
           (receitas b) (fun _ => eq_refl) Hr).
Qed.

Lemma INSERT_despesas_ok (d : date) (desc : string) (v : Q) (cat : string)
  (t : timestamp) (b : banco) :
  banco_ok b -> banco_ok (snd (INSERT_despesas d desc v cat t b)).
Proof.
  intros (Hr & Hd & Hm). split; [exact Hr | split; [|exact Hm]].
  exact (@tab_insert_ok transacao id (nova_transacao d desc v cat t)
           (despesas b) (fun _ => eq_refl) Hd).
Qed.

Lemma INSERT_metas_ok (d : date) (desc : string) (v : Q) (cat : string)
  (t : timestamp) (b : banco) :
  banco_ok b -> banco_ok (snd (INSERT_metas d desc v cat t b)).
Proof.
  intros (Hr & Hd & Hm). split; [exact Hr | split; [exact Hd|]].
  exact (@tab_insert_ok meta m_id (nova_meta d desc v cat t) (metas b)
           (fun _ => eq_refl) Hm).
Qed.

Lemma DELETE_receitas_id_ok (i : Z) (t : timestamp) (b : banco) :
  banco_ok b -> banco_ok (snd (DELETE_receitas_id i t b)).
Proof.
  intros (Hr & Hd & Hm). split; [|split; [exact Hd | exact Hm]].
  exact (@tab_delete_ok transacao id i (receitas b) Hr).
Qed.

Lemma DELETE_despesas_id_ok (i : Z) (t : timestamp) (b : banco) :
  banco_ok b -> banco_ok (snd (DELETE_despesas_id i t b)).
Proof.
  intros (Hr & Hd & Hm). split; [exact Hr | split; [|exact Hm]].
  exact (@tab_delete_ok transacao id i (despesas b) Hd).
Qed.

Lemma DELETE_metas_id_ok (i : Z) (t : timestamp) (b : banco) :
  banco_ok b -> banco_ok (snd (DELETE_metas_id i t b)).
Proof.
  intros (Hr & Hd & Hm). split; [exact Hr | split; [exact Hd|]].
  exact (@tab_delete_ok meta m_id i (metas b) Hm).
Qed.

Lemma UPDATE_receitas_ok (d : date) (desc : string) (v : Q) (cat : string)
  (i : Z) (t : timestamp) (b : banco) :
  banco_ok b -> banco_ok (snd (UPDATE_receitas d desc v cat i t b)).
Proof.
  intros (Hr & Hd & Hm). split; [|split; [exact Hd | exact Hm]].
  exact (@tab_update_ok transacao id (set_transacao d desc v cat t) i
           (receitas b) (fun _ => eq_refl) Hr).
Qed.

Lemma UPDATE_despesas_ok (d : date) (desc : string) (v : Q) (cat : string)
  (i : Z) (t : timestamp) (b : banco) :
  banco_ok b -> banco_ok (snd (UPDATE_despesas d desc v cat i t b)).
Proof.
  intros (Hr & Hd & Hm). split; [exact Hr | split; [|exact Hm]].
  exact (@tab_update_ok transacao id (set_transacao d desc v cat t) i
           (despesas b) (fun _ => eq_refl) Hd).
Qed.

Lemma UPDATE_metas_ok (d : date) (desc : string) (v : Q) (cat : string)
  (st : option string) (i : Z) (t : timestamp) (b : banco) :
  banco_ok b -> banco_ok (snd (UPDATE_metas d desc v cat st i t b)).
Proof.
  intros (Hr & Hd & Hm). split; [exact Hr | split; [exact Hd|]].
  exact (@tab_update_ok meta m_id (set_meta d desc v cat st t) i (metas b)
           (fun _ => eq_refl) Hm).
Qed.

Lemma DELETE_receitas_ok (t : timestamp) (b : banco) :
  banco_ok b -> banco_ok (snd (DELETE_receitas t b)).
Proof.
  intros (Hr & Hd & Hm). split; [|split; [exact Hd | exact Hm]].
  exact (@tab_clear_ok transacao id (receitas b)).
Qed.

Lemma DELETE_despesas_ok (t : timestamp) (b : banco) :
  banco_ok b -> banco_ok (snd (DELETE_despesas t b)).
Proof.
  intros (Hr & Hd & Hm). split; [exact Hr | split; [|exact Hm]].
  exact (@tab_clear_ok transacao id (despesas b)).
Qed.

Lemma DELETE_metas_ok (t : timestamp) (b : banco) :
  banco_ok b -> banco_ok (snd (DELETE_metas t b)).
Proof.
  intros (Hr & Hd & Hm). split; [exact Hr | split; [exact Hd|]].
  exact (@tab_clear_ok meta m_id (metas b)).
Qed.

Create HintDb banco_db.
#[local] Hint Resolve INSERT_receitas_ok INSERT_despesas_ok INSERT_metas_ok
  DELETE_receitas_id_ok DELETE_despesas_id_ok DELETE_metas_id_ok
  UPDATE_receitas_ok UPDATE_despesas_ok UPDATE_metas_ok
  DELETE_receitas_ok DELETE_despesas_ok DELETE_metas_ok : banco_db.

Ltac metodo_ok :=
  unfold adicionar_receita, adicionar_despesa, adicionar_meta,
    excluir_receita, excluir_despesa, excluir_meta,
    atualizar_receita, atualizar_despesa, atualizar_meta,
    importar_dados, limpar_dados, _execute_insert, _execute_query;
  repeat first [ apply preserva_try
               | apply preserva_bind
               | apply preserva_importar_tabela
               | apply preserva_ret
               | apply preserva_executar; intros; auto with banco_db
               | intro ].

(** Every method of the store keeps the tables in rowid order with their
    ids at most the counter, whether it succeeds or meets a storage fault;
    the new database starts so. *)
Lemma metodos_preservam :
  banco_ok banco_vazio
  /\ (forall d desc v cat,
         preserva (adicionar_receita d desc v cat)
         /\ preserva (adicionar_despesa d desc v cat)
         /\ preserva (adicionar_meta d desc v cat))
  /\ (forall i,
         preserva (excluir_receita i)
         /\ preserva (excluir_despesa i)
         /\ preserva (excluir_meta i))
  /\ (forall i d desc v cat st,
         preserva (atualizar_receita i d desc v cat)
         /\ preserva (atualizar_despesa i d desc v cat)
         /\ preserva (atualizar_meta i d desc v cat st))
  /\ (forall dd, preserva (importar_dados dd))
  /\ preserva limpar_dados.
Proof.
  split; [exact banco_vazio_ok|].
  split; [intros d desc v cat; split; [|split]; metodo_ok|].
  split; [intros i; split; [|split]; metodo_ok|].
  split; [intros i d desc v cat st; split; [|split]; metodo_ok|].
  split; [intros dd|]; metodo_ok.
Qed.

(* ----------------------------------------------------------------- *)
(** ** Adding records *)

(** C1, as the store behaves: an add operation checks nothing.  For every
    input, an empty description and a non-positive amount included, when the
    storage does not fail it inserts exactly one row holding the given fields
    (a goal with status ['ativa']) and returns its id, which is above every
    id the table holds or ever gave out; the other tables are untouched. *)
Theorem C1_add_inserts_any_input (w : mundo) (d : date) (desc : string)
  (v : Q) (cat : string) :
  banco_ok (db w) ->
  proxima_ok w ->
  (exists i r w',
      adicionar_receita d desc v cat w = (Return i, w')
      /\ inseriu id (receitas (db w)) (receitas (db w')) i r
      /\ campos r = (d, desc, v, cat)
      /\ despesas (db w') = despesas (db w)
      /\ metas (db w') = metas (db w)
      /\ banco_ok (db w'))
  /\ (exists i r w',
         adicionar_despesa d desc v cat w = (Return i, w')
         /\ inseriu id (despesas (db w)) (despesas (db w')) i r
         /\ campos r = (d, desc, v, cat)
         /\ receitas (db w') = receitas (db w)
         /\ metas (db w') = metas (db w)
         /\ banco_ok (db w'))
  /\ (exists i r w',
         adicionar_meta d desc v cat w = (Return i, w')
         /\ inseriu m_id (metas (db w)) (metas (db w')) i r
         /\ campos_meta r = (d, desc, v, cat)
         /\ status r = "ativa"%string
         /\ receitas (db w') = receitas (db w)
         /\ despesas (db w') = despesas (db w)
         /\ banco_ok (db w')).
Proof.
  intros (Hr & Hd & Hm) Hw.
  pose proof (tab_insert_ok (nova_transacao d desc v cat (relogio w))
                (fun i => eq_refl) Hr) as Hr'.
  pose proof (tab_insert_ok (nova_transacao d desc v cat (relogio w))
                (fun i => eq_refl) Hd) as Hd'.
  pose proof (tab_insert_ok (nova_meta d desc v cat (relogio w))
                (fun i => eq_refl) Hm) as Hm'.
  pose proof (tab_insert_fresh (nova_transacao d desc v cat (relogio w)) Hr)
    as Fr.
  pose proof (tab_insert_fresh (nova_transacao d desc v cat (relogio w)) Hd)
    as Fd.
  pose proof (tab_insert_fresh (nova_meta d desc v cat (relogio w)) Hm)
    as Fm.
  split; [|split].
  - do 3 eexists. split.
    { unfold adicionar_receita, _execute_insert.
      rewrite executar_ok by exact Hw. reflexivity. }
    simpl. split.
    { split; [reflexivity | split; [reflexivity | split; [exact Fr | lia]]]. }
    do 3 (split; [reflexivity|]).
    split; [exact Hr' | split; assumption].
  - do 3 eexists. split.
    { unfold adicionar_despesa, _execute_insert.
      rewrite executar_ok by exact Hw. reflexivity. }
    simpl. split.
    { split; [reflexivity | split; [reflexivity | split; [exact Fd | lia]]]. }
    do 3 (split; [reflexivity|]).
    split; [assumption | split; [exact Hd' | assumption]].
  - do 3 eexists. split.
    { unfold adicionar_meta, _execute_insert.
      rewrite executar_ok by exact Hw. reflexivity. }
    simpl. split.
    { split; [reflexivity | split; [reflexivity | split; [exact Fm | lia]]]. }
    do 4 (split; [reflexivity|]).
    split; [assumption | split; [assumption | exact Hm']].
Qed.

Lemma banco_exemplo_ok : banco_ok banco_exemplo.
Proof.
  unfold banco_ok, tabela_ok; simpl.
  repeat split; repeat constructor; simpl; lia.
Qed.

Lemma C1_add_inserts_any_input_witness :
  banco_ok (db (mundo_exemplo []))
  /\ proxima_ok (mundo_exemplo [])
  /\ exists i r w',
      adicionar_receita 738946%Z "" (-5) "Outros" (mundo_exemplo [])
      = (Return i, w')
      /\ inseriu id (receitas (db (mundo_exemplo []))) (receitas (db w')) i r
      /\ campos r = (738946%Z, ""%string, -5, "Outros"%string)
      /\ despesas (db w') = despesas (db (mundo_exemplo []))
      /\ metas (db w') = metas (db (mundo_exemplo []))
      /\ banco_ok (db w').
Proof.
  assert (Hb : banco_ok (db (mundo_exemplo []))).
  { unfold banco_ok, tabela_ok; simpl.
    repeat split; repeat constructor; simpl; lia. }
  assert (Hw : proxima_ok (mundo_exemplo [])) by reflexivity.
  split; [exact Hb | split; [exact Hw|]].
  exact (proj1 (@C1_add_inserts_any_input (mundo_exemplo []) 738946%Z
                  ""%string (-5) "Outros"%string Hb Hw)).
Defined.

(** The store accepts what C1 says it rejects: on a new database an income
    with an empty description gets id 1 and is stored, and so is a goal with
    a negative target amount; neither call fails. *)
Lemma C1_invalid_input_is_stored :
  adicionar_receita 738895%Z "" 100 "Outros" (mundo_inicial 0 [])
  = (Return 1%Z,
     {| db :=
          com_receitas
            (fun _ =>
               {| linhas := [nova_transacao 738895 "" 100 "Outros" 0 1];
                  seq := 1 |}) banco_vazio;
        relogio := 0; falhas := [] |})
  /\ ~ rejeita (adicionar_receita 738895%Z "" 100 "Outros")
       (mundo_inicial 0 [])
  /\ adicionar_meta 738946%Z "Viagem" (-5) "Viagem" (mundo_inicial 0 [])
     = (Return 1%Z,
        {| db :=
             com_metas
               (fun _ =>
                  {| linhas := [nova_meta 738946 "Viagem" (-5) "Viagem" 0 1];
                     seq := 1 |}) banco_vazio;
           relogio := 0; falhas := [] |})
  /\ ~ rejeita (adicionar_meta 738946%Z "Viagem" (-5) "Viagem")
       (mundo_inicial 0 []).
Proof.
  split; [reflexivity | split; [|split; [reflexivity|]]].
  - intros (e & w' & H & _). discriminate H.
  - intros (e & w' & H & _). discriminate H.
Qed.

(* ----------------------------------------------------------------- *)
(** ** Deleting and updating by id *)

(** A delete or update of one table, run where no fault is to come and the
    statement leaves the table as it is, reports success and changes
    nothing. *)
Ltac sem_efeito H Hcom Htab :=
  rewrite try_query_ok by (apply sem_falhas_proxima_ok; exact H);
  simpl; rewrite Hcom by (apply Htab; assumption);
  rewrite apos_sem_falhas by exact H; reflexivity.

Lemma excluir_receita_ausente (w : mundo) (i : Z) :
  sem_falhas w -> ~ In i (map id (linhas (receitas (db w)))) ->
  excluir_receita i w = (Return true, w).
Proof.
  intros H Hi. unfold excluir_receita.
  sem_efeito H com_receitas_id tab_delete_absent.
Qed.

Lemma excluir_despesa_ausente (w : mundo) (i : Z) :
  sem_falhas w -> ~ In i (map id (linhas (despesas (db w)))) ->
  excluir_despesa i w = (Return true, w).
Proof.
  intros H Hi. unfold excluir_despesa.
  sem_efeito H com_despesas_id tab_delete_absent.
Qed.

Lemma excluir_meta_ausente (w : mundo) (i : Z) :
  sem_falhas w -> ~ In i (map m_id (linhas (metas (db w)))) ->
  excluir_meta i w = (Return true, w).
Proof.
  intros H Hi. unfold excluir_meta.
  sem_efeito H com_metas_id tab_delete_absent.
Qed.

Lemma atualizar_receita_ausente (w : mundo) (i : Z) (d : date)
  (desc : string) (v : Q) (cat : string) :
  sem_falhas w -> ~ In i (map id (linhas (receitas (db w)))) ->
  atualizar_receita i d desc v cat w = (Return true, w).
Proof.
  intros H Hi. unfold atualizar_receita.
  sem_efeito H com_receitas_id tab_update_absent.
Qed.

Lemma atualizar_despesa_ausente (w : mundo) (i : Z) (d : date)
  (desc : string) (v : Q) (cat : string) :
  sem_falhas w -> ~ In i (map id (linhas (despesas (db w)))) ->
  atualizar_despesa i d desc v cat w = (Return true, w).
Proof.
  intros H Hi. unfold atualizar_despesa.
  sem_efeito H com_despesas_id tab_update_absent.
Qed.

Lemma atualizar_meta_ausente (w : mundo) (i : Z) (d : date)
  (desc : string) (v : Q) (cat : string) (st : option string) :
  sem_falhas w -> ~ In i (map m_id (linhas (metas (db w)))) ->
  atualizar_meta i d desc v cat st w = (Return true, w).
Proof.
  intros H Hi. unfold atualizar_meta.
  sem_efeito H com_metas_id tab_update_absent.
Qed.

Lemma obter_receitas_sem_falhas (w : mundo) (di df : option date)
  (cat : option string) :
  sem_falhas w ->
  obter_receitas di df cat w
  = (Return (order_by data_desc
               (filter (where_transacao di df cat)
                  (linhas (receitas (db w))))), w).
Proof.
  intros H. unfold obter_receitas, _execute_query.
  rewrite executar_ok by (apply sem_falhas_proxima_ok; exact H).
  simpl. rewrite apos_sem_falhas by exact H. reflexivity.
Qed.

Lemma obter_despesas_sem_falhas (w : mundo) (di df : option date)
  (cat : option string) :
  sem_falhas w ->
  obter_despesas di df cat w
  = (Return (order_by data_desc
               (filter (where_transacao di df cat)
                  (linhas (despesas (db w))))), w).
Proof.
  intros H. unfold obter_despesas, _execute_query.
  rewrite executar_ok by (apply sem_falhas_proxima_ok; exact H).
  simpl. rewrite apos_sem_falhas by exact H. reflexivity.
Qed.

Lemma obter_metas_sem_falhas (w : mundo) (st cat : option string) :
  sem_falhas w ->
  obter_metas st cat w
  = (Return (order_by data_limite_asc
               (filter (where_meta st cat) (linhas (metas (db w))))), w).
Proof.
  intros H. unfold obter_metas, _execute_query.
  rewrite executar_ok by (apply sem_falhas_proxima_ok; exact H).
  simpl. rewrite apos_sem_falhas by exact H. reflexivity.
Qed.

(** The same three things for an id that SQLite holds, on each table. *)
Lemma por_id_sem_falhas (w : mundo) (i : Z) :
  sem_falhas w ->
  ((~ In i (map id (linhas (receitas (db w)))) ->
    excluir_receita i w = (Return true, w)
    /\ forall d desc v cat,
        atualizar_receita i d desc v cat w = (Return true, w))
   /\ exists w',
       excluir_receita i w = (Return true, w')
       /\ (forall di df cat, exists rs,
              obter_receitas di df cat w' = (Return rs, w')
              /\ ~ In i (map id rs))
       /\ excluir_receita i w' = (Return true, w'))
  /\ ((~ In i (map id (linhas (despesas (db w)))) ->
       excluir_despesa i w = (Return true, w)
       /\ forall d desc v cat,
           atualizar_despesa i d desc v cat w = (Return true, w))
      /\ exists w',
          excluir_despesa i w = (Return true, w')
          /\ (forall di df cat, exists rs,
                 obter_despesas di df cat w' = (Return rs, w')
                 /\ ~ In i (map id rs))
          /\ excluir_despesa i w' = (Return true, w'))
  /\ ((~ In i (map m_id (linhas (metas (db w)))) ->
       excluir_meta i w = (Return true, w)
       /\ forall d desc v cat st,
           atualizar_meta i d desc v cat st w = (Return true, w))
      /\ exists w',
          excluir_meta i w = (Return true, w')
          /\ (forall st cat, exists ms,
                 obter_metas st cat w' = (Return ms, w')
                 /\ ~ In i (map m_id ms))
          /\ excluir_meta i w' = (Return true, w')).
Proof.
  intros H. pose proof (sem_falhas_proxima_ok H) as Hp.
  split; [|split]; (split; [intros Hi; split; intros|]).
  - apply excluir_receita_ausente; assumption.
  - apply atualizar_receita_ausente; assumption.
  - eexists. split; [unfold excluir_receita; apply try_query_ok, Hp|].
    simpl. set (w' := apos _ w).
    assert (H' : sem_falhas w') by apply sem_falhas_apos, H.
    assert (Hg : ~ In i (map id (linhas (receitas (db w'))))).
    { simpl. apply tab_delete_gone. }
    split; [|apply excluir_receita_ausente; assumption].
    intros. eexists. split; [apply obter_receitas_sem_falhas, H'|].
    apply order_by_filter_ids, Hg.
  - apply excluir_despesa_ausente; assumption.
  - apply atualizar_despesa_ausente; assumption.
  - eexists. split; [unfold excluir_despesa; apply try_query_ok, Hp|].
    simpl. set (w' := apos _ w).
    assert (H' : sem_falhas w') by apply sem_falhas_apos, H.
    assert (Hg : ~ In i (map id (linhas (despesas (db w'))))).
    { simpl. apply tab_delete_gone. }
    split; [|apply excluir_despesa_ausente; assumption].
    intros. eexists. split; [apply obter_despesas_sem_falhas, H'|].
    apply order_by_filter_ids, Hg.
  - apply excluir_meta_ausente; assumption.
  - apply atualizar_meta_ausente; assumption.
  - eexists. split; [unfold excluir_meta; apply try_query_ok, Hp|].
    simpl. set (w' := apos _ w).
    assert (H' : sem_falhas w') by apply sem_falhas_apos, H.
    assert (Hg : ~ In i (map m_id (linhas (metas (db w'))))).
    { simpl. apply tab_delete_gone. }
    split; [|apply excluir_meta_ausente; assumption].
    intros. eexists. split; [apply obter_metas_sem_falhas, H'|].
    apply order_by_filter_ids, Hg.
Qed.

Lemma executar_com_id_cabe (A : Type) (i : Z) (q : Z -> statement A) :
  DatabaseManager.cabe_int64 i = true ->
  DatabaseManager.executar_com_id i q = _execute_query (q i).
Proof.
  intros H. unfold DatabaseManager.executar_com_id. rewrite H. reflexivity.
Qed.

(** For an id that fits, the call is the method of [Database]. *)
Lemma chamadas_cabe (i : Z) :
  DatabaseManager.cabe_int64 i = true ->
  DatabaseManager.excluir_receita i = excluir_receita i
  /\ DatabaseManager.excluir_despesa i = excluir_despesa i
  /\ DatabaseManager.excluir_meta i = excluir_meta i
  /\ DatabaseManager.atualizar_receita i = atualizar_receita i
  /\ DatabaseManager.atualizar_despesa i = atualizar_despesa i
  /\ DatabaseManager.atualizar_meta i = atualizar_meta i.
Proof.
  intros H.
  unfold DatabaseManager.excluir_receita, DatabaseManager.excluir_despesa,
    DatabaseManager.excluir_meta, DatabaseManager.atualizar_receita,
    DatabaseManager.atualizar_despesa, DatabaseManager.atualizar_meta,
    DatabaseManager.executar_com_id.
  rewrite H. repeat split; reflexivity.
Qed.

(** For an id that does not fit, the call returns [False] and the database
    stays. *)
Lemma chamada_nao_cabe (A : Type) (i : Z) (q : Z -> statement A) (w : mundo) :
  DatabaseManager.cabe_int64 i = false ->
  try_except (DatabaseManager.executar_com_id i q ;;; ret true)
    (fun _ => ret false) w
  = (Return false, apos (db w) w).
Proof.
  intros H. unfold DatabaseManager.executar_com_id. rewrite H. reflexivity.
Qed.

(** C2, as the store behaves: no call fails for a missing id.  For every id
    absent from a table that fits in SQLite's 64-bit signed integer, the
    delete and the update of that table return [True] and leave the store as
    it was; for an id that does not fit they return [False], and the store is
    as it was too.  After a delete of an id that fits, no listing of that
    table shows a row with that id, and a second delete returns [True] again
    and changes nothing. *)
Theorem C2_delete_update_by_id (w : mundo) (i : Z) :
  sem_falhas w ->
  ((DatabaseManager.cabe_int64 i = true ->
    (~ In i (map id (linhas (receitas (db w)))) ->
     DatabaseManager.excluir_receita i w = (Return true, w)
     /\ forall d desc v cat,
         DatabaseManager.atualizar_receita i d desc v cat w
         = (Return true, w))
    /\ exists w',
        DatabaseManager.excluir_receita i w = (Return true, w')
        /\ (forall di df cat, exists rs,
               obter_receitas di df cat w' = (Return rs, w')
               /\ ~ In i (map id rs))
        /\ DatabaseManager.excluir_receita i w' = (Return true, w'))
   /\ (DatabaseManager.cabe_int64 i = false ->
       DatabaseManager.excluir_receita i w = (Return false, w)
       /\ forall d desc v cat,
           DatabaseManager.atualizar_receita i d desc v cat w
           = (Return false, w)))
  /\ ((DatabaseManager.cabe_int64 i = true ->
       (~ In i (map id (linhas (despesas (db w)))) ->
        DatabaseManager.excluir_despesa i w = (Return true, w)
        /\ forall d desc v cat,
            DatabaseManager.atualizar_despesa i d desc v cat w
            = (Return true, w))
       /\ exists w',
           DatabaseManager.excluir_despesa i w = (Return true, w')
           /\ (forall di df cat, exists rs,
                  obter_despesas di df cat w' = (Return rs, w')
                  /\ ~ In i (map id rs))
           /\ DatabaseManager.excluir_despesa i w' = (Return true, w'))
      /\ (DatabaseManager.cabe_int64 i = false ->
          DatabaseManager.excluir_despesa i w = (Return false, w)
          /\ forall d desc v cat,
              DatabaseManager.atualizar_despesa i d desc v cat w
              = (Return false, w)))
  /\ ((DatabaseManager.cabe_int64 i = true ->
       (~ In i (map m_id (linhas (metas (db w)))) ->
        DatabaseManager.excluir_meta i w = (Return true, w)
        /\ forall d desc v cat st,
            DatabaseManager.atualizar_meta i d desc v cat st w
            = (Return true, w))
       /\ exists w',
           DatabaseManager.excluir_meta i w = (Return true, w')
           /\ (forall st cat, exists ms,
                  obter_metas st cat w' = (Return ms, w')
                  /\ ~ In i (map m_id ms))
           /\ DatabaseManager.excluir_meta i w' = (Return true, w'))
      /\ (DatabaseManager.cabe_int64 i = false ->
          DatabaseManager.excluir_meta i w = (Return false, w)
          /\ forall d desc v cat st,
              DatabaseManager.atualizar_meta i d desc v cat st w
              = (Return false, w))).
Proof.
  intros H. destruct (por_id_sem_falhas i H) as (Hr & Hd & Hm).
  split; [|split]; (split; [intros Hc|intros Hc]).
  - destruct (@chamadas_cabe i Hc) as (-> & _ & _ & -> & _). exact Hr.
  - split; intros;
      unfold DatabaseManager.excluir_receita,
        DatabaseManager.atualizar_receita;
      rewrite chamada_nao_cabe by exact Hc;
      rewrite apos_sem_falhas by exact H; reflexivity.
  - destruct (@chamadas_cabe i Hc) as (_ & -> & _ & _ & -> & _). exact Hd.
  - split; intros;
      unfold DatabaseManager.excluir_despesa,
        DatabaseManager.atualizar_despesa;
      rewrite chamada_nao_cabe by exact Hc;
      rewrite apos_sem_falhas by exact H; reflexivity.
  - destruct (@chamadas_cabe i Hc) as (_ & _ & -> & _ & _ & ->). exact Hm.
  - split; intros;
      unfold DatabaseManager.excluir_meta, DatabaseManager.atualizar_meta;
      rewrite chamada_nao_cabe by exact Hc;
      rewrite apos_sem_falhas by exact H; reflexivity.
Qed.

Lemma C2_delete_update_by_id_witness :
  sem_falhas (mundo_exemplo [])
  /\ DatabaseManager.cabe_int64 2 = true
  /\ ~ In 2%Z (map id (linhas (receitas (db (mundo_exemplo [])))))
  /\ DatabaseManager.excluir_receita 2 (mundo_exemplo [])
     = (Return true, mundo_exemplo [])
  /\ DatabaseManager.cabe_int64 (2 ^ 63) = false
  /\ DatabaseManager.excluir_receita (2 ^ 63) (mundo_exemplo [])
     = (Return false, mundo_exemplo []).
Proof.
  assert (H : sem_falhas (mundo_exemplo [])) by reflexivity.
  assert (Hc : DatabaseManager.cabe_int64 2 = true) by reflexivity.
  assert (Hn : DatabaseManager.cabe_int64 (2 ^ 63) = false) by reflexivity.
  assert (Hi : ~ In 2%Z (map id (linhas (receitas (db (mundo_exemplo [])))))).
  { simpl. intros [E | [E | [E | []]]]; discriminate E. }
  split; [exact H | split; [exact Hc | split; [exact Hi|]]].
  split;
    [exact (proj1 (proj1 (proj1 (proj1
                     (@C2_delete_update_by_id (mundo_exemplo []) 2%Z H))
                     Hc) Hi))|].
  split; [exact Hn|].
  exact (proj1 (proj2 (proj1
                 (@C2_delete_update_by_id (mundo_exemplo []) (2 ^ 63)%Z H))
                 Hn)).
Defined.

(** The store reports success where C2 says it fails: income id 2 is not in
    the table, yet deleting it and updating it both return [True], and
    neither call fails. *)
Lemma C2_absent_id_reports_success :
  ~ In 2%Z (map id (linhas (receitas (db (mundo_exemplo [])))))
  /\ DatabaseManager.excluir_receita 2 (mundo_exemplo [])
     = (Return true, mundo_exemplo [])
  /\ DatabaseManager.atualizar_receita 2 738946 "Site" 900 "Freelance"
       (mundo_exemplo [])
     = (Return true, mundo_exemplo [])
  /\ ~ rejeita (DatabaseManager.excluir_receita 2) (mundo_exemplo [])
  /\ ~ rejeita
         (DatabaseManager.atualizar_receita 2 738946 "Site" 900 "Freelance")
         (mundo_exemplo []).
Proof.
  split; [|split; [reflexivity | split; [reflexivity | split]]].
  - simpl. intros [E | [E | [E | []]]]; discriminate E.
  - intros (e & w' & E & _). discriminate E.
  - intros (e & w' & E & _). discriminate E.
Qed.

(* ----------------------------------------------------------------- *)
(** ** Storage faults *)

Lemma importar_dados_falha_logo (dd : dados) (w : mundo) :
  proxima_falha w -> importar_dados dd w = (Return false, apos (db w) w).
Proof.
  intros H. unfold importar_dados, try_except, bind, _execute_query.
  rewrite executar_falha by exact H. reflexivity.
Qed.

Lemma limpar_dados_falha_logo (w : mundo) :
  proxima_falha w -> limpar_dados w = (Return false, apos (db w) w).
Proof.
  intros H. unfold limpar_dados, try_except, bind, _execute_query.
  rewrite executar_falha by exact H. reflexivity.
Qed.

(* ----------------------------------------------------------------- *)
(** ** Backup and restore *)

Lemma inserir_todas_cons (R T : Type) (mk : R -> Z -> T) (r : R)
  (rs : list R) (t : tabela T) :
  inserir_todas mk rs (snd (tab_insert (mk r) t))
  = inserir_todas mk (r :: rs) t.
Proof.
  unfold inserir_todas, tab_insert. cbn [snd linhas seq renumerar].
  rewrite <- app_assoc. cbn [app]. f_equal.
  change (List.length (r :: rs)) with (S (List.length rs)). lia.
Qed.

Lemma inserir_todas_nil (R T : Type) (mk : R -> Z -> T) (t : tabela T) :
  inserir_todas mk [] t = t.
Proof.
  destruct t as [l s]. unfold inserir_todas; simpl.
  rewrite app_nil_r. f_equal. lia.
Qed.

Lemma importar_receitas_sem_falhas (rs : list transacao) (b : banco)
  (agora : timestamp) :
  for_each rs
    (fun row =>
       adicionar_receita (Database.data row) (Database.descricao row)
         (Database.valor row) (Database.categoria row) ;;; ret tt)
    {| db := b; relogio := agora; falhas := [] |}
  = (Return tt,
     {| db := com_receitas (inserir_todas (reinserida agora) rs) b;
        relogio := agora; falhas := [] |}).
Proof.
  revert b. induction rs as [|r rs IH]; intros b.
  - simpl. unfold ret. rewrite com_receitas_id by apply inserir_todas_nil.
    reflexivity.
  - cbn [for_each]. unfold bind at 1. unfold bind at 1.
    unfold adicionar_receita, _execute_insert, executar, INSERT_receitas.
    cbn. rewrite IH. unfold com_receitas. cbn.
    rewrite <- (inserir_todas_cons (reinserida agora) r rs (receitas b)).
    reflexivity.
Qed.

Lemma importar_despesas_sem_falhas (rs : list transacao) (b : banco)
  (agora : timestamp) :
  for_each rs
    (fun row =>
       adicionar_despesa (Database.data row) (Database.descricao row)
         (Database.valor row) (Database.categoria row) ;;; ret tt)
    {| db := b; relogio := agora; falhas := [] |}
  = (Return tt,
     {| db := com_despesas (inserir_todas (reinserida agora) rs) b;
        relogio := agora; falhas := [] |}).
Proof.
  revert b. induction rs as [|r rs IH]; intros b.
  - simpl. unfold ret. rewrite com_despesas_id by apply inserir_todas_nil.
    reflexivity.
  - cbn [for_each]. unfold bind at 1. unfold bind at 1.
    unfold adicionar_despesa, _execute_insert, executar, INSERT_despesas.
    cbn. rewrite IH. unfold com_despesas. cbn.
    rewrite <- (inserir_todas_cons (reinserida agora) r rs (despesas b)).
    reflexivity.
Qed.

Lemma importar_metas_sem_falhas (rs : list meta) (b : banco)
  (agora : timestamp) :
  for_each rs
    (fun row =>
       adicionar_meta (data_limite row) (m_descricao row) (valor_meta row)
         (m_categoria row) ;;; ret tt)
    {| db := b; relogio := agora; falhas := [] |}
  = (Return tt,
     {| db := com_metas (inserir_todas (meta_reinserida agora) rs) b;
        relogio := agora; falhas := [] |}).
Proof.
  revert b. induction rs as [|r rs IH]; intros b.
  - simpl. unfold ret. rewrite com_metas_id by apply inserir_todas_nil.
    reflexivity.
  - cbn [for_each]. unfold bind at 1. unfold bind at 1.
    unfold adicionar_meta, _execute_insert, executar, INSERT_metas.
    cbn. rewrite IH. unfold com_metas. cbn.
    rewrite <- (inserir_todas_cons (meta_reinserida agora) r rs (metas b)).
    reflexivity.
Qed.

Lemma importar_tabela_receitas (df : option (list transacao)) (b : banco)
  (agora : timestamp) :
  importar_tabela df
    (fun row =>
       adicionar_receita (Database.data row) (Database.descricao row)
         (Database.valor row) (Database.categoria row))
    {| db := b; relogio := agora; falhas := [] |}
  = (Return tt,
     {| db := com_receitas (inserir_todas (reinserida agora) (linhas_de df)) b;
        relogio := agora; falhas := [] |}).
Proof.
  destruct df as [[|r rs]|]; unfold importar_tabela, linhas_de.
  - unfold ret. rewrite com_receitas_id by apply inserir_todas_nil.
    reflexivity.
  - apply importar_receitas_sem_falhas.
  - unfold ret. rewrite com_receitas_id by apply inserir_todas_nil.
    reflexivity.
Qed.

Lemma importar_tabela_despesas (df : option (list transacao)) (b : banco)
  (agora : timestamp) :
  importar_tabela df
    (fun row =>
       adicionar_despesa (Database.data row) (Database.descricao row)
         (Database.valor row) (Database.categoria row))
    {| db := b; relogio := agora; falhas := [] |}
  = (Return tt,
     {| db := com_despesas (inserir_todas (reinserida agora) (linhas_de df)) b;
        relogio := agora; falhas := [] |}).
Proof.
  destruct df as [[|r rs]|]; unfold importar_tabela, linhas_de.
  - unfold ret. rewrite com_despesas_id by apply inserir_todas_nil.
    reflexivity.
  - apply importar_despesas_sem_falhas.
  - unfold ret. rewrite com_despesas_id by apply inserir_todas_nil.
    reflexivity.
Qed.

Lemma importar_tabela_metas (df : option (list meta)) (b : banco)
  (agora : timestamp) :
  importar_tabela df
    (fun row =>
       adicionar_meta (data_limite row) (m_descricao row) (valor_meta row)
         (m_categoria row))
    {| db := b; relogio := agora; falhas := [] |}
  = (Return tt,
     {| db :=
          com_metas (inserir_todas (meta_reinserida agora) (linhas_de df)) b;
        relogio := agora; falhas := [] |}).
Proof.
  destruct df as [[|r rs]|]; unfold importar_tabela, linhas_de.
  - unfold ret. rewrite com_metas_id by apply inserir_todas_nil.
    reflexivity.
  - apply importar_metas_sem_falhas.
  - unfold ret. rewrite com_metas_id by apply inserir_todas_nil.
    reflexivity.
Qed.

Lemma importar_dados_sem_falhas (dd : dados) (b : banco) (agora : timestamp) :
  importar_dados dd {| db := b; relogio := agora; falhas := [] |}
  = (Return true,
     {| db :=
          {| receitas :=
               inserir_todas (reinserida agora) (linhas_de (d_receitas dd))
                 (tab_clear (receitas b));
             despesas :=
               inserir_todas (reinserida agora) (linhas_de (d_despesas dd))
                 (tab_clear (despesas b));
             metas :=
               inserir_todas (meta_reinserida agora) (linhas_de (d_metas dd))
                 (tab_clear (metas b)) |};
        relogio := agora; falhas := [] |}).
Proof.
  unfold importar_dados, try_except.
  unfold bind at 1. unfold _execute_query at 1, executar at 1.
  cbn [falhas relogio db DELETE_receitas tl].
  unfold bind at 1. unfold _execute_query at 1, executar at 1.
  cbn [falhas relogio db DELETE_despesas tl].
  unfold bind at 1. unfold _execute_query at 1, executar at 1.
  cbn [falhas relogio db DELETE_metas tl].
  unfold bind at 1. rewrite importar_tabela_receitas.
  unfold bind at 1. rewrite importar_tabela_despesas.
  unfold bind at 1. rewrite importar_tabela_metas.
  reflexivity.
Qed.

Lemma filter_all (A : Type) (f : A -> bool) (l : list A) :
  (forall x, f x = true) -> filter f l = l.
Proof.
  intros H. induction l as [|x l IH]; simpl; [reflexivity|].
  rewrite H, IH. reflexivity.
Qed.

Lemma exportar_dados_sem_falhas (w : mundo) :
  sem_falhas w ->
  exportar_dados w
  = (Return
       {| d_receitas := Some (order_by data_desc (linhas (receitas (db w))));
          d_despesas := Some (order_by data_desc (linhas (despesas (db w))));
          d_metas := Some (order_by data_limite_asc (linhas (metas (db w)))) |},
     w).
Proof.
  intros H. unfold exportar_dados, bind.
  rewrite obter_receitas_sem_falhas, obter_despesas_sem_falhas,
    obter_metas_sem_falhas by exact H.
  rewrite !filter_all by reflexivity. reflexivity.
Qed.

Section Renumerar.
Variables R T : Type.
Variable mk : R -> Z -> T.

Lemma map_renumerar (U : Type) (f : T -> U) (g : R -> U) (i : Z)
  (rs : list R) :
  (forall r j, f (mk r j) = g r) ->
  map f (renumerar mk i rs) = map g rs.
Proof.
  intros H. revert i. induction rs as [|r rs IH]; intros i; simpl.
  - reflexivity.
  - rewrite H, IH. reflexivity.
Qed.

Lemma Forall_renumerar (P : T -> Prop) (i : Z) (rs : list R) :
  (forall r j, (i <= j)%Z -> P (mk r j)) ->
  Forall P (renumerar mk i rs).
Proof.
  revert i. induction rs as [|r rs IH]; intros i H; simpl; constructor.
  - apply H. lia.
  - apply IH. intros r' j Hj. apply H. lia.
Qed.
End Renumerar.

Lemma ids_acima_renumerar (R T : Type) (id_of : T -> Z) (mk : R -> Z -> T)
  (t : tabela T) (rs : list R) :
  (forall r j, id_of (mk r j) = j) ->
  tabela_ok id_of t ->
  ids_acima id_of (linhas t) (renumerar mk (seq t + 1) rs).
Proof.
  intros Hmk [_ Hb] r r' Hr Hr'.
  rewrite Forall_forall in Hb. specialize (Hb r Hr).
  assert (Hn : Forall (fun x => (seq t + 1 <= id_of x)%Z)
                 (renumerar mk (seq t + 1) rs)).
  { apply Forall_renumerar. intros r0 j Hj. rewrite Hmk. exact Hj. }
  rewrite Forall_forall in Hn. specialize (Hn r' Hr'). simpl in *. lia.
Qed.

Lemma importar_dados_efeito (w : mundo) (dd : dados) :
  sem_falhas w ->
  banco_ok (db w) ->
  exists w',
    importar_dados dd w = (Return true, w')
    /\ reimportado w dd w'
    /\ ids_acima id (linhas (receitas (db w))) (linhas (receitas (db w')))
    /\ ids_acima id (linhas (despesas (db w))) (linhas (despesas (db w')))
    /\ ids_acima m_id (linhas (metas (db w))) (linhas (metas (db w')))
    /\ Forall (fun g => status g = "ativa"%string) (linhas (metas (db w'))).
Proof.
  destruct w as [b agora fs]. unfold sem_falhas; simpl.
  intros -> (Hr & Hd & Hm).
  eexists. split; [apply importar_dados_sem_falhas|].
  unfold reimportado; cbn.
  split; [repeat split|].
  split; [apply ids_acima_renumerar; [reflexivity | exact Hr]|].
  split; [apply ids_acima_renumerar; [reflexivity | exact Hd]|].
  split; [apply ids_acima_renumerar; [reflexivity | exact Hm]|].
  apply Forall_renumerar. reflexivity.
Qed.

(** C10. [importar_dados] empties the three tables and then adds the rows of
    the dataset one by one: what it leaves are these rows only, each under a
    new id above every id the table held, each goal with status ['ativa'].
    So an export followed by its import keeps the date, description, amount
    and category of every row, keeps no id, and leaves every goal
    ['ativa']. *)
Theorem C10_import_renumbers_and_resets_status (w : mundo) (dd : dados) :
  sem_falhas w ->
  banco_ok (db w) ->
  (exists w',
      importar_dados dd w = (Return true, w')
      /\ reimportado w dd w'
      /\ ids_acima id (linhas (receitas (db w))) (linhas (receitas (db w')))
      /\ ids_acima id (linhas (despesas (db w))) (linhas (despesas (db w')))
      /\ ids_acima m_id (linhas (metas (db w))) (linhas (metas (db w')))
      /\ Forall (fun g => status g = "ativa"%string) (linhas (metas (db w'))))
  /\ (exists exportado w',
         exportar_dados w = (Return exportado, w)
         /\ importar_dados exportado w = (Return true, w')
         /\ Permutation (map campos (linhas (receitas (db w'))))
              (map campos (linhas (receitas (db w))))
         /\ Permutation (map campos (linhas (despesas (db w'))))
              (map campos (linhas (despesas (db w))))
         /\ Permutation (map campos_meta (linhas (metas (db w'))))
              (map campos_meta (linhas (metas (db w))))
         /\ ids_acima id (linhas (receitas (db w)))
              (linhas (receitas (db w')))
         /\ ids_acima id (linhas (despesas (db w)))
              (linhas (despesas (db w')))
         /\ ids_acima m_id (linhas (metas (db w))) (linhas (metas (db w')))
         /\ Forall (fun g => status g = "ativa"%string)
              (linhas (metas (db w')))).
Proof.
  intros H Hb. split; [apply importar_dados_efeito; assumption|].
  pose proof (exportar_dados_sem_falhas H) as He.
  match type of He with
  | _ = (Return ?e, _) =>
      destruct (@importar_dados_efeito w e H Hb)
        as (w' & Hi & (Er & Ed & Em) & Ir & Id & Im & Hs);
      exists e, w'
  end.
  split; [exact He|].
  split; [exact Hi|].
  simpl in Er, Ed, Em.
  split; [|split; [|split]].
  - rewrite Er, (map_renumerar _ campos campos) by reflexivity.
    apply Permutation_map, order_by_Permutation.
  - rewrite Ed, (map_renumerar _ campos campos) by reflexivity.
    apply Permutation_map, order_by_Permutation.
  - rewrite Em, (map_renumerar _ campos_meta campos_meta) by reflexivity.
    apply Permutation_map, order_by_Permutation.
  - repeat split; assumption.
Qed.

Lemma C10_import_renumbers_and_resets_status_witness :
  sem_falhas (mundo_exemplo [])
  /\ banco_ok (db (mundo_exemplo []))
  /\ exists w',
      importar_dados dados_exemplo (mundo_exemplo []) = (Return true, w')
      /\ reimportado (mundo_exemplo []) dados_exemplo w'
      /\ ids_acima id (linhas (receitas (db (mundo_exemplo []))))
           (linhas (receitas (db w')))
      /\ ids_acima id (linhas (despesas (db (mundo_exemplo []))))
           (linhas (despesas (db w')))
      /\ ids_acima m_id (linhas (metas (db (mundo_exemplo []))))
           (linhas (metas (db w')))
      /\ Forall (fun g => status g = "ativa"%string) (linhas (metas (db w'))).
Proof.
  assert (H : sem_falhas (mundo_exemplo [])) by reflexivity.
  assert (Hb : banco_ok (db (mundo_exemplo []))).
  { unfold banco_ok, tabela_ok; simpl.
    repeat split; repeat constructor; simpl; lia. }
  split; [exact H | split; [exact Hb|]].
  exact (proj1 (@C10_import_renumbers_and_resets_status
                  (mundo_exemplo []) dados_exemplo H Hb)).
Defined.

(** The example database through an export and its import: the goals come
    back in target-date order under ids 4 and 5, both ['ativa'], the one
    completed by hand included. *)
Example roundtrip_exemplo_metas :
  match exportar_dados (mundo_exemplo []) with
  | (Return dd, w) =>
      match importar_dados dd w with
      | (Return ok, w') =>
          (ok, map (fun g => (m_id g, m_descricao g, status g))
                 (linhas (metas (db w'))))
      | _ => (false, [])
      end
  | _ => (false, [])
  end
  = (true, [(4%Z, "Reserva"%string, "ativa"%string);
            (5%Z, "Viagem"%string, "ativa"%string)]).
Proof. reflexivity. Qed.

Example roundtrip_exemplo_receitas :
  match exportar_dados (mundo_exemplo []) with
  | (Return dd, w) =>
      match importar_dados dd w with
      | (Return ok, w') =>
          (ok, map (fun r => (id r, Database.descricao r))
                 (linhas (receitas (db w'))))
      | _ => (false, [])
      end
  | _ => (false, [])
  end
  = (true, [(5%Z, "Site"%string); (6%Z, "Salario"%string);
            (7%Z, "Bonus"%string)]).
Proof. reflexivity. Qed.

Lemma C7_listings_ordered_witness :
  banco_ok (db (mundo_exemplo []))
  /\ proxima_ok (mundo_exemplo [])
  /\ exists rs,
      obter_receitas None None None (mundo_exemplo [])
      = (Return rs, apos (db (mundo_exemplo [])) (mundo_exemplo []))
      /\ StronglySorted ordem_transacoes rs.
Proof.
  assert (Hb : banco_ok (db (mundo_exemplo []))).
  { unfold banco_ok, tabela_ok; simpl.
    repeat split; repeat constructor; simpl; lia. }
  assert (Hw : proxima_ok (mundo_exemplo [])) by reflexivity.
  split; [exact Hb | split; [exact Hw|]].
  exact (proj1 (@C7_listings_ordered (mundo_exemplo []) Hb Hw) None None None).
Defined.

(** Two incomes of the same day come out in id order, after the later one. *)
Example obter_receitas_exemplo :
  option_map (map id)
    (match obter_receitas None None None (mundo_exemplo []) with
     | (Return rs, _) => Some rs
     | _ => None
     end)
  = Some [3%Z; 1%Z; 4%Z].
Proof. reflexivity. Qed.

Example obter_metas_exemplo :
  option_map (map m_id)
    (match obter_metas None (Some ""%string) (mundo_exemplo []) with
     | (Return ms, _) => Some ms
     | _ => None
     end)
  = Some [3%Z; 2%Z].
Proof. reflexivity. Qed.

(* ----------------------------------------------------------------- *)
(** ** Storage faults, and rows the schema refuses *)

Lemma importar_tabela_for_each (R : Type) (df : option (list R))
  (adicionar : R -> M Z) :
  importar_tabela df adicionar
  = for_each (linhas_de df) (fun row => adicionar row ;;; ret tt).
Proof. destruct df as [[|r rs]|]; reflexivity. Qed.

Lemma adicionar_linha_celulas
  (adicionar : date -> string -> Q -> string -> M Z)
  (row : DatabaseManager.linha) :
  DatabaseManager.adicionar_linha adicionar row
  = match celulas row with
    | Some (d, desc, v, cat) => adicionar d desc v cat
    | None => DatabaseManager.INSERT_recusado
    end.
Proof.
  unfold DatabaseManager.adicionar_linha, celulas.
  destruct (DatabaseManager.c_descricao row),
    (DatabaseManager.c_valor row), (DatabaseManager.c_categoria row);
    reflexivity.
Qed.

(** The rows of a frame go in one by one, up to the first with a missing
    cell, which raises. *)
Lemma linhas_receitas_sem_falhas (rows : list DatabaseManager.linha)
  (b : banco) (agora : timestamp) :
  for_each rows
    (fun row =>
       DatabaseManager.adicionar_linha adicionar_receita row ;;; ret tt)
    {| db := b; relogio := agora; falhas := [] |}
  = (if snd (lidas rows) then Return tt else Raise StorageError,
     {| db := com_receitas (inserir_todas (gravada agora) (fst (lidas rows))) b;
        relogio := agora; falhas := [] |}).
Proof.
  revert b. induction rows as [|row rows IH]; intros b.
  - simpl. unfold ret. rewrite com_receitas_id by apply inserir_todas_nil.
    reflexivity.
  - cbn [for_each lidas]. unfold bind at 1. unfold bind at 1.
    rewrite adicionar_linha_celulas.
    destruct (celulas row) as [[[[d desc] v] cat]|].
    + unfold adicionar_receita, _execute_insert, executar, INSERT_receitas.
      cbn. rewrite IH. unfold com_receitas. cbn.
      rewrite <- (inserir_todas_cons (gravada agora) (d, desc, v, cat)
                    (fst (lidas rows)) (receitas b)).
      reflexivity.
    + cbn. rewrite com_receitas_id by apply inserir_todas_nil. reflexivity.
Qed.

Lemma linhas_despesas_sem_falhas (rows : list DatabaseManager.linha)
  (b : banco) (agora : timestamp) :
  for_each rows
    (fun row =>
       DatabaseManager.adicionar_linha adicionar_despesa row ;;; ret tt)
    {| db := b; relogio := agora; falhas := [] |}
  = (if snd (lidas rows) then Return tt else Raise StorageError,
     {| db := com_despesas (inserir_todas (gravada agora) (fst (lidas rows))) b;
        relogio := agora; falhas := [] |}).
Proof.
  revert b. induction rows as [|row rows IH]; intros b.
  - simpl. unfold ret. rewrite com_despesas_id by apply inserir_todas_nil.
    reflexivity.
  - cbn [for_each lidas]. unfold bind at 1. unfold bind at 1.
    rewrite adicionar_linha_celulas.
    destruct (celulas row) as [[[[d desc] v] cat]|].
    + unfold adicionar_despesa, _execute_insert, executar, INSERT_despesas.
      cbn. rewrite IH. unfold com_despesas. cbn.
      rewrite <- (inserir_todas_cons (gravada agora) (d, desc, v, cat)
                    (fst (lidas rows)) (despesas b)).
      reflexivity.
    + cbn. rewrite com_despesas_id by apply inserir_todas_nil. reflexivity.
Qed.

Lemma linhas_metas_sem_falhas (rows : list DatabaseManager.linha)
  (b : banco) (agora : timestamp) :
  for_each rows
    (fun row =>
       DatabaseManager.adicionar_linha adicionar_meta row ;;; ret tt)
    {| db := b; relogio := agora; falhas := [] |}
  = (if snd (lidas rows) then Return tt else Raise StorageError,
     {| db :=
          com_metas (inserir_todas (meta_gravada agora) (fst (lidas rows))) b;
        relogio := agora; falhas := [] |}).
Proof.
  revert b. induction rows as [|row rows IH]; intros b.
  - simpl. unfold ret. rewrite com_metas_id by apply inserir_todas_nil.
    reflexivity.
  - cbn [for_each lidas]. unfold bind at 1. unfold bind at 1.
    rewrite adicionar_linha_celulas.
    destruct (celulas row) as [[[[d desc] v] cat]|].
    + unfold adicionar_meta, _execute_insert, executar, INSERT_metas.
      cbn. rewrite IH. unfold com_metas. cbn.
      rewrite <- (inserir_todas_cons (meta_gravada agora) (d, desc, v, cat)
                    (fst (lidas rows)) (metas b)).
      reflexivity.
    + cbn. rewrite com_metas_id by apply inserir_todas_nil. reflexivity.
Qed.

Lemma lidas_completa (rows : list DatabaseManager.linha) :
  snd (lidas rows) = forallb completa rows.
Proof.
  induction rows as [|row rows IH]; [reflexivity|].
  cbn [lidas forallb]. unfold completa.
  destruct (celulas row); [exact IH | reflexivity].
Qed.

(** With no storage fault, [importar_dados] returns [True] exactly for a
    dataset without a missing cell, and leaves the rows it read before the
    first missing cell. *)
Lemma importar_frames_sem_falhas (dd : DatabaseManager.frames) (b : banco)
  (agora : timestamp) :
  DatabaseManager.importar_dados dd
    {| db := b; relogio := agora; falhas := [] |}
  = (Return (completo dd),
     {| db := restaurado b agora (lidas_de dd);
        relogio := agora; falhas := [] |}).
Proof.
  unfold DatabaseManager.importar_dados, try_except, completo, lidas_de,
    restaurado.
  rewrite !importar_tabela_for_each, <- !lidas_completa.
  unfold bind at 1. unfold _execute_query at 1, executar at 1.
  cbn [falhas relogio db DELETE_receitas tl].
  unfold bind at 1. unfold _execute_query at 1, executar at 1.
  cbn [falhas relogio db DELETE_despesas tl].
  unfold bind at 1. unfold _execute_query at 1, executar at 1.
  cbn [falhas relogio db DELETE_metas tl].
  unfold bind at 1. rewrite linhas_receitas_sem_falhas.
  destruct (snd (lidas (linhas_de (DatabaseManager.f_receitas dd)))).
  - unfold bind at 1. rewrite linhas_despesas_sem_falhas.
    destruct (snd (lidas (linhas_de (DatabaseManager.f_despesas dd)))).
    + unfold bind at 1. rewrite linhas_metas_sem_falhas.
      destruct (snd (lidas (linhas_de (DatabaseManager.f_metas dd))));
        reflexivity.
    + cbn. unfold com_despesas, com_metas, com_receitas. cbn.
      rewrite inserir_todas_nil. reflexivity.
  - cbn. unfold com_despesas, com_metas, com_receitas. cbn.
    rewrite !inserir_todas_nil. reflexivity.
Qed.

Lemma adicionar_linha_falha (adicionar : date -> string -> Q -> string -> M Z)
  (row : DatabaseManager.linha) (w : mundo) :
  (forall d desc v cat,
      adicionar d desc v cat w = (Raise StorageError, apos (db w) w)) ->
  DatabaseManager.adicionar_linha adicionar row w
  = (Raise StorageError, apos (db w) w).
Proof.
  intros H. rewrite adicionar_linha_celulas.
  destruct (celulas row) as [[[[d desc] v] cat]|]; [apply H | reflexivity].
Qed.

Lemma adicionar_falha (w : mundo) :
  proxima_falha w ->
  forall d desc v cat,
    adicionar_receita d desc v cat w = (Raise StorageError, apos (db w) w)
    /\ adicionar_despesa d desc v cat w = (Raise StorageError, apos (db w) w)
    /\ adicionar_meta d desc v cat w = (Raise StorageError, apos (db w) w).
Proof.
  intros H d desc v cat.
  unfold adicionar_receita, adicionar_despesa, adicionar_meta, _execute_insert.
  repeat split; apply executar_falha, H.
Qed.

(** The rows of the three frames, once the tables are emptied: a fault on
    the first statement there is stops the import before anything is
    written. *)
Lemma linhas_falha_logo (dd : DatabaseManager.frames) (w : mundo) :
  proxima_falha w ->
  n_linhas dd <> 0%nat ->
  (importar_tabela (DatabaseManager.f_receitas dd)
     (DatabaseManager.adicionar_linha adicionar_receita) ;;;
   importar_tabela (DatabaseManager.f_despesas dd)
     (DatabaseManager.adicionar_linha adicionar_despesa) ;;;
   importar_tabela (DatabaseManager.f_metas dd)
     (DatabaseManager.adicionar_linha adicionar_meta) ;;;
   ret true) w
  = (Raise StorageError, apos (db w) w).
Proof.
  intros H Hn. pose proof (adicionar_falha H) as Ha.
  rewrite !importar_tabela_for_each. unfold n_linhas in Hn.
  destruct (linhas_de (DatabaseManager.f_receitas dd)) as [|r rs].
  - destruct (linhas_de (DatabaseManager.f_despesas dd)) as [|d ds].
    + destruct (linhas_de (DatabaseManager.f_metas dd)) as [|m ms].
      * exfalso. apply Hn. reflexivity.
      * cbn [for_each]. unfold bind, ret.
        rewrite adicionar_linha_falha by (intros; apply Ha). reflexivity.
    + cbn [for_each]. unfold bind, ret.
      rewrite adicionar_linha_falha by (intros; apply Ha). reflexivity.
  - cbn [for_each]. unfold bind.
    rewrite adicionar_linha_falha by (intros; apply Ha). reflexivity.
Qed.

Lemma importar_frames_falha_logo (dd : DatabaseManager.frames) (w : mundo) :
  proxima_falha w ->
  DatabaseManager.importar_dados dd w = (Return false, apos (db w) w).
Proof.
  intros H.
  unfold DatabaseManager.importar_dados, try_except, bind, _execute_query.
  rewrite executar_falha by exact H. reflexivity.
Qed.

(** C4, as the store behaves.  A call that is one statement (each add,
    update and delete) and meets a storage fault leaves the database as it
    was: the add raises, the update and the delete return [False].
    [importar_dados] and [limpar_dados] are several statements, each
    committed on its own: a fault on the first one leaves the database as it
    was, a fault on the first insert of [importar_dados], whatever the
    dataset, leaves the three tables empty.  Both return [False].  A row of
    the dataset with a missing cell is refused on the [NOT NULL] of its
    column, and this failure applies the import in part: with no storage
    fault at all, [importar_dados] returns [False] and leaves the tables with
    the rows that come before that row and no other; it returns [True], with
    every row stored, exactly when no cell is missing. *)
Theorem C4_storage_fault_effects :
  (forall w, proxima_falha w ->
     (forall d desc v cat,
         adicionar_receita d desc v cat w = (Raise StorageError, apos (db w) w)
         /\ adicionar_despesa d desc v cat w
            = (Raise StorageError, apos (db w) w)
         /\ adicionar_meta d desc v cat w
            = (Raise StorageError, apos (db w) w))
     /\ (forall i,
            DatabaseManager.excluir_receita i w = (Return false, apos (db w) w)
            /\ DatabaseManager.excluir_despesa i w
               = (Return false, apos (db w) w)
            /\ DatabaseManager.excluir_meta i w
               = (Return false, apos (db w) w))
     /\ (forall i d desc v cat st,
            DatabaseManager.atualizar_receita i d desc v cat w
            = (Return false, apos (db w) w)
            /\ DatabaseManager.atualizar_despesa i d desc v cat w
               = (Return false, apos (db w) w)
            /\ DatabaseManager.atualizar_meta i d desc v cat st w
               = (Return false, apos (db w) w))
     /\ (forall dd,
            DatabaseManager.importar_dados dd w
            = (Return false, apos (db w) w))
     /\ limpar_dados w = (Return false, apos (db w) w))
  /\ (forall w dd fs,
         falhas w = false :: false :: false :: true :: fs ->
         n_linhas dd <> 0%nat ->
         DatabaseManager.importar_dados dd w
         = (Return false,
            {| db :=
                 {| receitas := tab_clear (receitas (db w));
                    despesas := tab_clear (despesas (db w));
                    metas := tab_clear (metas (db w)) |};
               relogio := relogio w;
               falhas := fs |}))
  /\ (forall w dd,
         sem_falhas w ->
         DatabaseManager.importar_dados dd w
         = (Return (completo dd),
            {| db := restaurado (db w) (relogio w) (lidas_de dd);
               relogio := relogio w;
               falhas := [] |})).
Proof.
  split; [|split].
  - intros w H. split; [exact (adicionar_falha H)|].
    split; [|split; [|split]].
    + intros i.
      unfold DatabaseManager.excluir_receita, DatabaseManager.excluir_despesa,
        DatabaseManager.excluir_meta, DatabaseManager.executar_com_id.
      destruct (DatabaseManager.cabe_int64 i);
        repeat split; try (apply try_query_falha, H);
        unfold try_except, bind, proxima_falha, apos in *;
        destruct (falhas w) as [|[|] fs]; try discriminate; reflexivity.
    + intros i d desc v cat st.
      unfold DatabaseManager.atualizar_receita,
        DatabaseManager.atualizar_despesa, DatabaseManager.atualizar_meta,
        DatabaseManager.executar_com_id.
      destruct (DatabaseManager.cabe_int64 i);
        repeat split; try (apply try_query_falha, H);
        unfold try_except, bind, proxima_falha, apos in *;
        destruct (falhas w) as [|[|] fs]; try discriminate; reflexivity.
    + intros dd. apply importar_frames_falha_logo, H.
    + apply limpar_dados_falha_logo, H.
  - intros [b t f] dd fs Hf Hn. simpl in Hf. subst f.
    unfold DatabaseManager.importar_dados, try_except.
    unfold bind at 1. unfold _execute_query at 1, executar at 1.
    cbn [falhas relogio db DELETE_receitas tl].
    unfold bind at 1. unfold _execute_query at 1, executar at 1.
    cbn [falhas relogio db DELETE_despesas tl].
    unfold bind at 1. unfold _execute_query at 1, executar at 1.
    cbn [falhas relogio db DELETE_metas tl].
    rewrite linhas_falha_logo by (try reflexivity; exact Hn).
    reflexivity.
  - intros [b t f] dd H. unfold sem_falhas in H; simpl in H. subst f.
    apply importar_frames_sem_falhas.
Qed.

Lemma C4_storage_fault_effects_witness :
  proxima_falha (mundo_exemplo [true])
  /\ DatabaseManager.excluir_receita 1 (mundo_exemplo [true])
     = (Return false, mundo_exemplo [])
  /\ falhas (mundo_exemplo [false; false; false; true])
     = [false; false; false; true]
  /\ n_linhas frames_exemplo <> 0%nat
  /\ DatabaseManager.importar_dados frames_exemplo
       (mundo_exemplo [false; false; false; true])
     = (Return false,
        {| db :=
             {| receitas := tab_clear (receitas banco_exemplo);
                despesas := tab_clear (despesas banco_exemplo);
                metas := tab_clear (metas banco_exemplo) |};
           relogio := 20;
           falhas := [] |})
  /\ sem_falhas (mundo_exemplo [])
  /\ DatabaseManager.importar_dados frames_exemplo (mundo_exemplo [])
     = (Return false,
        {| db :=
             {| receitas :=
                  {| linhas :=
                       [nova_transacao 738895 "Salario" 5000 "Salario" 20 5];
                     seq := 5 |};
                despesas := tab_clear (despesas banco_exemplo);
                metas := tab_clear (metas banco_exemplo) |};
           relogio := 20;
           falhas := [] |}).
Proof.
  assert (H : proxima_falha (mundo_exemplo [true])) by reflexivity.
  assert (Hn : n_linhas frames_exemplo <> 0%nat) by discriminate.
  assert (Hs : sem_falhas (mundo_exemplo [])) by reflexivity.
  split; [exact H|]. split; [|split; [reflexivity|]].
  - exact (proj1 (proj1 (proj2 (proj1 C4_storage_fault_effects _ H)) 1%Z)).
  - split; [exact Hn|]. split; [|split; [exact Hs|]].
    + exact (proj1 (proj2 C4_storage_fault_effects)
               (mundo_exemplo [false; false; false; true]) frames_exemplo
               [] eq_refl Hn).
    + exact (proj2 (proj2 C4_storage_fault_effects)
               (mundo_exemplo []) frames_exemplo Hs).
Defined.

(** A storage fault in the middle of [importar_dados] does not leave the
    prior state: restoring a backup over the example database with the
    fourth statement failing returns [False] and leaves every table empty. *)
Lemma C4_import_fault_loses_rows :
  hd false (falhas (mundo_exemplo [false; false; false; true])) = false
  /\ nth 3 (falhas (mundo_exemplo [false; false; false; true])) false = true
  /\ fst (importar_dados dados_exemplo
            (mundo_exemplo [false; false; false; true]))
     = Return false
  /\ db (snd (importar_dados dados_exemplo
                (mundo_exemplo [false; false; false; true])))
     <> db (mundo_exemplo [false; false; false; true])
  /\ linhas (receitas
               (db (snd (importar_dados dados_exemplo
                           (mundo_exemplo [false; false; false; true])))))
     = []
  /\ linhas (receitas (db (mundo_exemplo [false; false; false; true])))
     <> [].
Proof.
  repeat split; try reflexivity.
  - intros E. apply (f_equal (fun b => linhas (receitas b))) in E.
    discriminate E.
  - discriminate.
Qed.

(* ----------------------------------------------------------------- *)
(** ** Totals *)

Lemma soma_total_spec (vs : list Q) : soma vs == total_spec vs.
Proof.
  induction vs as [|v vs IH]; [reflexivity|].
  rewrite soma_cons, IH. reflexivity.
Qed.

Lemma soma_ou_zero_SUM (vs : list Q) : soma_ou_zero [SUM vs] == soma vs.
Proof.
  destruct vs as [|v vs]; [reflexivity|].
  unfold SUM, soma_ou_zero.
  destruct (Qeq_bool (soma (v :: vs)) 0) eqn:E; [|reflexivity].
  apply Qeq_bool_eq in E. rewrite E. reflexivity.
Qed.

Lemma obter_estatisticas_gerais_sem_falhas (w : mundo)
  (di df : option date) :
  sem_falhas w ->
  exists st,
    obter_estatisticas_gerais di df w = (Return st, w)
    /\ Database.total_receitas st
       = soma_ou_zero
           [SUM (map Database.valor
                   (filter (where_periodo di df)
                      (linhas (receitas (db w)))))]
    /\ Database.total_despesas st
       = soma_ou_zero
           [SUM (map Database.valor
                   (filter (where_periodo di df)
                      (linhas (despesas (db w)))))]
    /\ Database.saldo st
       = Database.total_receitas st - Database.total_despesas st
    /\ Database.percentual_despesas st
       = percentual (Database.total_despesas st) (Database.total_receitas st).
Proof.
  destruct w as [b agora fs]. unfold sem_falhas; simpl. intros ->.
  eexists. split.
  - unfold obter_estatisticas_gerais, bind, _execute_query, executar, ret,
      SELECT_SUM_receitas, SELECT_SUM_despesas, SELECT_COUNT_receitas,
      SELECT_COUNT_despesas.
    cbn [falhas db relogio tl]. reflexivity.
  - repeat split.
Qed.

Lemma sum_valor_dashboard (df : App.DataFrame) :
  (if negb (App.empty df) then App.sum_valor df else 0)
  == total_spec (map App.valor df).
Proof.
  destruct df as [|r df]; [reflexivity|].
  cbn [App.empty negb]. unfold App.sum_valor. apply soma_total_spec.
Qed.

(** With exact additions, the order in which numpy adds a column gives the
    plain sum. *)
Lemma somar_em_exato (res : Q) (vs : list Q) :
  Numpy.somar_em Qplus res vs == res + soma vs.
Proof. unfold Numpy.somar_em. apply soma_acc. Qed.

Lemma somar_bloco_length (T : Type) (add : T -> T -> T) (r bloco : list T) :
  List.length (Numpy.somar_bloco add r bloco) = List.length r.
Proof.
  revert bloco. induction r as [|x r IH]; intros [|y bloco]; simpl;
    try reflexivity.
  rewrite IH. reflexivity.
Qed.

Lemma somar_bloco_exato (r bloco : list Q) :
  (List.length bloco <= List.length r)%nat ->
  soma (Numpy.somar_bloco Qplus r bloco) == soma r + soma bloco.
Proof.
  revert bloco. induction r as [|x r IH]; intros [|y bloco] H; simpl in *.
  - rewrite soma_nil. ring.
  - lia.
  - rewrite soma_nil. ring.
  - rewrite !soma_cons, IH by lia. ring.
Qed.

Lemma soma_firstn_skipn (n : nat) (vs : list Q) :
  soma vs == soma (firstn n vs) + soma (skipn n vs).
Proof. rewrite <- soma_app, firstn_skipn. reflexivity. Qed.

Lemma somar_blocos_exato (k : nat) (r vs : list Q) :
  List.length r = 8%nat ->
  List.length (fst (Numpy.somar_blocos Qplus k r vs)) = 8%nat
  /\ soma (fst (Numpy.somar_blocos Qplus k r vs))
     + soma (snd (Numpy.somar_blocos Qplus k r vs))
     == soma r + soma vs.
Proof.
  revert r vs. induction k as [|k IH]; intros r vs Hr; simpl.
  - split; [exact Hr | reflexivity].
  - destruct (IH (Numpy.somar_bloco Qplus r (firstn 8 vs)) (skipn 8 vs))
      as [Hl Hs].
    + rewrite somar_bloco_length. exact Hr.
    + split; [exact Hl|]. rewrite Hs, somar_bloco_exato.
      * rewrite (soma_firstn_skipn 8 vs). ring.
      * rewrite Hr. apply firstn_le_length.
Qed.

Lemma juntar_exato (r : list Q) :
  List.length r = 8%nat -> Numpy.juntar Qplus 0 r == soma r.
Proof.
  destruct r as [|r0 [|r1 [|r2 [|r3 [|r4 [|r5 [|r6 [|r7 [|r8 r]]]]]]]]];
    try discriminate.
  intros _. unfold Numpy.juntar, soma. simpl. ring.
Qed.

Lemma pairwise_sum_exato (fuel : nat) (vs : list Q) :
  (List.length vs <= fuel)%nat ->
  Numpy.pairwise_sum_em Qplus 0 fuel vs == soma vs.
Proof.
  revert vs. induction fuel as [|fuel IH]; intros vs Hf;
    cbn [Numpy.pairwise_sum_em];
    destruct (Nat.ltb_spec (List.length vs) 8) as [H8|H8];
    try (rewrite somar_em_exato; ring);
    destruct (Nat.leb_spec (List.length vs) 128) as [H128|H128];
    try lia.
  - destruct (@somar_blocos_exato (Nat.div (List.length vs) 8 - 1)
                (firstn 8 vs) (skipn 8 vs)) as [Hl Hs].
    { rewrite firstn_length_le by exact H8. reflexivity. }
    destruct (Numpy.somar_blocos Qplus _ _ _) as [r resto].
    cbn [fst snd] in Hl, Hs.
    rewrite somar_em_exato, juntar_exato, Hs by exact Hl.
    symmetry. apply soma_firstn_skipn.
  - set (n2 := (Nat.div (List.length vs) 2
                - Nat.modulo (Nat.div (List.length vs) 2) 8)%nat).
    assert (Hd : (Nat.div (List.length vs) 2 <= List.length vs)%nat)
      by (apply Nat.Div0.div_le_upper_bound; lia).
    assert (Hd2 : (64 <= Nat.div (List.length vs) 2)%nat)
      by (apply Nat.div_le_lower_bound; lia).
    assert (Hm : (Nat.modulo (Nat.div (List.length vs) 2) 8 < 8)%nat)
      by (apply Nat.mod_upper_bound; lia).
    assert (Hh : (2 * Nat.div (List.length vs) 2 <= List.length vs)%nat)
      by (apply Nat.Div0.mul_div_le).
    rewrite !IH.
    + symmetry. apply soma_firstn_skipn.
    + rewrite length_skipn. unfold n2. lia.
    + rewrite length_firstn. unfold n2. lia.
Qed.

Lemma add_reduce_exato (vs : list Q) :
  Numpy.add_reduce Qplus 0 vs == total_spec vs.
Proof.
  unfold Numpy.add_reduce, Numpy.pairwise_sum.
  rewrite pairwise_sum_exato by apply Nat.le_refl.
  rewrite soma_total_spec. ring.
Qed.

(** The length of the array is fuel enough: more changes nothing, whatever
    the numbers and their addition. *)
Lemma pairwise_sum_fuel (T : Type) (add : T -> T -> T) (zero : T)
  (fuel : nat) (vs : list T) :
  (List.length vs <= fuel)%nat ->
  Numpy.pairwise_sum_em add zero fuel vs = Numpy.pairwise_sum add zero vs.
Proof.
  unfold Numpy.pairwise_sum.
  assert (H : forall f1 f2 l,
             (List.length l <= f1)%nat -> (List.length l <= f2)%nat ->
             Numpy.pairwise_sum_em add zero f1 l
             = Numpy.pairwise_sum_em add zero f2 l).
  { induction f1 as [|f1 IH]; intros [|f2] l H1 H2;
      cbn [Numpy.pairwise_sum_em];
      destruct (Nat.ltb_spec (List.length l) 8) as [H8|H8];
      try reflexivity;
      destruct (Nat.leb_spec (List.length l) 128) as [H128|H128];
      try reflexivity; try lia.
    assert (Hd : (64 <= Nat.div (List.length l) 2)%nat)
      by (apply Nat.div_le_lower_bound; lia).
    assert (Hm : (Nat.modulo (Nat.div (List.length l) 2) 8 < 8)%nat)
      by (apply Nat.mod_upper_bound; lia).
    assert (Hh : (2 * Nat.div (List.length l) 2 <= List.length l)%nat)
      by (apply Nat.Div0.mul_div_le).
    f_equal; apply IH; rewrite ?length_skipn, ?length_firstn; lia. }
  intros Hf. apply H; [exact Hf | apply Nat.le_refl].
Qed.

(** Addition of doubles commutes. *)
Lemma add_comm (x y : Float64.float) : Float64.add x y = Float64.add y x.
Proof.
  unfold Float64.add.
  destruct x as [[|]|[|]| |sx mx ex], y as [[|]|[|]| |sy my ey];
    try reflexivity.
  unfold SpecFloat.SFadd. cbv zeta.
  rewrite (Z.min_comm ex ey).
  rewrite (Z.add_comm (SpecFloat.cond_Zopp sx _)). reflexivity.
Qed.

Lemma Series_sum_two (x y : Float64.float) :
  Pandas.Series_sum [x; y] = Pandas.Series_sum [y; x].
Proof.
  change (Pandas.Series_sum [x; y])
    with (Float64.add Float64.zero
            (Float64.add
               (Float64.add Float64.zero
                  (if Float64.is_nan x then Float64.zero else x))
               (if Float64.is_nan y then Float64.zero else y))).
  change (Pandas.Series_sum [y; x])
    with (Float64.add Float64.zero
            (Float64.add
               (Float64.add Float64.zero
                  (if Float64.is_nan y then Float64.zero else y))
               (if Float64.is_nan x then Float64.zero else x))).
  destruct x as [[|]|[|]| |sx mx ex], y as [[|]|[|]| |sy my ey];
    try reflexivity.
  cbn [Float64.is_nan].
  change (Float64.add Float64.zero (SpecFloat.S754_finite sx mx ex))
    with (SpecFloat.S754_finite sx mx ex).
  change (Float64.add Float64.zero (SpecFloat.S754_finite sy my ey))
    with (SpecFloat.S754_finite sy my ey).
  rewrite (add_comm (SpecFloat.S754_finite sx mx ex)). reflexivity.
Qed.

(** Additions of doubles that round nothing: the whole numbers below
    [2^53]. *)
Section Inteiros.
Local Open Scope Z_scope.

Lemma digits_size (m : positive) : SpecFloat.digits2_pos m = Pos.size m.
Proof. induction m as [m IH|m IH|]; simpl; congruence. Qed.

Lemma size_iter (m d : positive) :
  Pos.size (Pos.iter xO m d) = (Pos.size m + d)%positive.
Proof.
  induction d as [|d IH] using Pos.peano_ind.
  - simpl. lia.
  - rewrite Pos.iter_succ. simpl. rewrite IH. lia.
Qed.

Lemma size_desloca (m : positive) (k : Z) :
  0 <= k -> Zpos (Pos.size (desloca m k)) = Zpos (Pos.size m) + k.
Proof.
  destruct k as [|d|d]; simpl; intros H; try lia.
  rewrite size_iter. lia.
Qed.

Lemma desloca_desloca (m : positive) (a b : Z) :
  0 <= a -> 0 <= b -> desloca (desloca m a) b = desloca m (a + b).
Proof.
  destruct a as [|a|a], b as [|b|b]; simpl; intros Ha Hb; try lia;
    try reflexivity.
  rewrite Pos.add_comm. symmetry. apply Pos.iter_add.
Qed.

Lemma Zpos_iter (m d : positive) :
  Zpos (Pos.iter xO m d) = Zpos m * 2 ^ Zpos d.
Proof.
  induction d as [|d IH] using Pos.peano_ind.
  - simpl. lia.
  - rewrite Pos.iter_succ, Pos2Z.inj_succ, Z.pow_succ_r by lia.
    rewrite Pos2Z.inj_xO, IH. lia.
Qed.

Lemma Zpos_desloca (m : positive) (k : Z) :
  0 <= k -> Zpos (desloca m k) = Zpos m * 2 ^ k.
Proof.
  destruct k as [|d|d]; intros H; try lia.
  - unfold desloca. rewrite Z.pow_0_r. lia.
  - apply Zpos_iter.
Qed.

Lemma iter_pos_iter (A : Type) (f : A -> A) (n : positive) (x : A) :
  SpecFloat.iter_pos f n x = Pos.iter f x n.
Proof.
  revert x. induction n as [n IH|n IH|]; intros x; simpl.
  - rewrite !IH. rewrite Pos.iter_swap. f_equal.
    rewrite Pos.iter_swap. reflexivity.
  - rewrite !IH. reflexivity.
  - reflexivity.
Qed.

Lemma shr_exato (m d : positive) :
  SpecFloat.iter_pos SpecFloat.shr_1 d
    (SpecFloat.Build_shr_record (Zpos (Pos.iter xO m d)) false false)
  = SpecFloat.Build_shr_record (Zpos m) false false.
Proof.
  rewrite iter_pos_iter. revert m.
  induction d as [|d IH] using Pos.peano_ind; intros m.
  - reflexivity.
  - rewrite Pos.iter_succ_r, Pos.iter_succ. simpl. apply IH.
Qed.

Lemma shr_desloca (M : positive) (e q : Z) :
  0 <= q ->
  SpecFloat.shr (SpecFloat.Build_shr_record (Zpos (desloca M q)) false false) e q
  = (SpecFloat.Build_shr_record (Zpos M) false false, e + q).
Proof.
  destruct q as [|d|d]; intros H; try lia; unfold SpecFloat.shr, desloca.
  - f_equal. lia.
  - rewrite shr_exato. reflexivity.
Qed.

Lemma round_canon (s : bool) (M : positive) (e q : Z) :
  Zpos (Pos.size M) = 53 -> 0 <= q -> -1074 <= e + q -> e + q <= 971 ->
  SpecFloat.binary_round_aux Float64.prec Float64.emax s (Zpos (desloca M q)) e SpecFloat.loc_Exact
  = SpecFloat.S754_finite s M (e + q).
Proof.
  intros HM Hq Hlo Hhi.
  unfold SpecFloat.binary_round_aux, SpecFloat.shr_fexp.
  cbn [SpecFloat.Zdigits2 SpecFloat.shr_record_of_loc].
  rewrite digits_size, size_desloca, HM by lia.
  unfold SpecFloat.fexp, SpecFloat.emin, Float64.prec, Float64.emax.
  replace (Z.max (53 + q + e - 53) (3 - 1024 - 53) - e) with q by lia.
  rewrite shr_desloca by exact Hq.
  cbn [SpecFloat.shr_m SpecFloat.loc_of_shr_record
         SpecFloat.round_nearest_even SpecFloat.Zdigits2].
  rewrite digits_size, HM.
  replace (Z.max (53 + (e + q) - 53) (3 - 1024 - 53) - (e + q)) with 0 by lia.
  cbn [SpecFloat.shr SpecFloat.shr_m].
  replace (e + q <=? 1024 - 53) with true by (symmetry; apply Z.leb_le; lia).
  reflexivity.
Qed.

Lemma round_exato (s : bool) (m0 : positive) (j e : Z) :
  0 <= j ->
  Zpos (Pos.size m0) <= 53 ->
  -1074 <= Zpos (Pos.size m0) + j + e - 53 ->
  Zpos (Pos.size m0) + j + e - 53 <= 971 ->
  SpecFloat.binary_round Float64.prec Float64.emax s (desloca m0 j) e
  = SpecFloat.S754_finite s (desloca m0 (53 - Zpos (Pos.size m0)))
      (Zpos (Pos.size m0) + j + e - 53).
Proof.
  intros Hj Hs Hlo Hhi.
  set (d := Zpos (Pos.size m0)) in *.
  set (M := desloca m0 (53 - d)).
  assert (HM : Zpos (Pos.size M) = 53).
  { unfold M. rewrite size_desloca by lia. fold d. lia. }
  unfold SpecFloat.binary_round.
  rewrite digits_size, size_desloca by exact Hj. fold d.
  unfold SpecFloat.fexp, SpecFloat.emin, Float64.prec, Float64.emax.
  replace (Z.max (d + j + e - 53) (3 - 1024 - 53)) with (d + j + e - 53)
    by lia.
  unfold SpecFloat.shl_align.
  destruct (d + j + e - 53 - e) as [|q|q] eqn:Eq.
  - replace (desloca m0 j) with (desloca M 0).
    + rewrite round_canon by lia. f_equal. lia.
    + unfold M. rewrite desloca_desloca by lia. f_equal. lia.
  - replace (desloca m0 j) with (desloca M (Zpos q)).
    + rewrite round_canon by lia. f_equal. lia.
    + unfold M. rewrite desloca_desloca by lia. f_equal. lia.
  - replace (Pos.iter xO (desloca m0 j) q) with (desloca M 0).
    + rewrite round_canon by lia. f_equal. lia.
    + change (Pos.iter xO (desloca m0 j) q) with (desloca (desloca m0 j) (Zpos q)).
      change (desloca M 0) with M. unfold M.
      rewrite desloca_desloca by lia. f_equal. lia.
Qed.


Lemma size_53 (p : positive) :
  (Npos p < 2 ^ 53)%N -> Zpos (Pos.size p) <= 53.
Proof.
  intros H.
  destruct (Z.le_gt_cases (Zpos (Pos.size p)) 53) as [Hle|Hgt]; [exact Hle|].
  exfalso.
  assert (H1 : 2 ^ 54 <= 2 ^ Zpos (Pos.size p))
    by (apply Z.pow_le_mono_r; lia).
  pose proof (Pos.size_le p) as H2.
  apply Pos2Z.pos_le_pos in H2. rewrite Pos2Z.inj_pow in H2.
  change (2 ^ 54) with 18014398509481984 in H1.
  change (2 ^ 53)%N with 9007199254740992%N in H.
  lia.
Qed.

Lemma inteiro_pos (p : positive) :
  (Npos p < 2 ^ 53)%N ->
  inteiro (Npos p)
  = SpecFloat.S754_finite false (desloca p (53 - Zpos (Pos.size p)))
      (Zpos (Pos.size p) - 53).
Proof.
  intros H. pose proof (@size_53 p H) as Hs.
  unfold inteiro, Float64.of_Z. cbn [Z.of_N SpecFloat.binary_normalize].
  change p with (desloca p 0) at 1.
  rewrite round_exato by lia. f_equal; lia.
Qed.

Lemma desloca_add (p q : positive) (k : Z) :
  0 <= k -> (desloca p k + desloca q k)%positive = desloca (p + q) k.
Proof.
  intros H. apply Pos2Z.inj. rewrite Pos2Z.inj_add, !Zpos_desloca by exact H.
  rewrite Pos2Z.inj_add. ring.
Qed.

Lemma shl_align_desloca (m : positive) (e e' : Z) :
  e' <= e -> fst (SpecFloat.shl_align m e e') = desloca m (e - e').
Proof.
  intros H. unfold SpecFloat.shl_align.
  destruct (e' - e) as [|d|d] eqn:E.
  - replace (e - e') with 0 by lia. reflexivity.
  - lia.
  - replace (e - e') with (Zpos d) by lia. cbn [fst].
    reflexivity.
Qed.

Lemma add_inteiro (a b : N) :
  (a + b < 2 ^ 53)%N -> Float64.add (inteiro a) (inteiro b) = inteiro (a + b).
Proof.
  destruct a as [|p], b as [|q]; intros H; try reflexivity.
  - rewrite N.add_0_l in *. rewrite inteiro_pos by exact H. reflexivity.
  - rewrite N.add_0_r in *. rewrite inteiro_pos by exact H. reflexivity.
  - assert (Hp : (Npos p < 2 ^ 53)%N) by lia.
    assert (Hq : (Npos q < 2 ^ 53)%N) by lia.
    change (N.pos p + N.pos q)%N with (Npos (p + q)) in *.
    pose proof (@size_53 p Hp) as Sp. pose proof (@size_53 q Hq) as Sq.
    pose proof (@size_53 (p + q) H) as Spq.
    rewrite !inteiro_pos by assumption.
    unfold Float64.add, SpecFloat.SFadd.
    set (ep := Zpos (Pos.size p) - 53). set (eq := Zpos (Pos.size q) - 53).
    set (ez := Z.min ep eq). cbv zeta. fold ez.
    rewrite !shl_align_desloca by (unfold ez; lia).
    rewrite !desloca_desloca by (unfold ez, ep, eq; lia).
    replace (53 - Zpos (Pos.size p) + (ep - ez)) with (- ez)
      by (unfold ep; lia).
    replace (53 - Zpos (Pos.size q) + (eq - ez)) with (- ez)
      by (unfold eq; lia).
    cbn [SpecFloat.cond_Zopp]. rewrite <- Pos2Z.inj_add.
    rewrite desloca_add by (unfold ez, ep, eq; lia).
    cbn [SpecFloat.binary_normalize].
    rewrite round_exato by (unfold ez, ep, eq; lia).
    f_equal; try f_equal; lia.
Qed.

End Inteiros.

(** What is built from an addition and its zero carries over from the whole
    amounts to any numbers that add like them below a bound: accumulator by
    accumulator, the array of numbers is the array of amounts. *)
Section Soma_de_inteiros.
Variable T : Type.
Variable add : T -> T -> T.
Variable zero : T.
Variable phi : N -> T.
Variable B : N.
Hypothesis phi_zero : phi 0%N = zero.
Hypothesis phi_add :
  forall a b, (a + b < B)%N -> add (phi a) (phi b) = phi (a + b)%N.

Lemma vale_zero : vale phi B zero 0%N.
Proof. intros _. symmetry. exact phi_zero. Qed.

Lemma vale_add (x y : T) (a b : N) :
  vale phi B x a -> vale phi B y b -> vale phi B (add x y) (a + b)%N.
Proof.
  intros Hx Hy H. rewrite Hx, Hy by lia. apply phi_add. exact H.
Qed.

Lemma vale_somar_em (xs : list T) (ns : list N) :
  Forall2 (vale phi B) xs ns ->
  forall x a,
    vale phi B x a ->
    vale phi B (Numpy.somar_em add x xs) (Numpy.somar_em N.add a ns).
Proof.
  unfold Numpy.somar_em.
  induction 1 as [|y b xs ns Hy _ IH]; intros x a Hx; simpl.
  - exact Hx.
  - apply IH. apply vale_add; assumption.
Qed.

Lemma vale_somar_bloco (r : list T) (rn : list N) :
  Forall2 (vale phi B) r rn ->
  forall bloco blocon,
    Forall2 (vale phi B) bloco blocon ->
    Forall2 (vale phi B) (Numpy.somar_bloco add r bloco)
      (Numpy.somar_bloco N.add rn blocon).
Proof.
  induction 1 as [|x a r rn Hx Hr IH]; intros bloco blocon Hb.
  - destruct Hb; constructor.
  - destruct Hb as [|y b bloco blocon Hy Hb]; simpl.
    + constructor; assumption.
    + constructor; [apply vale_add; assumption | apply IH; exact Hb].
Qed.

Lemma vale_firstn (k : nat) (xs : list T) (ns : list N) :
  Forall2 (vale phi B) xs ns ->
  Forall2 (vale phi B) (firstn k xs) (firstn k ns).
Proof.
  intros H. revert k.
  induction H as [|x a xs ns Hx _ IH]; intros [|k]; simpl;
    constructor; [exact Hx | apply IH].
Qed.

Lemma vale_skipn (k : nat) (xs : list T) (ns : list N) :
  Forall2 (vale phi B) xs ns ->
  Forall2 (vale phi B) (skipn k xs) (skipn k ns).
Proof.
  intros H. revert k.
  induction H as [|x a xs ns Hx Hxs IH]; intros [|k]; simpl.
  - constructor.
  - constructor.
  - constructor; assumption.
  - apply IH.
Qed.

Lemma vale_somar_blocos (k : nat) :
  forall r rn xs ns,
    Forall2 (vale phi B) r rn ->
    Forall2 (vale phi B) xs ns ->
    Forall2 (vale phi B) (fst (Numpy.somar_blocos add k r xs))
      (fst (Numpy.somar_blocos N.add k rn ns))
    /\ Forall2 (vale phi B) (snd (Numpy.somar_blocos add k r xs))
         (snd (Numpy.somar_blocos N.add k rn ns)).
Proof.
  induction k as [|k IH]; intros r rn xs ns Hr Hxs;
    cbn [Numpy.somar_blocos fst snd].
  - split; assumption.
  - apply IH.
    + apply vale_somar_bloco; [exact Hr | apply vale_firstn; exact Hxs].
    + apply vale_skipn. exact Hxs.
Qed.

Lemma vale_juntar (r : list T) (rn : list N) :
  Forall2 (vale phi B) r rn ->
  vale phi B (Numpy.juntar add zero r) (Numpy.juntar N.add 0%N rn).
Proof.
  intros H.
  do 8 (destruct H as [|? ? ? ? ? H]; [apply vale_zero|]).
  destruct H; [|apply vale_zero].
  unfold Numpy.juntar. repeat apply vale_add; assumption.
Qed.

Lemma vale_pairwise_sum_em (fuel : nat) :
  forall xs ns,
    Forall2 (vale phi B) xs ns ->
    vale phi B (Numpy.pairwise_sum_em add zero fuel xs)
      (Numpy.pairwise_sum_em N.add 0%N fuel ns).
Proof.
  assert (Hcurto : forall xs ns,
             Forall2 (vale phi B) xs ns ->
             vale phi B
               (let (r, resto) :=
                  Numpy.somar_blocos add
                    (Nat.div (List.length ns) 8 - 1)
                    (firstn 8 xs) (skipn 8 xs) in
                Numpy.somar_em add (Numpy.juntar add zero r) resto)
               (let (r, resto) :=
                  Numpy.somar_blocos N.add
                    (Nat.div (List.length ns) 8 - 1)
                    (firstn 8 ns) (skipn 8 ns) in
                Numpy.somar_em N.add (Numpy.juntar N.add 0%N r) resto)).
  { intros xs ns H.
    destruct (@vale_somar_blocos (Nat.div (List.length ns) 8 - 1)
                (firstn 8 xs) (firstn 8 ns) (skipn 8 xs) (skipn 8 ns))
      as [Hr Hresto];
      [apply vale_firstn; exact H | apply vale_skipn; exact H |].
    destruct (Numpy.somar_blocos add _ _ _) as [r resto].
    destruct (Numpy.somar_blocos N.add _ _ _) as [rn reston].
    apply vale_somar_em; [exact Hresto | apply vale_juntar; exact Hr]. }
  induction fuel as [|fuel IH]; intros xs ns H;
    cbn [Numpy.pairwise_sum_em]; rewrite (Forall2_length H);
    destruct (Nat.ltb (List.length ns) 8);
    try (apply vale_somar_em; [exact H | apply vale_zero]);
    destruct (Nat.leb (List.length ns) 128);
    try (apply Hcurto; exact H).
  - apply vale_zero.
  - apply vale_add; apply IH;
      [apply vale_firstn | apply vale_skipn]; exact H.
Qed.

Lemma vale_add_reduce (ns : list N) :
  vale phi B (Numpy.add_reduce add zero (map phi ns))
    (Numpy.add_reduce N.add 0%N ns).
Proof.
  unfold Numpy.add_reduce, Numpy.pairwise_sum. rewrite length_map.
  apply (@vale_add zero _ 0%N); [apply vale_zero|].
  apply vale_pairwise_sum_em.
  induction ns as [|n ns IH]; constructor; [intros _; reflexivity | exact IH].
Qed.

End Soma_de_inteiros.

(** On the whole amounts themselves numpy's order gives the plain sum. *)
Lemma soma_inteiros_app (l1 l2 : list N) :
  soma_inteiros (l1 ++ l2) = (soma_inteiros l1 + soma_inteiros l2)%N.
Proof.
  unfold soma_inteiros. induction l1 as [|n l1 IH]; simpl; [reflexivity|].
  rewrite IH. lia.
Qed.

Lemma soma_inteiros_firstn_skipn (k : nat) (ns : list N) :
  soma_inteiros ns
  = (soma_inteiros (firstn k ns) + soma_inteiros (skipn k ns))%N.
Proof. rewrite <- soma_inteiros_app, firstn_skipn. reflexivity. Qed.

Lemma somar_em_inteiros (ns : list N) (a : N) :
  Numpy.somar_em N.add a ns = (a + soma_inteiros ns)%N.
Proof.
  unfold Numpy.somar_em, soma_inteiros. revert a.
  induction ns as [|n ns IH]; intros a; simpl; [lia|].
  rewrite IH. lia.
Qed.

Lemma somar_bloco_inteiros (r bloco : list N) :
  (List.length bloco <= List.length r)%nat ->
  soma_inteiros (Numpy.somar_bloco N.add r bloco)
  = (soma_inteiros r + soma_inteiros bloco)%N.
Proof.
  unfold soma_inteiros.
  revert bloco. induction r as [|x r IH]; intros [|y bloco] H; simpl in *;
    try lia.
  rewrite IH by lia. lia.
Qed.

Lemma somar_blocos_inteiros (k : nat) (r ns : list N) :
  List.length r = 8%nat ->
  List.length (fst (Numpy.somar_blocos N.add k r ns)) = 8%nat
  /\ (soma_inteiros (fst (Numpy.somar_blocos N.add k r ns))
      + soma_inteiros (snd (Numpy.somar_blocos N.add k r ns))
      = soma_inteiros r + soma_inteiros ns)%N.
Proof.
  revert r ns. induction k as [|k IH]; intros r ns Hr;
    cbn [Numpy.somar_blocos fst snd].
  - split; [exact Hr | reflexivity].
  - destruct (IH (Numpy.somar_bloco N.add r (firstn 8 ns)) (skipn 8 ns))
      as [Hl Hs].
    + rewrite somar_bloco_length. exact Hr.
    + split; [exact Hl|]. rewrite Hs, somar_bloco_inteiros.
      * rewrite (soma_inteiros_firstn_skipn 8 ns). lia.
      * rewrite Hr. apply firstn_le_length.
Qed.

Lemma juntar_inteiros (r : list N) :
  List.length r = 8%nat -> Numpy.juntar N.add 0%N r = soma_inteiros r.
Proof.
  destruct r as [|r0 [|r1 [|r2 [|r3 [|r4 [|r5 [|r6 [|r7 [|r8 r]]]]]]]]];
    try discriminate.
  intros _. unfold Numpy.juntar, soma_inteiros. simpl. lia.
Qed.

Lemma pairwise_sum_inteiros (fuel : nat) (ns : list N) :
  (List.length ns <= fuel)%nat ->
  Numpy.pairwise_sum_em N.add 0%N fuel ns = soma_inteiros ns.
Proof.
  revert ns. induction fuel as [|fuel IH]; intros ns Hf;
    cbn [Numpy.pairwise_sum_em];
    destruct (Nat.ltb_spec (List.length ns) 8) as [H8|H8];
    try (rewrite somar_em_inteiros; reflexivity);
    destruct (Nat.leb_spec (List.length ns) 128) as [H128|H128];
    try lia.
  - destruct (@somar_blocos_inteiros (Nat.div (List.length ns) 8 - 1)
                (firstn 8 ns) (skipn 8 ns)) as [Hl Hs].
    { rewrite firstn_length_le by exact H8. reflexivity. }
    destruct (Numpy.somar_blocos N.add _ _ _) as [r resto].
    cbn [fst snd] in Hl, Hs.
    rewrite somar_em_inteiros, juntar_inteiros, Hs by exact Hl.
    symmetry. apply soma_inteiros_firstn_skipn.
  - set (n2 := (Nat.div (List.length ns) 2
                - Nat.modulo (Nat.div (List.length ns) 2) 8)%nat).
    assert (Hd2 : (64 <= Nat.div (List.length ns) 2)%nat)
      by (apply Nat.div_le_lower_bound; lia).
    assert (Hm : (Nat.modulo (Nat.div (List.length ns) 2) 8 < 8)%nat)
      by (apply Nat.mod_upper_bound; lia).
    assert (Hh : (2 * Nat.div (List.length ns) 2 <= List.length ns)%nat)
      by (apply Nat.Div0.mul_div_le).
    rewrite !IH.
    + symmetry. apply soma_inteiros_firstn_skipn.
    + rewrite length_skipn. unfold n2. lia.
    + rewrite length_firstn. unfold n2. lia.
Qed.

Lemma add_reduce_inteiros (ns : list N) :
  Numpy.add_reduce N.add 0%N ns = soma_inteiros ns.
Proof.
  unfold Numpy.add_reduce, Numpy.pairwise_sum.
  rewrite pairwise_sum_inteiros by apply Nat.le_refl. reflexivity.
Qed.

Lemma soma_inteiros_In (n : N) (ns : list N) :
  In n ns -> (n <= soma_inteiros ns)%N.
Proof.
  unfold soma_inteiros.
  induction ns as [|m ns IH]; simpl; [intros []|].
  intros [->|H]; [lia|]. specialize (IH H). lia.
Qed.

Lemma soma_inteiros_Permutation (ns ns' : list N) :
  Permutation ns ns' -> soma_inteiros ns = soma_inteiros ns'.
Proof.
  unfold soma_inteiros. induction 1; simpl; lia.
Qed.

Lemma inteiro_is_nan (n : N) :
  (n < 2 ^ 53)%N -> Float64.is_nan (inteiro n) = false.
Proof.
  destruct n as [|p]; intros H; [reflexivity|].
  rewrite inteiro_pos by exact H. reflexivity.
Qed.

(** Whole amounts that sum to less than [2^53] are totalled without any
    rounding. *)
Lemma Series_sum_inteiros (ns : list N) :
  (soma_inteiros ns < 2 ^ 53)%N ->
  Pandas.Series_sum (map inteiro ns) = inteiro (soma_inteiros ns).
Proof.
  intros H. unfold Pandas.Series_sum.
  replace (map (fun x => if Float64.is_nan x then Float64.zero else x)
             (map inteiro ns)) with (map inteiro ns).
  - rewrite <- add_reduce_inteiros.
    apply (@vale_add_reduce _ Float64.add Float64.zero inteiro (2 ^ 53)%N).
    + reflexivity.
    + exact add_inteiro.
    + rewrite add_reduce_inteiros. exact H.
  - rewrite map_map. apply map_ext_in. intros n Hn.
    rewrite inteiro_is_nan; [reflexivity|].
    apply soma_inteiros_In in Hn. lia.
Qed.

Lemma total_em_double_inteiros (ns : list N) :
  (soma_inteiros ns < 2 ^ 53)%N ->
  total_em_double (map inteiro ns) = inteiro (soma_inteiros ns).
Proof.
  destruct ns as [|n ns]; [reflexivity|].
  intros H. apply (@Series_sum_inteiros (n :: ns) H).
Qed.

(** C8, as the totals are computed.  The total of no record is 0, on the
    dashboard and in the statistics of the store, which both return for every
    input.  The total of records is the sum of their amounts up to the
    rounding of the additions: pandas adds the doubles of the column in an
    order fixed by the order of the records, which with exact additions gives
    the sum.  In double precision the total of one record is its amount and
    the total of two records is the same in both orders; from three records
    on it depends on their order, unless no addition rounds: whole amounts
    that sum to less than [2^53] total exactly their sum, in every order. *)
Theorem C8_total_up_to_rounding :
  (forall despesas_df,
      App.total_receitas (App.dashboard [] despesas_df) = 0)
  /\ (forall receitas_df,
         App.total_despesas (App.dashboard receitas_df []) = 0)
  /\ (forall receitas_df despesas_df,
         App.total_receitas (App.dashboard receitas_df despesas_df)
         == total_spec (map App.valor receitas_df)
         /\ App.total_despesas (App.dashboard receitas_df despesas_df)
            == total_spec (map App.valor despesas_df))
  /\ (forall w di df,
         sem_falhas w ->
         exists st,
           obter_estatisticas_gerais di df w = (Return st, w)
           /\ Database.total_receitas st
              == total_spec
                   (map Database.valor
                      (filter (where_periodo di df)
                         (linhas (receitas (db w)))))
           /\ Database.total_despesas st
              == total_spec
                   (map Database.valor
                      (filter (where_periodo di df)
                         (linhas (despesas (db w)))))
           /\ (linhas (receitas (db w)) = [] ->
               Database.total_receitas st = 0)
           /\ (linhas (despesas (db w)) = [] ->
               Database.total_despesas st = 0))
  /\ (forall vs : list Q, Numpy.add_reduce Qplus 0 vs == total_spec vs)
  /\ total_em_double [] = Float64.zero
  /\ Pandas.Series_sum [] = Float64.zero
  /\ (forall s m e,
         total_em_double [SpecFloat.S754_finite s m e]
         = SpecFloat.S754_finite s m e)
  /\ (forall x y, total_em_double [x; y] = total_em_double [y; x])
  /\ (forall ns,
         (soma_inteiros ns < 2 ^ 53)%N ->
         total_em_double (map inteiro ns) = inteiro (soma_inteiros ns))
  /\ (forall ns ns',
         Permutation ns ns' ->
         (soma_inteiros ns < 2 ^ 53)%N ->
         total_em_double (map inteiro ns) = total_em_double (map inteiro ns')).
Proof.
  split; [reflexivity|]. split; [intros [|r l]; reflexivity|].
  split; [intros r d; split; apply sum_valor_dashboard|].
  split.
  { intros w di df H.
    destruct (@obter_estatisticas_gerais_sem_falhas w di df H)
      as (st & E & Er & Ed & _).
    exists st. split; [exact E|]. rewrite Er, Ed.
    split; [rewrite soma_ou_zero_SUM; apply soma_total_spec|].
    split; [rewrite soma_ou_zero_SUM; apply soma_total_spec|].
    split; intros ->; reflexivity. }
  split; [exact add_reduce_exato|].
  split; [reflexivity|]. split; [reflexivity|].
  split; [reflexivity|].
  split; [intros x y; unfold total_em_double; apply Series_sum_two|].
  split; [exact total_em_double_inteiros|].
  intros ns ns' Hp H.
  rewrite !total_em_double_inteiros.
  - rewrite (soma_inteiros_Permutation Hp). reflexivity.
  - rewrite <- (soma_inteiros_Permutation Hp). exact H.
  - exact H.
Qed.

Lemma C8_total_up_to_rounding_witness :
  sem_falhas (mundo_exemplo [])
  /\ (exists st,
         obter_estatisticas_gerais None (Some 738916%Z) (mundo_exemplo [])
         = (Return st, mundo_exemplo [])
         /\ Database.total_receitas st == 5800
         /\ Database.total_despesas st == 300)
  /\ (soma_inteiros [5000; 800; 300] < 2 ^ 53)%N
  /\ total_em_double (map inteiro [5000; 800; 300]%N) = inteiro 6100
  /\ Permutation [5000; 800; 300]%N [300; 800; 5000]%N
  /\ total_em_double (map inteiro [5000; 800; 300]%N)
     = total_em_double (map inteiro [300; 800; 5000]%N).
Proof.
  assert (H : sem_falhas (mundo_exemplo [])) by reflexivity.
  assert (Hs : (soma_inteiros [5000; 800; 300] < 2 ^ 53)%N) by reflexivity.
  assert (Hp : Permutation [5000; 800; 300]%N [300; 800; 5000]%N)
    by apply (Permutation_rev [5000; 800; 300]%N).
  destruct C8_total_up_to_rounding
    as (_ & _ & _ & Hst & _ & _ & _ & _ & _ & Hint & Hperm).
  split; [exact H|]. split.
  - destruct (Hst (mundo_exemplo []) None (Some 738916%Z) H)
      as (st & E & Er & Ed & _).
    exists st. split; [exact E | split; [exact Er | exact Ed]].
  - split; [exact Hs|]. split; [exact (Hint _ Hs)|].
    split; [exact Hp | exact (Hperm _ _ Hp Hs)].
Defined.

(** The total is not the same for every order of the records: the amounts
    0.1, 0.2 and 0.3 total 0.6000000000000001 on the dashboard, and in the
    order 0.3, 0.2, 0.1 they total 0.6, the double just below. *)
Lemma C8_total_depends_on_the_order :
  Permutation [um_decimo; dois_decimos; tres_decimos]
    [tres_decimos; dois_decimos; um_decimo]
  /\ total_em_double [um_decimo; dois_decimos; tres_decimos]
     = SpecFloat.S754_finite false 5404319552844596 (-53)
  /\ total_em_double [tres_decimos; dois_decimos; um_decimo]
     = SpecFloat.S754_finite false 5404319552844595 (-53)
  /\ total_em_double [um_decimo; dois_decimos; tres_decimos]
     <> total_em_double [tres_decimos; dois_decimos; um_decimo].
Proof.
  split; [|split; [|split]].
  - apply Permutation_rev with (l := [um_decimo; dois_decimos; tres_decimos]).
  - vm_compute. reflexivity.
  - vm_compute. reflexivity.
  - vm_compute. discriminate.
Qed.

(** The three amounts are the doubles nearest to 0.1, 0.2 and 0.3, and ten
    cells of 0.1 total 1 in numpy's order, where adding them one after the
    other gives the double below 1.  The whole amount 5000 is the double
    [5000 * 2^40 * 2^-40]. *)
Example doubles_exemplo :
  inteiro 5000 = SpecFloat.S754_finite false 5497558138880000 (-40)
  /\ um_decimo = SpecFloat.S754_finite false 7205759403792794 (-56)
  /\ dois_decimos = SpecFloat.S754_finite false 7205759403792794 (-55)
  /\ tres_decimos = SpecFloat.S754_finite false 5404319552844595 (-54)
  /\ Pandas.Series_sum (repeat um_decimo 10) = Float64.of_Z 1
  /\ fold_left Float64.add (repeat um_decimo 10) Float64.zero
     = SpecFloat.S754_finite false 9007199254740991 (-53).
Proof. vm_compute. repeat split. Qed.

(* ----------------------------------------------------------------- *)
(** ** Expense ratio *)

Lemma Qgt_bool_true (a b : Q) : Qgt_bool a b = true <-> b < a.
Proof.
  unfold Qgt_bool. rewrite negb_true_iff, <- not_true_iff_false, Qle_bool_iff.
  split; [apply Qnot_le_lt | apply Qlt_not_le].
Qed.

Lemma Qgt_bool_false (a b : Q) : Qgt_bool a b = false <-> a <= b.
Proof.
  unfold Qgt_bool. rewrite negb_false_iff. apply Qle_bool_iff.
Qed.

Lemma percentual_zero (x i : Q) : i <= 0 -> percentual x i = 0.
Proof.
  intros H. unfold percentual.
  rewrite (proj2 (Qgt_bool_false i 0) H). reflexivity.
Qed.

Lemma percentual_pos (x i : Q) : 0 < i -> percentual x i = x / i * 100.
Proof.
  intros H. unfold percentual.
  rewrite (proj2 (Qgt_bool_true i 0) H). reflexivity.
Qed.

(** C5. The expense ratio is 0 when the income total is 0, whatever the
    expense total, and [expense_total / income_total * 100] when the income
    total is above 0; so it is in the statistics of the store and on the
    dashboard. *)
Theorem C5_expense_ratio :
  (forall x, percentual x 0 = 0)
  /\ (forall x i, 0 < i -> percentual x i = x / i * 100)
  /\ (forall w di df,
         sem_falhas w ->
         exists st,
           obter_estatisticas_gerais di df w = (Return st, w)
           /\ (Database.total_receitas st == 0 ->
               Database.percentual_despesas st = 0)
           /\ (0 < Database.total_receitas st ->
               Database.percentual_despesas st
               = Database.total_despesas st / Database.total_receitas st
                 * 100))
  /\ (forall receitas_df despesas_df,
         let m := App.dashboard receitas_df despesas_df in
         (App.total_receitas m == 0 -> App.percentual_despesas m = 0)
         /\ (0 < App.total_receitas m ->
             App.percentual_despesas m
             = App.total_despesas m / App.total_receitas m * 100)).
Proof.
  split; [reflexivity|].
  split; [exact percentual_pos|].
  split.
  - intros w di df H.
    destruct (@obter_estatisticas_gerais_sem_falhas w di df H)
      as (st & E & _ & _ & _ & Ep).
    exists st. split; [exact E|]. rewrite Ep. split; intros H0.
    + apply percentual_zero. rewrite H0. apply Qle_refl.
    + apply percentual_pos, H0.
  - intros r d m. subst m.
    change (App.percentual_despesas (App.dashboard r d))
      with (percentual (App.total_despesas (App.dashboard r d))
              (App.total_receitas (App.dashboard r d))).
    split; intros H0.
    + apply percentual_zero. rewrite H0. apply Qle_refl.
    + apply percentual_pos, H0.
Qed.

Lemma C5_expense_ratio_witness :
  0 < 5000
  /\ percentual 1200 5000 = 1200 / 5000 * 100
  /\ percentual 1200 5000 == 24
  /\ sem_falhas (mundo_exemplo [])
  /\ exists st,
      obter_estatisticas_gerais None None (mundo_exemplo [])
      = (Return st, mundo_exemplo [])
      /\ (0 < Database.total_receitas st ->
          Database.percentual_despesas st
          = Database.total_despesas st / Database.total_receitas st * 100).
Proof.
  assert (H0 : 0 < 5000) by reflexivity.
  assert (H : sem_falhas (mundo_exemplo [])) by reflexivity.
  split; [exact H0|].
  split; [exact (proj1 (proj2 C5_expense_ratio) 1200 5000 H0)|].
  split; [reflexivity|].
  split; [exact H|].
  destruct (proj1 (proj2 (proj2 C5_expense_ratio))
              (mundo_exemplo []) None None H) as (st & E & _ & Ep).
  exists st. split; [exact E | exact Ep].
Defined.

(** The scenario of the specification: income 5000, expense 1200. *)
Example dashboard_cenario :
  App.saldo (App.dashboard receitas_cenario despesas_cenario) == 3800
  /\ App.percentual_despesas (App.dashboard receitas_cenario despesas_cenario)
     == 24.
Proof. split; reflexivity. Qed.

(** With incomes and no positive income total the ratio is 0, also when the
    expenses are not. *)
Example dashboard_sem_receitas :
  App.percentual_despesas (App.dashboard [] despesas_cenario) = 0.
Proof. reflexivity. Qed.

(* ----------------------------------------------------------------- *)
(** ** Goal progress *)

Lemma py_min_Qmin (a b : Q) : py_min a b == Qmin a b.
Proof.
  unfold py_min. destruct (Qgt_bool a b) eqn:E.
  - apply Qgt_bool_true in E. symmetry. apply Q.min_r, Qlt_le_weak, E.
  - apply Qgt_bool_false in E. symmetry. apply Q.min_l, E.
Qed.

Lemma py_min_le_r (a b : Q) : py_min a b <= b.
Proof.
  unfold py_min. destruct (Qgt_bool a b) eqn:E.
  - apply Qle_refl.
  - apply Qgt_bool_false, E.
Qed.

Lemma py_min_le_l (a b : Q) : py_min a b <= a.
Proof.
  unfold py_min. destruct (Qgt_bool a b) eqn:E.
  - apply Qlt_le_weak, Qgt_bool_true, E.
  - apply Qle_refl.
Qed.

Lemma sum_valor_ate (d : date) (df : App.DataFrame) :
  (if negb (App.empty df)
   then App.sum_valor (filter (fun r => (App.data r <=? d)%Z) df)
   else 0)
  == total_spec (map App.valor (ate d df)).
Proof.
  destruct df as [|r df]; [reflexivity|].
  cbn [App.empty negb]. unfold App.sum_valor, ate. apply soma_total_spec.
Qed.

Lemma economias_calcular_progresso (receitas_df despesas_df : App.DataFrame)
  (g : App.registro) :
  App.economias (App.calcular_progresso receitas_df despesas_df g)
  == total_spec (map App.valor (ate (App.data g) receitas_df))
     - total_spec (map App.valor (ate (App.data g) despesas_df)).
Proof.
  cbn [App.calcular_progresso App.economias].
  rewrite !sum_valor_ate. reflexivity.
Qed.

Lemma progresso_calcular_progresso (receitas_df despesas_df : App.DataFrame)
  (g : App.registro) :
  App.progresso (App.calcular_progresso receitas_df despesas_df g)
  = if Qgt_bool (App.valor g) 0
    then py_min
           (App.economias (App.calcular_progresso receitas_df despesas_df g)
            / App.valor g * 100) 100
    else 0.
Proof. reflexivity. Qed.

(** C3. For every goal, the amount saved is the sum of the incomes dated up
    to the goal's date minus the sum of the expenses dated up to it.  The
    progress is 0 when the target amount is not above 0, and otherwise the
    smaller of [saved / target * 100] and 100: never above 100, and below 0
    when the amount saved is. *)
Theorem C3_goal_progress (receitas_df despesas_df : App.DataFrame)
  (g : App.registro) :
  let m := App.calcular_progresso receitas_df despesas_df g in
  App.meta m = g
  /\ App.economias m
     == total_spec (map App.valor (ate (App.data g) receitas_df))
        - total_spec (map App.valor (ate (App.data g) despesas_df))
  /\ (App.valor g <= 0 -> App.progresso m = 0)
  /\ (0 < App.valor g ->
      App.progresso m == Qmin (App.economias m / App.valor g * 100) 100)
  /\ App.progresso m <= 100
  /\ (0 < App.valor g -> App.economias m < 0 -> App.progresso m < 0)
  /\ (forall metas_df,
         metas_df <> [] ->
         App.metas_com_progresso receitas_df despesas_df metas_df
         = Some (map (App.calcular_progresso receitas_df despesas_df)
                   metas_df)).
Proof.
  intros m. subst m.
  split; [reflexivity|].
  split; [apply economias_calcular_progresso|].
  rewrite progresso_calcular_progresso.
  set (e := App.economias (App.calcular_progresso receitas_df despesas_df g)).
  split; [|split; [|split; [|split]]].
  - intros H. rewrite (proj2 (Qgt_bool_false _ _) H). reflexivity.
  - intros H. rewrite (proj2 (Qgt_bool_true _ _) H). apply py_min_Qmin.
  - destruct (Qgt_bool (App.valor g) 0); [apply py_min_le_r | discriminate].
  - intros H He. rewrite (proj2 (Qgt_bool_true _ _) H).
    eapply Qle_lt_trans; [apply py_min_le_l|].
    assert (Hd : e / App.valor g < 0).
    { apply Qlt_shift_div_r; [exact H|]. rewrite Qmult_0_l. exact He. }
    setoid_replace 0 with (0 * 100) by ring.
    apply Qmult_lt_compat_r; [reflexivity | exact Hd].
  - intros [|x l] H; [congruence | reflexivity].
Qed.

Lemma C3_goal_progress_witness :
  0 < App.valor (meta_cenario 1000)
  /\ App.economias
       (App.calcular_progresso [] despesas_cenario (meta_cenario 1000)) < 0
  /\ App.progresso
       (App.calcular_progresso [] despesas_cenario (meta_cenario 1000)) < 0
  /\ App.valor (meta_cenario 0) <= 0
  /\ App.progresso
       (App.calcular_progresso receitas_cenario despesas_cenario
          (meta_cenario 0)) = 0.
Proof.
  assert (H0 : 0 < App.valor (meta_cenario 1000)) by reflexivity.
  assert (H1 : App.economias
                 (App.calcular_progresso [] despesas_cenario
                    (meta_cenario 1000)) < 0) by reflexivity.
  assert (H2 : App.valor (meta_cenario 0) <= 0) by discriminate.
  split; [exact H0 | split; [exact H1 | split; [|split; [exact H2|]]]].
  - exact (proj1 (proj2 (proj2 (proj2 (proj2 (proj2
             (C3_goal_progress [] despesas_cenario (meta_cenario 1000)))))))
             H0 H1).
  - exact (proj1 (proj2 (proj2
             (C3_goal_progress receitas_cenario despesas_cenario
                (meta_cenario 0)))) H2).
Defined.

(** The scenarios of the specification: 3800 saved of 4000 is 95 percent;
    3800 saved of 1000 is 100 percent, not 380; 1200 spent and nothing earned
    of 1000 is -120 percent. *)
Example progresso_cenarios :
  App.economias
    (App.calcular_progresso receitas_cenario despesas_cenario
       (meta_cenario 4000)) == 3800
  /\ App.progresso
       (App.calcular_progresso receitas_cenario despesas_cenario
          (meta_cenario 4000)) == 95
  /\ App.progresso
       (App.calcular_progresso receitas_cenario despesas_cenario
          (meta_cenario 1000)) == 100
  /\ App.progresso
       (App.calcular_progresso [] despesas_cenario (meta_cenario 1000))
     == -120.
Proof. repeat split. Qed.

(* ----------------------------------------------------------------- *)
(** ** Mean of the filtered list *)

(** C9, at the empty selection.  The income and expense pages take the mean
    of the filtered list with no guard.  When the filters select no record of
    a frame that has records, the page shows the total 0, the count 0 and the
    mean [NaN], which is no number and so not the 0 that C9 asks for;
    computing it raises nothing. *)
Theorem C9_mean_of_empty_is_nan :
  App.mean [] = App.NaN
  /\ ~ definida (App.mean [])
  /\ App.mean [] <> App.Num 0
  /\ (forall df cat di dfim,
         df <> [] ->
         App.filtrar df cat di dfim = [] ->
         App.pagina_estatisticas df cat di dfim
         = Some {| App.total_filtrado := 0; App.media := App.NaN;
                   App.quantidade := 0 |}).
Proof.
  split; [reflexivity|]. split; [|split].
  - intros (q & H). discriminate H.
  - discriminate.
  - intros [|r df] cat di dfim Hne He; [congruence|].
    unfold App.pagina_estatisticas. cbn [App.empty negb].
    rewrite He. reflexivity.
Qed.

(** One income on 2024-01-10 and the date filter set from 2024-02-01 to
    2024-03-01: the page takes the mean of no row. *)
Lemma C9_mean_of_empty_is_nan_witness :
  receitas_cenario <> []
  /\ App.filtrar receitas_cenario "Todas" 738917 738946 = []
  /\ App.pagina_estatisticas receitas_cenario "Todas" 738917 738946
     = Some {| App.total_filtrado := 0; App.media := App.NaN;
               App.quantidade := 0 |}.
Proof.
  assert (H : receitas_cenario <> []) by discriminate.
  assert (E : App.filtrar receitas_cenario "Todas" 738917 738946 = [])
    by reflexivity.
  split; [exact H | split; [exact E|]].
  exact (proj2 (proj2 (proj2 C9_mean_of_empty_is_nan))
           receitas_cenario "Todas"%string 738917%Z 738946%Z H E).
Defined.

(* ----------------------------------------------------------------- *)
(** ** Order of texts *)

Lemma ascii_compare_refl (a : ascii) : Ascii.compare a a = Eq.
Proof. unfold Ascii.compare. apply N.compare_refl. Qed.

Lemma ascii_compare_lt_trans (a b c : ascii) :
  Ascii.compare a b = Lt -> Ascii.compare b c = Lt -> Ascii.compare a c = Lt.
Proof.
  unfold Ascii.compare. rewrite !N.compare_lt_iff. apply N.lt_trans.
Qed.

Lemma string_compare_refl (s : string) : String.compare s s = Eq.
Proof.
  induction s as [|a s IH]; simpl; [reflexivity|].
  rewrite ascii_compare_refl. exact IH.
Qed.

Lemma string_compare_lt_trans (s1 s2 s3 : string) :
  String.compare s1 s2 = Lt -> String.compare s2 s3 = Lt ->
  String.compare s1 s3 = Lt.
Proof.
  revert s2 s3.
  induction s1 as [|a s1 IH]; intros [|b s2] [|c s3]; simpl;
    try discriminate; try reflexivity.
  destruct (Ascii.compare a b) eqn:Eab; try discriminate;
    destruct (Ascii.compare b c) eqn:Ebc; try discriminate; intros H12 H23.
  - apply Ascii.compare_eq_iff in Eab, Ebc. subst.
    rewrite ascii_compare_refl. exact (IH _ _ H12 H23).
  - apply Ascii.compare_eq_iff in Eab. subst. rewrite Ebc. reflexivity.
  - apply Ascii.compare_eq_iff in Ebc. subst. rewrite Eab. reflexivity.
  - rewrite (ascii_compare_lt_trans _ _ _ Eab Ebc). reflexivity.
Qed.

Lemma string_compare_gt_lt (s1 s2 : string) :
  String.compare s1 s2 = Gt -> String.compare s2 s1 = Lt.
Proof.
  intros H. rewrite String.compare_antisym, H. reflexivity.
Qed.

Lemma string_compare_lt_neq (s1 s2 : string) :
  String.compare s1 s2 = Lt -> s1 <> s2.
Proof.
  intros H E. subst. rewrite string_compare_refl in H. discriminate.
Qed.

(* ----------------------------------------------------------------- *)
(** ** Grouping by category *)

Lemma nome_depois_trans (a b c : grupo) :
  nome_depois a b -> nome_depois b c -> nome_depois a c.
Proof.
  unfold nome_depois. intros H1 H2.
  exact (string_compare_lt_trans _ _ _ H2 H1).
Qed.

(** The groups of [acumular c v gs]: the names of [gs] and [c]. *)
Lemma acumular_nomes (c : string) (v : Q) (gs : list grupo) (n : string) :
  In n (map g_categoria (acumular c v gs))
  <-> n = c \/ In n (map g_categoria gs).
Proof.
  induction gs as [|g gs IH]; simpl.
  - intuition.
  - destruct (String.compare (g_categoria g) c) eqn:E; simpl.
    + apply String.compare_eq_iff in E. subst c. intuition.
    + intuition.
    + rewrite IH. intuition.
Qed.

Lemma acumular_decrescente (c : string) (v : Q) (gs : list grupo) :
  StronglySorted nome_depois gs -> StronglySorted nome_depois (acumular c v gs).
Proof.
  induction 1 as [|g gs Hs IH Hg]; simpl.
  - constructor; constructor.
  - destruct (String.compare (g_categoria g) c) eqn:E.
    + constructor; [exact Hs|].
      eapply Forall_impl; [|exact Hg]. intros a Ha. exact Ha.
    + constructor; [constructor; assumption|].
      constructor; [exact E|].
      eapply Forall_impl; [|exact Hg]. intros a Ha.
      unfold nome_depois in *; simpl.
      exact (string_compare_lt_trans _ _ _ Ha E).
    + constructor; [exact IH|].
      apply string_compare_gt_lt in E.
      rewrite Forall_forall in *. intros a Ha.
      assert (Hn : In (g_categoria a) (map g_categoria (acumular c v gs)))
        by (apply in_map, Ha).
      apply acumular_nomes in Hn. destruct Hn as [Hn | Hn].
      * unfold nome_depois. rewrite Hn. exact E.
      * apply in_map_iff in Hn. destruct Hn as (a' & Ea & Ha').
        unfold nome_depois. rewrite <- Ea. apply (Hg a' Ha').
Qed.

(** A group of [acumular c v gs] is a group of [gs] of another category, or
    the group of [c]: the one of [gs] with [v] added and one more row, or a
    new one when [gs] has none. *)
Lemma acumular_In (c : string) (v : Q) (gs : list grupo) (g' : grupo) :
  StronglySorted nome_depois gs ->
  In g' (acumular c v gs) ->
  (g_categoria g' <> c /\ In g' gs)
  \/ (g_categoria g' = c
      /\ ((exists g, In g gs /\ g_categoria g = c
                     /\ total g' = total g + v
                     /\ quantidade g' = (quantidade g + 1)%Z)
          \/ ((forall g, In g gs -> g_categoria g <> c)
              /\ total g' = v /\ quantidade g' = 1%Z))).
Proof.
  induction 1 as [|g gs Hs IH Hg]; simpl.
  - intros [<- | []]. right. split; [reflexivity|]. right.
    split; [intros g []|split; reflexivity].
  - rewrite Forall_forall in Hg.
    destruct (String.compare (g_categoria g) c) eqn:E; simpl.
    + apply String.compare_eq_iff in E. subst c. intros [<- | Hin].
      * right. split; [reflexivity|]. left. exists g.
        split; [left; reflexivity | repeat split].
      * left. split; [|right; exact Hin].
        apply string_compare_lt_neq, (Hg g' Hin).
    + intros [<- | [<- | Hin]].
      * right. split; [reflexivity|]. right.
        split; [|split; reflexivity].
        intros g0 [<- | Hin0]; apply string_compare_lt_neq.
        -- exact E.
        -- exact (string_compare_lt_trans _ _ _ (Hg g0 Hin0) E).
      * left. split; [|left; reflexivity].
        apply string_compare_lt_neq, E.
      * left. split; [|right; exact Hin].
        apply string_compare_lt_neq.
        exact (string_compare_lt_trans _ _ _ (Hg g' Hin) E).
    + apply string_compare_gt_lt in E. intros [<- | Hin].
      * left. split; [|left; reflexivity].
        apply not_eq_sym, string_compare_lt_neq, E.
      * destruct (IH Hin) as [[Hne Hin'] | [He [Hex | [Hall Hv]]]].
        -- left. split; [exact Hne | right; exact Hin'].
        -- right. split; [exact He|]. left.
           destruct Hex as (g0 & Hin0 & H0). exists g0.
           split; [right; exact Hin0 | exact H0].
        -- right. split; [exact He|]. right. split; [|exact Hv].
           intros g0 [<- | Hin0]; [|apply Hall, Hin0].
           apply not_eq_sym, string_compare_lt_neq, E.
Qed.

Lemma acumular_totais (c : string) (v : Q) (gs : list grupo) :
  total_spec (map total (acumular c v gs)) == total_spec (map total gs) + v.
Proof.
  induction gs as [|g gs IH]; simpl.
  - ring.
  - destruct (String.compare (g_categoria g) c); simpl.
    + ring.
    + ring.
    + rewrite IH. ring.
Qed.

Lemma acumular_quantidades (c : string) (v : Q) (gs : list grupo) :
  fold_right Z.add 0%Z (map quantidade (acumular c v gs))
  = (fold_right Z.add 0 (map quantidade gs) + 1)%Z.
Proof.
  induction gs as [|g gs IH]; cbn [acumular map fold_right quantidade].
  - reflexivity.
  - destruct (String.compare (g_categoria g) c);
      cbn [map fold_right quantidade]; rewrite ?IH; lia.
Qed.

Lemma group_by_categoria_snoc (rs : list transacao) (r : transacao) :
  group_by_categoria (rs ++ [r])
  = acumular (Database.categoria r) (Database.valor r)
      (group_by_categoria rs).
Proof. unfold group_by_categoria. rewrite fold_left_app. reflexivity. Qed.

Lemma total_spec_app (l1 l2 : list Q) :
  total_spec (l1 ++ l2) == total_spec l1 + total_spec l2.
Proof.
  induction l1 as [|v l1 IH]; simpl.
  - ring.
  - rewrite IH. ring.
Qed.

Lemma total_spec_Permutation (l1 l2 : list Q) :
  Permutation l1 l2 -> total_spec l1 == total_spec l2.
Proof.
  intros H. rewrite <- !soma_total_spec. apply soma_Permutation, H.
Qed.

Lemma da_categoria_snoc (c : string) (rs : list transacao) (r : transacao) :
  da_categoria c (rs ++ [r])
  = da_categoria c rs
    ++ (if String.eqb (Database.categoria r) c then [r] else []).
Proof. unfold da_categoria. rewrite filter_app. reflexivity. Qed.

Lemma da_categoria_nil (c : string) (rs : list transacao) :
  ~ In c (map Database.categoria rs) -> da_categoria c rs = [].
Proof.
  induction rs as [|r rs IH]; simpl; intros H; [reflexivity|].
  destruct (String.eqb_spec (Database.categoria r) c) as [E|E].
  - exfalso. apply H. left. exact E.
  - apply IH. intros Hin. apply H. right. exact Hin.
Qed.

Lemma decrescente_NoDup (gs : list grupo) :
  StronglySorted nome_depois gs -> NoDup (map g_categoria gs).
Proof.
  induction 1 as [|g gs Hs IH Hg]; simpl; constructor; [|exact IH].
  rewrite in_map_iff. intros (a & Ea & Ha).
  rewrite Forall_forall in Hg.
  apply (@string_compare_lt_neq _ _ (Hg a Ha)). exact Ea.
Qed.

(** What [GROUP BY categoria] holds after the rows [rs]. *)
Lemma group_by_categoria_inv (rs : list transacao) :
  StronglySorted nome_depois (group_by_categoria rs)
  /\ (forall c,
         In c (map g_categoria (group_by_categoria rs))
         <-> In c (map Database.categoria rs))
  /\ (forall g, In g (group_by_categoria rs) ->
        total g
        == total_spec (map Database.valor (da_categoria (g_categoria g) rs))
        /\ quantidade g
           = Z.of_nat (List.length (da_categoria (g_categoria g) rs)))
  /\ fold_right Z.add 0%Z (map quantidade (group_by_categoria rs))
     = Z.of_nat (List.length rs)
  /\ total_spec (map total (group_by_categoria rs))
     == total_spec (map Database.valor rs).
Proof.
  induction rs as [|r rs (Hs & Hn & Hg & Hq & Ht)] using rev_ind.
  - split; [constructor|]. split; [intros c; simpl; tauto|].
    split; [intros g []|]. split; reflexivity.
  - rewrite group_by_categoria_snoc.
    set (c := Database.categoria r).
    split; [apply acumular_decrescente, Hs|].
    split; [|split; [|split]].
    + intros n. rewrite acumular_nomes, Hn, map_app, in_app_iff. simpl.
      fold c. intuition.
    + intros g' Hin. rewrite da_categoria_snoc. fold c.
      destruct (@acumular_In c (Database.valor r) _ g' Hs Hin)
        as [[Hne Hin']
           | [He [(g & Hin' & Hc & Etot & Eq) | (Hall & Etot & Eq)]]].
      * destruct (String.eqb_spec c (g_categoria g')) as [E|_];
          [congruence|].
        rewrite app_nil_r. apply Hg, Hin'.
      * rewrite He, String.eqb_refl, map_app, total_spec_app, length_app.
        destruct (Hg g Hin') as [Hgt Hgq]. rewrite Hc in Hgt, Hgq.
        rewrite Etot, Eq, Hgt, Hgq. simpl. split; [ring | lia].
      * rewrite He, String.eqb_refl.
        rewrite da_categoria_nil.
        -- rewrite Etot, Eq. simpl. split; [ring | reflexivity].
        -- rewrite <- Hn, in_map_iff. intros (g & Hc & Hin').
           exact (Hall g Hin' Hc).
    + rewrite acumular_quantidades, Hq, length_app. simpl. lia.
    + rewrite acumular_totais, Ht, map_app, total_spec_app. simpl. ring.
Qed.

Lemma total_desc_trans (a b c : grupo) :
  total_desc a b = true -> total_desc b c = true -> total_desc a c = true.
Proof.
  unfold total_desc. rewrite !Qgt_bool_true. intros H1 H2.
  exact (Qlt_trans _ _ _ H2 H1).
Qed.

Lemma total_desc_negtrans (a b c : grupo) :
  total_desc a b = false -> total_desc b c = false -> total_desc a c = false.
Proof.
  unfold total_desc. rewrite !Qgt_bool_false. apply Qle_trans.
Qed.

Lemma quantidades_Permutation (l l' : list grupo) :
  Permutation l l' ->
  fold_right Z.add 0%Z (map quantidade l)
  = fold_right Z.add 0%Z (map quantidade l').
Proof.
  induction 1; cbn [map fold_right]; lia.
Qed.

Lemma select_por_categoria_grupos (rs : list transacao) :
  agrupado_no_motor rs (order_by total_desc (group_by_categoria rs)).
Proof.
  destruct (group_by_categoria_inv rs) as (Hs & Hn & Hg & Hq & Ht).
  pose proof (order_by_Permutation total_desc (group_by_categoria rs)) as Hp.
  unfold agrupado_no_motor, grupos_de.
  split; [split; [|split; [|split; [|split]]]|].
  - apply (Permutation_NoDup
             (Permutation_sym (Permutation_map g_categoria Hp))).
    apply decrescente_NoDup, Hs.
  - intros c. rewrite <- Hn. split; apply Permutation_in.
    + apply Permutation_map, Hp.
    + apply Permutation_sym, Permutation_map, Hp.
  - intros g Hin. apply Hg, (Permutation_in _ Hp Hin).
  - rewrite <- Hq. apply quantidades_Permutation, Hp.
  - rewrite <- Ht. apply total_spec_Permutation, Permutation_map, Hp.
  - apply StronglySorted_impl with (R := ordem_estavel total_desc nome_depois).
    + unfold ordem_estavel, ordem_do_motor, total_desc, nome_depois.
      intros a b [H | (H1 & H2 & H3)].
      * left. apply Qgt_bool_true, H.
      * right. apply Qgt_bool_false in H1, H2.
        split; [apply Qle_antisym; assumption | exact H3].
    + apply order_by_sorted.
      * exact total_desc_trans.
      * exact total_desc_negtrans.
      * exact Hs.
Qed.




(** Equal totals come by descending name also when the rows were entered
    the other way round, and a category entered twice is one group. *)
Example group_by_categoria_empate :
  map (fun g => (g_categoria g, quantidade g))
    (order_by total_desc
       (group_by_categoria
          [ nova_transacao 738895 "a" 500 "Outros" 0 1;
            nova_transacao 738895 "b" 300 "Lazer" 0 2;
            nova_transacao 738917 "c" 200 "Lazer" 0 3;
            nova_transacao 738917 "d" 900 "Moradia" 0 4 ]))
  = [("Moradia"%string, 1%Z); ("Outros"%string, 1%Z); ("Lazer"%string, 2%Z)].
Proof. reflexivity. Qed.

(* ================================================================= *)
(** * Further properties of the code *)

(* ----------------------------------------------------------------- *)
(** ** Statements in sequence *)

Lemma firstn_soma (A : Type) (n p : nat) (l : list A) :
  firstn (n + p) l = firstn n l ++ firstn p (skipn n l).
Proof.
  revert l. induction n as [|n IH]; intros l; [reflexivity|].
  destruct l as [|x l]; simpl.
  - rewrite firstn_nil. reflexivity.
  - rewrite IH. reflexivity.
Qed.

Lemma limpa_soma (n p : nat) (fs : list bool) :
  limpa (n + p) fs = limpa n fs && limpa p (skipn n fs).
Proof. unfold limpa. rewrite firstn_soma, forallb_app. reflexivity. Qed.

Lemma skipn_soma (A : Type) (n p : nat) (l : list A) :
  skipn (n + p) l = skipn p (skipn n l).
Proof.
  revert l. induction n as [|n IH]; intros l; [reflexivity|].
  destruct l as [|x l]; simpl.
  - rewrite skipn_nil. reflexivity.
  - apply IH.
Qed.

Lemma gasta_ret (A : Type) (a : A) : gasta (ret a) 0.
Proof.
  intros w. split; [|discriminate].
  intros _. exists a, w. split; reflexivity.
Qed.

Lemma gasta_executar (A : Type) (q : statement A) : gasta (executar q) 1.
Proof.
  intros w. unfold limpa, executar.
  destruct (falhas w) as [|[|] fs] eqn:E; simpl; split; intros H;
    try discriminate.
  - destruct (q (relogio w) (db w)) as [a d]. do 2 eexists.
    split; reflexivity.
  - eexists. reflexivity.
  - destruct (q (relogio w) (db w)) as [a d]. do 2 eexists.
    split; reflexivity.
Qed.

Lemma gasta_bind (A B : Type) (m : M A) (k : A -> M B) (n p : nat) :
  gasta m n -> (forall a, gasta (k a) p) -> gasta (bind m k) (n + p).
Proof.
  intros Hm Hk w. rewrite limpa_soma. unfold bind.
  destruct (Hm w) as [Hm1 Hm2].
  destruct (limpa n (falhas w)) eqn:En; simpl.
  - destruct (Hm1 eq_refl) as (a & w1 & E1 & F1). rewrite E1, <- F1.
    destruct (Hk a w1) as [Hk1 Hk2]. split; intros H.
    + destruct (Hk1 H) as (b & w2 & E2 & F2). exists b, w2.
      split; [exact E2|]. rewrite F2, F1. symmetry. apply skipn_soma.
    + exact (Hk2 H).
  - split; [discriminate|]. intros _.
    destruct (Hm2 eq_refl) as (w1 & E1). rewrite E1. eexists. reflexivity.
Qed.

Lemma try_gasta (m : M bool) (n : nat) (w : mundo) :
  gasta m n ->
  (forall a w', m w = (Return a, w') -> a = true) ->
  fst (try_except m (fun _ => ret false) w) = Return (limpa n (falhas w)).
Proof.
  intros Hm Ht. unfold try_except. destruct (Hm w) as [H1 H2].
  destruct (limpa n (falhas w)) eqn:E.
  - destruct (H1 eq_refl) as (a & w' & Em & _). rewrite Em. simpl.
    rewrite (Ht a w' Em). reflexivity.
  - destruct (H2 eq_refl) as (w' & Em). rewrite Em. reflexivity.
Qed.

Lemma bind_true (A : Type) (m : M A) (k : A -> M bool) :
  (forall a w v w', k a w = (Return v, w') -> v = true) ->
  forall w v w', bind m k w = (Return v, w') -> v = true.
Proof.
  intros Hk w v w'. unfold bind.
  destruct (m w) as [[a|e] w1]; [apply Hk | discriminate].
Qed.

Lemma ret_true (w : mundo) (v : bool) (w' : mundo) :
  ret true w = (Return v, w') -> v = true.
Proof. unfold ret. intros H. inversion H. reflexivity. Qed.

Ltac corpo_true :=
  repeat (apply bind_true; intros ?); apply ret_true.

Lemma gasta_um_true (A : Type) (q : statement A) :
  gasta (_execute_query q ;;; ret true) 1.
Proof.
  unfold _execute_query.
  apply gasta_bind with (n := 1%nat) (p := 0%nat);
    [apply gasta_executar | intros _; apply gasta_ret].
Qed.

Lemma gasta_for_each_Forall (A : Type) (xs : list A) (body : A -> M unit) :
  Forall (fun x => gasta (body x) 1) xs ->
  gasta (for_each xs body) (List.length xs).
Proof.
  induction 1 as [|x xs Hx _ IH]; simpl.
  - apply gasta_ret.
  - apply gasta_bind with (n := 1%nat) (p := List.length xs);
      [exact Hx | intros _; exact IH].
Qed.

Lemma gasta_linhas (adicionar : date -> string -> Q -> string -> M Z)
  (df : option (list DatabaseManager.linha)) :
  (forall d desc v cat, gasta (adicionar d desc v cat) 1) ->
  forallb completa (linhas_de df) = true ->
  gasta (importar_tabela df (DatabaseManager.adicionar_linha adicionar))
    (List.length (linhas_de df)).
Proof.
  intros Ha Hc. rewrite importar_tabela_for_each.
  apply gasta_for_each_Forall. rewrite forallb_forall in Hc.
  apply Forall_forall. intros row Hrow. specialize (Hc row Hrow).
  rewrite adicionar_linha_celulas. unfold completa in Hc.
  destruct (celulas row) as [[[[d desc] v] cat]|]; [|discriminate].
  apply gasta_bind with (n := 1%nat) (p := 0%nat);
    [apply Ha | intros _; apply gasta_ret].
Qed.

Lemma sempre_falha_bind (A B : Type) (m : M A) (k : A -> M B) :
  sempre_falha m -> sempre_falha (bind m k).
Proof.
  intros Hm w. unfold bind. destruct (Hm w) as (e & w' & ->).
  exists e, w'. reflexivity.
Qed.

Lemma sempre_falha_depois (A B : Type) (m : M A) (k : A -> M B) :
  (forall a, sempre_falha (k a)) -> sempre_falha (bind m k).
Proof.
  intros Hk w. unfold bind. destruct (m w) as [[a|e] w1].
  - apply Hk.
  - exists e, w1. reflexivity.
Qed.

Lemma sempre_falha_linhas (adicionar : date -> string -> Q -> string -> M Z)
  (df : option (list DatabaseManager.linha)) :
  forallb completa (linhas_de df) = false ->
  sempre_falha (importar_tabela df (DatabaseManager.adicionar_linha adicionar)).
Proof.
  rewrite importar_tabela_for_each.
  induction (linhas_de df) as [|row rows IH]; [discriminate|].
  cbn [forallb for_each]. intros H.
  destruct (completa row) eqn:Ec.
  - apply sempre_falha_depois. intros _. apply IH. exact H.
  - apply sempre_falha_bind, sempre_falha_bind.
    rewrite adicionar_linha_celulas. unfold completa in Ec.
    destruct (celulas row); [discriminate|].
    intros w. do 2 eexists. reflexivity.
Qed.

Lemma try_sempre_falha (m : M bool) (w : mundo) :
  sempre_falha m -> fst (try_except m (fun _ => ret false) w) = Return false.
Proof.
  intros Hm. unfold try_except. destruct (Hm w) as (e & w' & ->).
  reflexivity.
Qed.

Lemma chamada_gasta (A : Type) (i : Z) (q : Z -> statement A) (w : mundo) :
  fst (try_except (DatabaseManager.executar_com_id i q ;;; ret true)
         (fun _ => ret false) w)
  = Return (DatabaseManager.cabe_int64 i && limpa 1 (falhas w)).
Proof.
  destruct (DatabaseManager.cabe_int64 i) eqn:Hc.
  - rewrite executar_com_id_cabe by exact Hc.
    apply try_gasta; [apply gasta_um_true | corpo_true].
  - rewrite chamada_nao_cabe by exact Hc. reflexivity.
Qed.

Lemma importar_frames_gasta (dd : DatabaseManager.frames) (w : mundo) :
  fst (DatabaseManager.importar_dados dd w)
  = Return (completo dd && limpa (3 + n_linhas dd) (falhas w)).
Proof.
  unfold DatabaseManager.importar_dados, completo.
  destruct (forallb completa (linhas_de (DatabaseManager.f_receitas dd)))
    eqn:Er; cbn [andb].
  - destruct (forallb completa (linhas_de (DatabaseManager.f_despesas dd)))
      eqn:Ed; cbn [andb].
    + destruct (forallb completa (linhas_de (DatabaseManager.f_metas dd)))
        eqn:Em; cbn [andb].
      * apply try_gasta; [|corpo_true].
        unfold n_linhas, _execute_query. cbn [Nat.add].
        apply gasta_bind with (n := 1%nat) (p := S (S _));
          [apply gasta_executar|].
        intros _.
        apply gasta_bind with (n := 1%nat) (p := S _);
          [apply gasta_executar|].
        intros _.
        apply gasta_bind with (n := 1%nat) (p := (_ + (_ + _))%nat);
          [apply gasta_executar|].
        intros _.
        apply gasta_bind;
          [apply gasta_linhas; [intros; apply gasta_executar | exact Er]|].
        intros _.
        apply gasta_bind;
          [apply gasta_linhas; [intros; apply gasta_executar | exact Ed]|].
        intros _.
        rewrite <- (Nat.add_0_r
                      (List.length (linhas_de (DatabaseManager.f_metas dd)))).
        apply gasta_bind;
          [apply gasta_linhas; [intros; apply gasta_executar | exact Em]|].
        intros _. apply gasta_ret.
      * apply try_sempre_falha.
        do 5 (apply sempre_falha_depois; intros _).
        apply sempre_falha_bind, sempre_falha_linhas, Em.
    + apply try_sempre_falha.
      do 4 (apply sempre_falha_depois; intros _).
      apply sempre_falha_bind, sempre_falha_linhas, Ed.
  - apply try_sempre_falha.
    do 3 (apply sempre_falha_depois; intros _).
    apply sempre_falha_bind, sempre_falha_linhas, Er.
Qed.

(** X11. The calls with a [try]/[except] never raise, and each returns
    [True] exactly when SQLite takes its arguments and none of the statements
    it runs meets a storage fault.  A delete or an update is one statement,
    and returns [False] for an id outside 64 bits whatever the storage does;
    [limpar_dados] is three statements; [importar_dados] is three and one per
    row of the dataset, and returns [False] for a dataset with a missing
    cell whatever the storage does. *)
Theorem calls_return_true_iff_no_fault (w : mundo) :
  (forall i,
      fst (DatabaseManager.excluir_receita i w)
      = Return (DatabaseManager.cabe_int64 i && limpa 1 (falhas w))
      /\ fst (DatabaseManager.excluir_despesa i w)
         = Return (DatabaseManager.cabe_int64 i && limpa 1 (falhas w))
      /\ fst (DatabaseManager.excluir_meta i w)
         = Return (DatabaseManager.cabe_int64 i && limpa 1 (falhas w)))
  /\ (forall i d desc v cat st,
         fst (DatabaseManager.atualizar_receita i d desc v cat w)
         = Return (DatabaseManager.cabe_int64 i && limpa 1 (falhas w))
         /\ fst (DatabaseManager.atualizar_despesa i d desc v cat w)
            = Return (DatabaseManager.cabe_int64 i && limpa 1 (falhas w))
         /\ fst (DatabaseManager.atualizar_meta i d desc v cat st w)
            = Return (DatabaseManager.cabe_int64 i && limpa 1 (falhas w)))
  /\ fst (limpar_dados w) = Return (limpa 3 (falhas w))
  /\ (forall dd,
         fst (DatabaseManager.importar_dados dd w)
         = Return (completo dd && limpa (3 + n_linhas dd) (falhas w))).
Proof.
  split; [|split; [|split]].
  - intros i. repeat split; apply chamada_gasta.
  - intros i d desc v cat st. repeat split; apply chamada_gasta.
  - unfold limpar_dados. apply try_gasta; [|corpo_true].
    unfold _execute_query.
    apply gasta_bind with (n := 1%nat) (p := 2%nat); [apply gasta_executar|].
    intros _.
    apply gasta_bind with (n := 1%nat) (p := 1%nat); [apply gasta_executar|].
    intros _.
    apply gasta_bind with (n := 1%nat) (p := 0%nat); [apply gasta_executar|].
    intros _. apply gasta_ret.
  - intros dd. apply importar_frames_gasta.
Qed.

(* ----------------------------------------------------------------- *)
(** ** Reads *)

Lemma so_leitura_ret (A : Type) (a : A) : so_leitura (ret a).
Proof. intros w. reflexivity. Qed.

Lemma so_leitura_bind (A B : Type) (m : M A) (k : A -> M B) :
  so_leitura m -> (forall a, so_leitura (k a)) -> so_leitura (bind m k).
Proof.
  intros Hm Hk w. unfold bind. specialize (Hm w).
  destruct (m w) as [[a|e] w1]; simpl in *.
  - rewrite Hk. exact Hm.
  - exact Hm.
Qed.

Lemma so_leitura_executar (A : Type) (q : statement A) :
  (forall t b, snd (q t b) = b) -> so_leitura (executar q).
Proof.
  intros Hq w. unfold executar.
  destruct (falhas w) as [|[|] fs]; simpl; try reflexivity;
    specialize (Hq (relogio w) (db w));
    destruct (q (relogio w) (db w)); exact Hq.
Qed.

Ltac leitura :=
  repeat first [ apply so_leitura_ret
               | apply so_leitura_bind; [|intros ?]
               | apply so_leitura_executar; reflexivity ].

(** No read changes the database, whether it returns or raises: the three
    listings, the statistics, the two groupings and the export. *)
Theorem reads_leave_database (w : mundo) :
  (forall di df cat,
      db (snd (obter_receitas di df cat w)) = db w
      /\ db (snd (obter_despesas di df cat w)) = db w)
  /\ (forall st cat, db (snd (obter_metas st cat w)) = db w)
  /\ (forall di df,
         db (snd (obter_estatisticas_gerais di df w)) = db w
         /\ db (snd (obter_despesas_por_categoria di df w)) = db w
         /\ db (snd (obter_receitas_por_categoria di df w)) = db w)
  /\ db (snd (exportar_dados w)) = db w.
Proof.
  assert (H : forall A (m : M A), so_leitura m -> db (snd (m w)) = db w)
    by (intros A m Hm; apply Hm).
  repeat split; intros; apply H;
    unfold obter_receitas, obter_despesas, obter_metas,
      obter_estatisticas_gerais, obter_despesas_por_categoria,
      obter_receitas_por_categoria, exportar_dados, obter_receitas,
      obter_despesas, obter_metas, _execute_query;
    leitura.
Qed.

(** X12. A read or an add has no [except] of its own: it raises the storage
    error exactly when one of its statements meets a fault, and returns
    otherwise. A listing, a grouping and an add are one statement, the
    statistics four, the export three. *)
Theorem reads_and_adds_raise_iff_fault :
  (forall di df cat,
      gasta (obter_receitas di df cat) 1
      /\ gasta (obter_despesas di df cat) 1)
  /\ (forall st cat, gasta (obter_metas st cat) 1)
  /\ (forall di df,
         gasta (obter_estatisticas_gerais di df) 4
         /\ gasta (obter_despesas_por_categoria di df) 1
         /\ gasta (obter_receitas_por_categoria di df) 1)
  /\ gasta exportar_dados 3
  /\ (forall d desc v cat,
         gasta (adicionar_receita d desc v cat) 1
         /\ gasta (adicionar_despesa d desc v cat) 1
         /\ gasta (adicionar_meta d desc v cat) 1).
Proof.
  split; [|split; [|split; [|split]]].
  - intros. split; apply gasta_executar.
  - intros. apply gasta_executar.
  - intros. split; [|split; apply gasta_executar].
    unfold obter_estatisticas_gerais, _execute_query.
    apply gasta_bind with (n := 1%nat) (p := 3%nat); [apply gasta_executar|].
    intros ?. cbv zeta.
    apply gasta_bind with (n := 1%nat) (p := 2%nat); [apply gasta_executar|].
    intros ?. cbv zeta.
    apply gasta_bind with (n := 1%nat) (p := 1%nat); [apply gasta_executar|].
    intros ?. cbv zeta.
    apply gasta_bind with (n := 1%nat) (p := 0%nat); [apply gasta_executar|].
    intros ?. apply gasta_ret.
  - unfold exportar_dados, obter_receitas, obter_despesas, obter_metas,
      _execute_query.
    apply gasta_bind with (n := 1%nat) (p := 2%nat); [apply gasta_executar|].
    intros ?.
    apply gasta_bind with (n := 1%nat) (p := 1%nat); [apply gasta_executar|].
    intros ?.
    apply gasta_bind with (n := 1%nat) (p := 0%nat); [apply gasta_executar|].
    intros ?. apply gasta_ret.
  - intros. repeat split; apply gasta_executar.
Qed.

(* ----------------------------------------------------------------- *)
(** ** What a listing shows *)

Lemma truthy_str_Some (c : string) :
  truthy_str (Some c) = true <-> c <> EmptyString.
Proof.
  unfold truthy_str. rewrite negb_true_iff. apply String.eqb_neq.
Qed.

Lemma filtro_texto (c : option string) (x : string) :
  (if truthy_str c
   then match c with Some t => String.eqb x t | None => true end
   else true) = true
  <-> (forall t, c = Some t -> t <> EmptyString -> x = t).
Proof.
  destruct c as [t|]; [|split; [intros _ t H; discriminate H | reflexivity]].
  destruct (truthy_str (Some t)) eqn:E.
  - apply truthy_str_Some in E. rewrite String.eqb_eq. split.
    + intros -> t' H _. inversion H. reflexivity.
    + intros H. apply (H t eq_refl E).
  - split; [|reflexivity]. intros _ t' H Hne. inversion H; subst.
    apply truthy_str_Some in Hne. congruence.
Qed.

Lemma where_transacao_passa (di df : option date) (cat : option string)
  (r : transacao) :
  where_transacao di df cat r = true <-> passa_transacao di df cat r.
Proof.
  unfold where_transacao, passa_transacao.
  rewrite !andb_true_iff, filtro_texto.
  assert (H1 : match di with
               | Some d => (d <=? Database.data r)%Z
               | None => true
               end = true
               <-> (forall d, di = Some d -> (d <= Database.data r)%Z)).
  { destruct di as [d|]; [rewrite Z.leb_le|]; split; intros H; auto.
    - intros d' E. inversion E; subst. exact H.
    - intros d' E. discriminate E. }
  assert (H2 : match df with
               | Some d => (Database.data r <=? d)%Z
               | None => true
               end = true
               <-> (forall d, df = Some d -> (Database.data r <= d)%Z)).
  { destruct df as [d|]; [rewrite Z.leb_le|]; split; intros H; auto.
    - intros d' E. inversion E; subst. exact H.
    - intros d' E. discriminate E. }
  rewrite H1, H2. tauto.
Qed.

Lemma where_meta_passa (st cat : option string) (r : meta) :
  where_meta st cat r = true <-> passa_meta st cat r.
Proof.
  unfold where_meta, passa_meta.
  rewrite andb_true_iff, !filtro_texto. tauto.
Qed.

Lemma ids_NoDup (R : Type) (id_of : R -> Z) (t : tabela R) :
  tabela_ok id_of t -> NoDup (map id_of (linhas t)).
Proof.
  intros [Hs _]. induction Hs as [|r l Hs IH Hr]; simpl; constructor.
  - rewrite in_map_iff. intros (x & E & Hx).
    rewrite Forall_forall in Hr. specialize (Hr x Hx). lia.
  - exact IH.
Qed.

Lemma ids_filter_NoDup (R : Type) (id_of : R -> Z) (rs : list R)
  (Hrs : NoDup (map id_of rs)) (p : R -> bool) :
  NoDup (map id_of (filter p rs)).
Proof.
  induction rs as [|r rs IH]; simpl in *; [constructor|].
  inversion Hrs as [|? ? Hr Hl]; subst.
  destruct (p r); simpl; [constructor|]; auto.
  rewrite in_map_iff in *. intros (y & E & Hy). apply Hr.
  exists y. split; [exact E|]. apply filter_In in Hy. apply Hy.
Qed.

Lemma select_mostra (R : Type) (id_of : R -> Z) (antes : R -> R -> bool)
  (p : R -> bool) (t : tabela R) :
  tabela_ok id_of t ->
  (forall r, In r (order_by antes (filter p (linhas t)))
             <-> In r (linhas t) /\ p r = true)
  /\ NoDup (map id_of (order_by antes (filter p (linhas t)))).
Proof.
  intros Ht.
  pose proof (order_by_Permutation antes (filter p (linhas t))) as Hp.
  split.
  - intros r. rewrite <- filter_In. split; apply Permutation_in.
    + exact Hp.
    + apply Permutation_sym, Hp.
  - apply (Permutation_NoDup (Permutation_sym (Permutation_map id_of Hp))).
    apply ids_filter_NoDup, ids_NoDup, Ht.
Qed.

(** X1. A listing of the incomes or the expenses shows the rows of the table
    that are within the date bounds given (both inclusive) and of the category
    given, each row once; no bound, no category or the empty text as category
    lets every row through. *)
Theorem listing_shows_matching_rows (w : mundo) (di df : option date)
  (cat : option string) :
  banco_ok (db w) ->
  proxima_ok w ->
  (exists rs,
      obter_receitas di df cat w = (Return rs, apos (db w) w)
      /\ (forall r, In r rs
                    <-> In r (linhas (Database.receitas (db w)))
                        /\ passa_transacao di df cat r)
      /\ NoDup (map id rs))
  /\ (exists rs,
         obter_despesas di df cat w = (Return rs, apos (db w) w)
         /\ (forall r, In r rs
                       <-> In r (linhas (Database.despesas (db w)))
                           /\ passa_transacao di df cat r)
         /\ NoDup (map id rs)).
Proof.
  intros (Hr & Hd & _) Hw. split.
  - eexists. split.
    { unfold obter_receitas, _execute_query. rewrite executar_ok by exact Hw.
      reflexivity. }
    simpl.
    destruct (select_mostra data_desc (where_transacao di df cat) Hr)
      as [Hin Hnd].
    split; [|exact Hnd].
    intros r. rewrite Hin, where_transacao_passa. reflexivity.
  - eexists. split.
    { unfold obter_despesas, _execute_query. rewrite executar_ok by exact Hw.
      reflexivity. }
    simpl.
    destruct (select_mostra data_desc (where_transacao di df cat) Hd)
      as [Hin Hnd].
    split; [|exact Hnd].
    intros r. rewrite Hin, where_transacao_passa. reflexivity.
Qed.

(** X2. A listing of the goals shows the goals of the status given and of the
    category given, each once; no value or the empty text lets every goal
    through. *)
Theorem goal_listing_shows_matching_rows (w : mundo) (st cat : option string) :
  banco_ok (db w) ->
  proxima_ok w ->
  exists ms,
    obter_metas st cat w = (Return ms, apos (db w) w)
    /\ (forall r, In r ms
                  <-> In r (linhas (Database.metas (db w)))
                      /\ passa_meta st cat r)
    /\ NoDup (map m_id ms).
Proof.
  intros (_ & _ & Hm) Hw. eexists. split.
  { unfold obter_metas, _execute_query. rewrite executar_ok by exact Hw.
    reflexivity. }
  simpl.
  destruct (select_mostra data_limite_asc (where_meta st cat) Hm)
    as [Hin Hnd].
  split; [|exact Hnd].
  intros r. rewrite Hin, where_meta_passa. reflexivity.
Qed.

(* ----------------------------------------------------------------- *)
(** ** Add, then list *)

Lemma insert_then_select (R : Type) (antes : R -> R -> bool) (p : R -> bool)
  (mk : Z -> R) (t : tabela R) (r : R) :
  In r (order_by antes (filter p (linhas (snd (tab_insert mk t)))))
  <-> In r (order_by antes (filter p (linhas t)))
      \/ (r = mk (seq t + 1)%Z /\ p r = true).
Proof.
  assert (H : forall l, In r (order_by antes (filter p l))
                        <-> In r l /\ p r = true).
  { intros l. rewrite <- filter_In. split; apply Permutation_in.
    - apply order_by_Permutation.
    - apply Permutation_sym, order_by_Permutation. }
  rewrite !H. unfold tab_insert; simpl. rewrite in_app_iff. simpl.
  intuition; subst; auto.
Qed.

Lemma adicionar_receita_sem_falhas (w : mundo) (d : date) (desc : string)
  (v : Q) (cat : string) :
  sem_falhas w ->
  adicionar_receita d desc v cat w
  = (Return (seq (Database.receitas (db w)) + 1)%Z,
     {| db := com_receitas
                (fun t => snd (tab_insert
                                 (nova_transacao d desc v cat (relogio w)) t))
                (db w);
        relogio := relogio w; falhas := [] |}).
Proof.
  destruct w as [b t f]. unfold sem_falhas; simpl. intros ->. reflexivity.
Qed.

Lemma adicionar_despesa_sem_falhas (w : mundo) (d : date) (desc : string)
  (v : Q) (cat : string) :
  sem_falhas w ->
  adicionar_despesa d desc v cat w
  = (Return (seq (Database.despesas (db w)) + 1)%Z,
     {| db := com_despesas
                (fun t => snd (tab_insert
                                 (nova_transacao d desc v cat (relogio w)) t))
                (db w);
        relogio := relogio w; falhas := [] |}).
Proof.
  destruct w as [b t f]. unfold sem_falhas; simpl. intros ->. reflexivity.
Qed.

Lemma adicionar_meta_sem_falhas (w : mundo) (d : date) (desc : string)
  (v : Q) (cat : string) :
  sem_falhas w ->
  adicionar_meta d desc v cat w
  = (Return (seq (Database.metas (db w)) + 1)%Z,
     {| db := com_metas
                (fun t => snd (tab_insert
                                 (nova_meta d desc v cat (relogio w)) t))
                (db w);
        relogio := relogio w; falhas := [] |}).
Proof.
  destruct w as [b t f]. unfold sem_falhas; simpl. intros ->. reflexivity.
Qed.

(** X3. Add, then list. After an income or an expense is added, a listing of
    its table shows what the same listing showed before and, when the filters
    let its date and category through, the new record: the one with the id
    returned, holding the date, description, amount and category given. *)
Theorem add_then_list (w : mundo) (d : date) (desc : string) (v : Q)
  (cat : string) (di df : option date) (c : option string) :
  sem_falhas w ->
  (exists i w' antes depois,
      adicionar_receita d desc v cat w = (Return i, w')
      /\ obter_receitas di df c w = (Return antes, w)
      /\ obter_receitas di df c w' = (Return depois, w')
      /\ forall r,
          In r depois
          <-> In r antes
              \/ (r = nova_transacao d desc v cat (relogio w) i
                  /\ passa_transacao di df c r))
  /\ (exists i w' antes depois,
         adicionar_despesa d desc v cat w = (Return i, w')
         /\ obter_despesas di df c w = (Return antes, w)
         /\ obter_despesas di df c w' = (Return depois, w')
         /\ forall r,
             In r depois
             <-> In r antes
                 \/ (r = nova_transacao d desc v cat (relogio w) i
                     /\ passa_transacao di df c r)).
Proof.
  intros H. split.
  - do 4 eexists.
    split; [apply adicionar_receita_sem_falhas, H|].
    split; [apply obter_receitas_sem_falhas, H|].
    split; [apply obter_receitas_sem_falhas; reflexivity|].
    intros r. cbn [db com_receitas Database.receitas].
    rewrite insert_then_select, where_transacao_passa. reflexivity.
  - do 4 eexists.
    split; [apply adicionar_despesa_sem_falhas, H|].
    split; [apply obter_despesas_sem_falhas, H|].
    split; [apply obter_despesas_sem_falhas; reflexivity|].
    intros r. cbn [db com_despesas Database.despesas].
    rewrite insert_then_select, where_transacao_passa. reflexivity.
Qed.

(** X4. Add a goal, then list. The new goal is listed under the id returned,
    with the fields given and the status ['ativa'], when the status and
    category filters let it through; the rest of the listing is as before. *)
Theorem add_goal_then_list (w : mundo) (d : date) (desc : string) (v : Q)
  (cat : string) (st c : option string) :
  sem_falhas w ->
  exists i w' antes depois,
    adicionar_meta d desc v cat w = (Return i, w')
    /\ obter_metas st c w = (Return antes, w)
    /\ obter_metas st c w' = (Return depois, w')
    /\ forall r,
        In r depois
        <-> In r antes
            \/ (r = nova_meta d desc v cat (relogio w) i
                /\ passa_meta st c r).
Proof.
  intros H. do 4 eexists.
  split; [apply adicionar_meta_sem_falhas, H|].
  split; [apply obter_metas_sem_falhas, H|].
  split; [apply obter_metas_sem_falhas; reflexivity|].
  intros r. cbn [db com_metas Database.metas].
  rewrite insert_then_select, where_meta_passa. reflexivity.
Qed.

(* ----------------------------------------------------------------- *)
(** ** Update and delete of a record that is there *)

Section Linha.
Variable R : Type.
Variable id_of : R -> Z.

Lemma tab_update_ids (set : R -> R) (i : Z) (t : tabela R) :
  (forall r, id_of (set r) = id_of r) ->
  map id_of (linhas (tab_update id_of set i t)) = map id_of (linhas t).
Proof.
  intros Hset. unfold tab_update; simpl. rewrite map_map.
  apply map_ext. intros r.
  destruct (id_of r =? i)%Z; [apply Hset | reflexivity].
Qed.

Lemma tab_update_In (set : R -> R) (i : Z) (t : tabela R) (r' : R) :
  (forall r, id_of (set r) = id_of r) ->
  In r' (linhas (tab_update id_of set i t))
  <-> (In r' (linhas t) /\ id_of r' <> i)
      \/ (exists r0, In r0 (linhas t) /\ id_of r0 = i /\ r' = set r0).
Proof.
  intros Hset. unfold tab_update; simpl. rewrite in_map_iff. split.
  - intros (r & E & Hr). destruct (Z.eqb_spec (id_of r) i) as [Ei|Ei].
    + right. exists r. auto.
    + left. subst r'. auto.
  - intros [[Hr Hne] | (r0 & Hr & Ei & E)].
    + exists r'. split; [|exact Hr].
      destruct (Z.eqb_spec (id_of r') i); [contradiction | reflexivity].
    + exists r0. split; [|exact Hr]. rewrite <- Ei, Z.eqb_refl. auto.
Qed.

Lemma filter_outros (i : Z) (l : list R) :
  ~ In i (map id_of l) ->
  filter (fun r => negb (id_of r =? i)%Z) l = l.
Proof.
  induction l as [|r l IH]; simpl; intros H; [reflexivity|].
  destruct (Z.eqb_spec (id_of r) i) as [E|E]; simpl.
  - exfalso. apply H. left. exact E.
  - f_equal. apply IH. intros Hin. apply H. right. exact Hin.
Qed.

Lemma tab_delete_split (i : Z) (t : tabela R) :
  tabela_ok id_of t ->
  In i (map id_of (linhas t)) ->
  exists l1 r l2,
    linhas t = l1 ++ r :: l2
    /\ id_of r = i
    /\ linhas (tab_delete id_of i t) = l1 ++ l2.
Proof.
  intros Ht Hi. pose proof (ids_NoDup Ht) as Hnd.
  apply in_map_iff in Hi. destruct Hi as (r & Er & Hr).
  destruct (in_split _ _ Hr) as (l1 & l2 & El).
  exists l1, r, l2. split; [exact El | split; [exact Er|]].
  unfold tab_delete; simpl. rewrite El in *.
  rewrite map_app in Hnd. simpl in Hnd.
  pose proof (NoDup_remove_2 _ _ _ Hnd) as Hnot.
  rewrite in_app_iff, Er in Hnot.
  rewrite filter_app. simpl. rewrite Er, Z.eqb_refl. simpl.
  rewrite !filter_outros; [reflexivity | tauto | tauto].
Qed.
End Linha.

Lemma atualizar_sem_falhas (A : Type) (q : statement A) (w : mundo) :
  sem_falhas w ->
  try_except (_execute_query q ;;; ret true) (fun _ => ret false) w
  = (Return true,
     {| db := snd (q (relogio w) (db w)); relogio := relogio w;
        falhas := [] |}).
Proof.
  intros H. rewrite try_query_ok by (apply sem_falhas_proxima_ok, H).
  unfold apos. rewrite H. reflexivity.
Qed.

(** X5. An update of an income or an expense by an id that fits in 64 bits
    returns [True] and replaces the whole row of that id: the row keeps its id
    and its creation time, takes the date, description, amount and category
    given and the time of the update; every other row, the order of the rows
    and the other tables stay as they were. *)
Theorem update_replaces_the_row (w : mundo) (i : Z) (d : date)
  (desc : string) (v : Q) (cat : string) :
  DatabaseManager.cabe_int64 i = true ->
  sem_falhas w ->
  (exists w',
      DatabaseManager.atualizar_receita i d desc v cat w = (Return true, w')
      /\ map id (linhas (Database.receitas (db w')))
         = map id (linhas (Database.receitas (db w)))
      /\ (forall r',
             In r' (linhas (Database.receitas (db w')))
             <-> (In r' (linhas (Database.receitas (db w))) /\ id r' <> i)
                 \/ (exists r0,
                        In r0 (linhas (Database.receitas (db w)))
                        /\ id r0 = i
                        /\ r' = {| id := id r0; Database.data := d;
                                   Database.descricao := desc;
                                   Database.valor := v;
                                   Database.categoria := cat;
                                   created_at := created_at r0;
                                   updated_at := relogio w |}))
      /\ Database.despesas (db w') = Database.despesas (db w)
      /\ Database.metas (db w') = Database.metas (db w))
  /\ (exists w',
         DatabaseManager.atualizar_despesa i d desc v cat w
         = (Return true, w')
         /\ map id (linhas (Database.despesas (db w')))
            = map id (linhas (Database.despesas (db w)))
         /\ (forall r',
                In r' (linhas (Database.despesas (db w')))
                <-> (In r' (linhas (Database.despesas (db w))) /\ id r' <> i)
                    \/ (exists r0,
                           In r0 (linhas (Database.despesas (db w)))
                           /\ id r0 = i
                           /\ r' = {| id := id r0; Database.data := d;
                                      Database.descricao := desc;
                                      Database.valor := v;
                                      Database.categoria := cat;
                                      created_at := created_at r0;
                                      updated_at := relogio w |}))
         /\ Database.receitas (db w') = Database.receitas (db w)
         /\ Database.metas (db w') = Database.metas (db w)).
Proof.
  intros Hc H.
  destruct (@chamadas_cabe i Hc) as (_ & _ & _ & -> & -> & _). split.
  - eexists. split; [unfold atualizar_receita; apply atualizar_sem_falhas, H|].
    cbn [db snd UPDATE_receitas com_receitas Database.receitas
           Database.despesas Database.metas].
    split; [apply tab_update_ids; reflexivity|].
    split; [|split; reflexivity].
    intros r'. apply tab_update_In. reflexivity.
  - eexists. split; [unfold atualizar_despesa; apply atualizar_sem_falhas, H|].
    cbn [db snd UPDATE_despesas com_despesas Database.receitas
           Database.despesas Database.metas].
    split; [apply tab_update_ids; reflexivity|].
    split; [|split; reflexivity].
    intros r'. apply tab_update_In. reflexivity.
Qed.

Lemma status_atualizado (st : option string) (r0 : meta) :
  match (if truthy_str st then st else None) with
  | Some s => s
  | None => status r0
  end
  = match st with
    | Some s => if String.eqb s EmptyString then status r0 else s
    | None => status r0
    end.
Proof.
  destruct st as [s|]; [|reflexivity]. unfold truthy_str.
  destruct (String.eqb s EmptyString); reflexivity.
Qed.

(** X6. An update of a goal by an id that fits in 64 bits returns [True] and
    replaces the row of that id, which keeps its id and creation time. The
    status changes only when a non-empty one is given: with no status or the
    empty text the goal keeps the status it had. *)
Theorem goal_update_keeps_status_unless_given (w : mundo) (i : Z) (d : date)
  (desc : string) (v : Q) (cat : string) (st : option string) :
  DatabaseManager.cabe_int64 i = true ->
  sem_falhas w ->
  exists w',
    DatabaseManager.atualizar_meta i d desc v cat st w = (Return true, w')
    /\ map m_id (linhas (Database.metas (db w')))
       = map m_id (linhas (Database.metas (db w)))
    /\ (forall r',
           In r' (linhas (Database.metas (db w')))
           <-> (In r' (linhas (Database.metas (db w))) /\ m_id r' <> i)
               \/ (exists r0,
                      In r0 (linhas (Database.metas (db w)))
                      /\ m_id r0 = i
                      /\ r' = {| m_id := m_id r0; data_limite := d;
                                 m_descricao := desc; valor_meta := v;
                                 m_categoria := cat;
                                 status :=
                                   match st with
                                   | Some s =>
                                       if String.eqb s EmptyString
                                       then status r0 else s
                                   | None => status r0
                                   end;
                                 m_created_at := m_created_at r0;
                                 m_updated_at := relogio w |}))
    /\ Database.receitas (db w') = Database.receitas (db w)
    /\ Database.despesas (db w') = Database.despesas (db w).
Proof.
  intros Hc H.
  destruct (@chamadas_cabe i Hc) as (_ & _ & _ & _ & _ & ->). eexists.
  split; [unfold atualizar_meta; apply atualizar_sem_falhas, H|].
  cbn [db snd UPDATE_metas com_metas Database.receitas Database.despesas
         Database.metas].
  split; [apply tab_update_ids; reflexivity|].
  split; [|split; reflexivity].
  intros r'. rewrite tab_update_In by reflexivity.
  unfold set_meta. split; intros [Hl | (r0 & Hr & Ei & E)]; auto; right;
    exists r0; (split; [exact Hr | split; [exact Ei|]]); rewrite E;
    f_equal; [|symmetry]; apply status_atualizado.
Qed.

(** X7. A delete of an id that is in the table returns [True] and removes
    exactly the row of that id: the rows before it and the rows after it stay,
    in their order; the other tables stay. *)
Theorem delete_removes_exactly_the_row (w : mundo) (i : Z) :
  banco_ok (db w) ->
  sem_falhas w ->
  (In i (map id (linhas (Database.receitas (db w)))) ->
   exists w' l1 r l2,
     excluir_receita i w = (Return true, w')
     /\ linhas (Database.receitas (db w)) = l1 ++ r :: l2
     /\ id r = i
     /\ linhas (Database.receitas (db w')) = l1 ++ l2
     /\ Database.despesas (db w') = Database.despesas (db w)
     /\ Database.metas (db w') = Database.metas (db w))
  /\ (In i (map id (linhas (Database.despesas (db w)))) ->
      exists w' l1 r l2,
        excluir_despesa i w = (Return true, w')
        /\ linhas (Database.despesas (db w)) = l1 ++ r :: l2
        /\ id r = i
        /\ linhas (Database.despesas (db w')) = l1 ++ l2
        /\ Database.receitas (db w') = Database.receitas (db w)
        /\ Database.metas (db w') = Database.metas (db w))
  /\ (In i (map m_id (linhas (Database.metas (db w)))) ->
      exists w' l1 r l2,
        excluir_meta i w = (Return true, w')
        /\ linhas (Database.metas (db w)) = l1 ++ r :: l2
        /\ m_id r = i
        /\ linhas (Database.metas (db w')) = l1 ++ l2
        /\ Database.receitas (db w') = Database.receitas (db w)
        /\ Database.despesas (db w') = Database.despesas (db w)).
Proof.
  intros (Hr & Hd & Hm) H. split; [|split]; intros Hi.
  - destruct (tab_delete_split i Hr Hi) as (l1 & r & l2 & E1 & E2 & E3).
    eexists. exists l1, r, l2.
    split; [unfold excluir_receita; apply atualizar_sem_falhas, H|].
    split; [exact E1 | split; [exact E2 | split; [exact E3|]]].
    split; reflexivity.
  - destruct (tab_delete_split i Hd Hi) as (l1 & r & l2 & E1 & E2 & E3).
    eexists. exists l1, r, l2.
    split; [unfold excluir_despesa; apply atualizar_sem_falhas, H|].
    split; [exact E1 | split; [exact E2 | split; [exact E3|]]].
    split; reflexivity.
  - destruct (tab_delete_split i Hm Hi) as (l1 & r & l2 & E1 & E2 & E3).
    eexists. exists l1, r, l2.
    split; [unfold excluir_meta; apply atualizar_sem_falhas, H|].
    split; [exact E1 | split; [exact E2 | split; [exact E3|]]].
    split; reflexivity.
Qed.

(* ----------------------------------------------------------------- *)
(** ** Clearing, and the ids given afterwards *)

Lemma limpar_dados_sem_falhas (w : mundo) :
  sem_falhas w ->
  limpar_dados w
  = (Return true,
     {| db :=
          {| Database.receitas := tab_clear (Database.receitas (db w));
             Database.despesas := tab_clear (Database.despesas (db w));
             Database.metas := tab_clear (Database.metas (db w)) |};
        relogio := relogio w; falhas := [] |}).
Proof.
  destruct w as [b t f]. unfold sem_falhas; simpl. intros ->. reflexivity.
Qed.

Lemma excluir_receita_sem_falhas (w : mundo) (i : Z) :
  sem_falhas w ->
  excluir_receita i w
  = (Return true,
     {| db := com_receitas (tab_delete id i) (db w);
        relogio := relogio w; falhas := [] |}).
Proof. intros H. unfold excluir_receita. apply atualizar_sem_falhas, H. Qed.

Lemma excluir_despesa_sem_falhas (w : mundo) (i : Z) :
  sem_falhas w ->
  excluir_despesa i w
  = (Return true,
     {| db := com_despesas (tab_delete id i) (db w);
        relogio := relogio w; falhas := [] |}).
Proof. intros H. unfold excluir_despesa. apply atualizar_sem_falhas, H. Qed.

Lemma excluir_meta_sem_falhas (w : mundo) (i : Z) :
  sem_falhas w ->
  excluir_meta i w
  = (Return true,
     {| db := com_metas (tab_delete m_id i) (db w);
        relogio := relogio w; falhas := [] |}).
Proof. intros H. unfold excluir_meta. apply atualizar_sem_falhas, H. Qed.

Lemma ids_abaixo (R : Type) (id_of : R -> Z) (t : tabela R) :
  tabela_ok id_of t ->
  Forall (fun r => (id_of r < seq t + 1)%Z) (linhas t).
Proof.
  intros [_ Hb]. eapply Forall_impl; [|exact Hb].
  intros r Hr; simpl in *. lia.
Qed.

(** X8. Ids are never given twice. After a delete of any record, the newest
    included, and after [limpar_dados], the next add returns an id above every
    id the table held before: the id of a record that is gone does not come
    back. *)
Theorem ids_are_never_reused (w : mundo) (i : Z) (d : date) (desc : string)
  (v : Q) (cat : string) :
  banco_ok (db w) ->
  sem_falhas w ->
  (exists j w',
      (excluir_receita i ;;; adicionar_receita d desc v cat) w
      = (Return j, w')
      /\ Forall (fun r => (id r < j)%Z) (linhas (Database.receitas (db w))))
  /\ (exists j w',
         (excluir_despesa i ;;; adicionar_despesa d desc v cat) w
         = (Return j, w')
         /\ Forall (fun r => (id r < j)%Z)
              (linhas (Database.despesas (db w))))
  /\ (exists j w',
         (excluir_meta i ;;; adicionar_meta d desc v cat) w = (Return j, w')
         /\ Forall (fun r => (m_id r < j)%Z) (linhas (Database.metas (db w))))
  /\ (exists j w',
         (limpar_dados ;;; adicionar_receita d desc v cat) w = (Return j, w')
         /\ Forall (fun r => (id r < j)%Z)
              (linhas (Database.receitas (db w)))
         /\ map id (linhas (Database.receitas (db w'))) = [j])
  /\ (exists j w',
         (limpar_dados ;;; adicionar_despesa d desc v cat) w = (Return j, w')
         /\ Forall (fun r => (id r < j)%Z)
              (linhas (Database.despesas (db w)))
         /\ map id (linhas (Database.despesas (db w'))) = [j])
  /\ (exists j w',
         (limpar_dados ;;; adicionar_meta d desc v cat) w = (Return j, w')
         /\ Forall (fun r => (m_id r < j)%Z) (linhas (Database.metas (db w)))
         /\ map m_id (linhas (Database.metas (db w'))) = [j]).
Proof.
  intros (Hr & Hd & Hm) H.
  split; [|split; [|split; [|split; [|split]]]]; do 2 eexists.
  - split; [|exact (ids_abaixo Hr)].
    unfold bind. rewrite excluir_receita_sem_falhas by exact H.
    rewrite adicionar_receita_sem_falhas by reflexivity. reflexivity.
  - split; [|exact (ids_abaixo Hd)].
    unfold bind. rewrite excluir_despesa_sem_falhas by exact H.
    rewrite adicionar_despesa_sem_falhas by reflexivity. reflexivity.
  - split; [|exact (ids_abaixo Hm)].
    unfold bind. rewrite excluir_meta_sem_falhas by exact H.
    rewrite adicionar_meta_sem_falhas by reflexivity. reflexivity.
  - split.
    { unfold bind. rewrite limpar_dados_sem_falhas by exact H.
      rewrite adicionar_receita_sem_falhas by reflexivity. reflexivity. }
    split; [exact (ids_abaixo Hr) | reflexivity].
  - split.
    { unfold bind. rewrite limpar_dados_sem_falhas by exact H.
      rewrite adicionar_despesa_sem_falhas by reflexivity. reflexivity. }
    split; [exact (ids_abaixo Hd) | reflexivity].
  - split.
    { unfold bind. rewrite limpar_dados_sem_falhas by exact H.
      rewrite adicionar_meta_sem_falhas by reflexivity. reflexivity. }
    split; [exact (ids_abaixo Hm) | reflexivity].
Qed.

(** X9. [limpar_dados] returns [True] and leaves nothing to show: afterwards
    every listing and both groupings are empty and the statistics are all
    zero, whatever the filters; a second [limpar_dados] returns [True] and
    changes nothing. *)
Theorem clear_leaves_nothing (w : mundo) :
  sem_falhas w ->
  exists w',
    limpar_dados w = (Return true, w')
    /\ limpar_dados w' = (Return true, w')
    /\ (forall di df cat,
           obter_receitas di df cat w' = (Return [], w')
           /\ obter_despesas di df cat w' = (Return [], w'))
    /\ (forall st cat, obter_metas st cat w' = (Return [], w'))
    /\ (forall di df,
           obter_despesas_por_categoria di df w' = (Return [], w')
           /\ obter_receitas_por_categoria di df w' = (Return [], w')
           /\ obter_estatisticas_gerais di df w'
              = (Return {| Database.total_receitas := 0;
                           Database.total_despesas := 0;
                           Database.saldo := 0;
                           Database.percentual_despesas := 0;
                           count_receitas := 0;
                           count_despesas := 0 |}, w')).
Proof.
  intros H. eexists.
  split; [apply limpar_dados_sem_falhas, H|].
  split; [rewrite limpar_dados_sem_falhas by reflexivity; reflexivity|].
  split; [|split].
  - intros. split;
      [rewrite obter_receitas_sem_falhas by reflexivity
      |rewrite obter_despesas_sem_falhas by reflexivity]; reflexivity.
  - intros. rewrite obter_metas_sem_falhas by reflexivity. reflexivity.
  - intros. repeat split; reflexivity.
Qed.

(* ----------------------------------------------------------------- *)
(** ** Statistics and groupings against the listings *)

Lemma where_periodo_transacao (di df : option date) (r : transacao) :
  where_periodo di df r = where_transacao di df None r.
Proof.
  unfold where_periodo, where_transacao.
  destruct di, df; simpl; rewrite ?andb_true_r; reflexivity.
Qed.

Lemma where_transacao_categoria (di df : option date) (c : string)
  (r : transacao) :
  c <> EmptyString ->
  where_transacao di df (Some c) r
  = where_periodo di df r && String.eqb (Database.categoria r) c.
Proof.
  intros Hc. rewrite where_periodo_transacao. unfold where_transacao.
  rewrite (proj2 (truthy_str_Some c) Hc). simpl.
  rewrite andb_true_r. reflexivity.
Qed.

Lemma filter_filter (A : Type) (p q : A -> bool) (l : list A) :
  filter q (filter p l) = filter (fun x => p x && q x) l.
Proof.
  induction l as [|x l IH]; simpl; [reflexivity|].
  destruct (p x); simpl; [|exact IH].
  destruct (q x); rewrite IH; reflexivity.
Qed.

Lemma contagens_sem_falhas (w : mundo) (di df : option date) :
  sem_falhas w ->
  exists st,
    obter_estatisticas_gerais di df w = (Return st, w)
    /\ count_receitas st
       = Z.of_nat
           (List.length (filter (where_periodo di df)
                           (linhas (Database.receitas (db w)))))
    /\ count_despesas st
       = Z.of_nat
           (List.length (filter (where_periodo di df)
                           (linhas (Database.despesas (db w))))).
Proof.
  destruct w as [b t f]. unfold sem_falhas; simpl. intros ->.
  eexists. split.
  - unfold obter_estatisticas_gerais, bind, _execute_query, executar, ret,
      SELECT_SUM_receitas, SELECT_SUM_despesas, SELECT_COUNT_receitas,
      SELECT_COUNT_despesas.
    cbn [falhas db relogio tl]. reflexivity.
  - split; reflexivity.
Qed.

(** X13. The statistics of a period agree with the listings of the same period
    taken without a category: the counts are the numbers of rows listed, the
    totals are the sums of their amounts, and the balance is the income total
    less the expense total. *)
Theorem statistics_agree_with_listings (w : mundo) (di df : option date) :
  sem_falhas w ->
  exists st rs ds,
    obter_estatisticas_gerais di df w = (Return st, w)
    /\ obter_receitas di df None w = (Return rs, w)
    /\ obter_despesas di df None w = (Return ds, w)
    /\ count_receitas st = Z.of_nat (List.length rs)
    /\ count_despesas st = Z.of_nat (List.length ds)
    /\ Database.total_receitas st == total_spec (map Database.valor rs)
    /\ Database.total_despesas st == total_spec (map Database.valor ds)
    /\ Database.saldo st
       == total_spec (map Database.valor rs)
          - total_spec (map Database.valor ds).
Proof.
  intros H.
  destruct (obter_estatisticas_gerais_sem_falhas di df H)
    as (st & E & Er & Ed & Es & _).
  destruct (contagens_sem_falhas di df H) as (st' & E' & Cr & Cd).
  rewrite E in E'. inversion E'; subst st'. clear E'.
  exists st. do 2 eexists.
  split; [exact E|].
  split; [apply obter_receitas_sem_falhas, H|].
  split; [apply obter_despesas_sem_falhas, H|].
  pose proof (fun l => order_by_Permutation data_desc
                         (filter (where_transacao di df None) l)) as Hp.
  assert (Hf : forall l, filter (where_periodo di df) l
                         = filter (where_transacao di df None) l).
  { intros l. apply filter_ext, where_periodo_transacao. }
  assert (Tr : Database.total_receitas st
               == total_spec
                    (map Database.valor
                       (order_by data_desc
                          (filter (where_transacao di df None)
                             (linhas (Database.receitas (db w))))))).
  { rewrite Er, soma_ou_zero_SUM, soma_total_spec, Hf.
    apply total_spec_Permutation, Permutation_map, Permutation_sym, Hp. }
  assert (Td : Database.total_despesas st
               == total_spec
                    (map Database.valor
                       (order_by data_desc
                          (filter (where_transacao di df None)
                             (linhas (Database.despesas (db w))))))).
  { rewrite Ed, soma_ou_zero_SUM, soma_total_spec, Hf.
    apply total_spec_Permutation, Permutation_map, Permutation_sym, Hp. }
  split; [rewrite Cr, Hf; f_equal; symmetry; apply Permutation_length, Hp|].
  split; [rewrite Cd, Hf; f_equal; symmetry; apply Permutation_length, Hp|].
  split; [exact Tr | split; [exact Td|]].
  rewrite Es, Tr, Td. reflexivity.
Qed.

Lemma por_categoria_sem_falhas (w : mundo) (di df : option date) :
  sem_falhas w ->
  obter_despesas_por_categoria di df w
  = (Return (order_by total_desc
               (group_by_categoria
                  (filter (where_periodo di df)
                     (linhas (Database.despesas (db w)))))), w)
  /\ obter_receitas_por_categoria di df w
     = (Return (order_by total_desc
                  (group_by_categoria
                     (filter (where_periodo di df)
                        (linhas (Database.receitas (db w)))))), w).
Proof.
  destruct w as [b t f]. unfold sem_falhas; simpl. intros ->.
  split; reflexivity.
Qed.

Lemma grupo_e_listagem (di df : option date) (l : list transacao)
  (g : grupo) :
  In g (order_by total_desc
          (group_by_categoria (filter (where_periodo di df) l))) ->
  g_categoria g <> EmptyString ->
  let rs :=
    order_by data_desc
      (filter (where_transacao di df (Some (g_categoria g))) l) in
  quantidade g = Z.of_nat (List.length rs)
  /\ total g == total_spec (map Database.valor rs)
  /\ rs <> [].
Proof.
  intros Hg Hc rs.
  destruct (select_por_categoria_grupos (filter (where_periodo di df) l))
    as ((_ & Hn & Hgs & _) & _).
  destruct (Hgs g Hg) as [Ht Hq].
  assert (Hp : Permutation rs
                 (da_categoria (g_categoria g)
                    (filter (where_periodo di df) l))).
  { unfold rs, da_categoria. rewrite filter_filter.
    rewrite (filter_ext _ _ (fun r => where_transacao_categoria di df r Hc)).
    apply order_by_Permutation. }
  split; [|split].
  - rewrite Hq. f_equal. symmetry. apply Permutation_length, Hp.
  - rewrite Ht. apply total_spec_Permutation, Permutation_map.
    apply Permutation_sym, Hp.
  - intros E. rewrite E in Hp. apply Permutation_nil in Hp.
    assert (Hin : In (g_categoria g)
                    (map Database.categoria (filter (where_periodo di df) l))).
    { apply Hn, in_map, Hg. }
    apply in_map_iff in Hin. destruct Hin as (r & Er & Hr).
    assert (Hd : In r (da_categoria (g_categoria g)
                         (filter (where_periodo di df) l))).
    { unfold da_categoria. apply filter_In. split; [exact Hr|].
      apply String.eqb_eq, Er. }
    rewrite Hp in Hd. exact Hd.
Qed.

(** X14. The groupings agree with the listings: each group of a category with
    a name stands for the rows that the listing of the same period and that
    category shows; its count is their number, which is at least one, and its
    total the sum of their amounts. *)
Theorem groups_agree_with_listings (w : mundo) (di df : option date) :
  sem_falhas w ->
  (exists gs,
      obter_despesas_por_categoria di df w = (Return gs, w)
      /\ forall g, In g gs -> g_categoria g <> EmptyString ->
           exists rs,
             obter_despesas di df (Some (g_categoria g)) w = (Return rs, w)
             /\ quantidade g = Z.of_nat (List.length rs)
             /\ total g == total_spec (map Database.valor rs)
             /\ rs <> [])
  /\ (exists gs,
         obter_receitas_por_categoria di df w = (Return gs, w)
         /\ forall g, In g gs -> g_categoria g <> EmptyString ->
              exists rs,
                obter_receitas di df (Some (g_categoria g)) w
                = (Return rs, w)
                /\ quantidade g = Z.of_nat (List.length rs)
                /\ total g == total_spec (map Database.valor rs)
                /\ rs <> []).
Proof.
  intros H. destruct (por_categoria_sem_falhas di df H) as [Ed Er]. split.
  - eexists. split; [exact Ed|]. intros g Hg Hc. eexists.
    split; [apply obter_despesas_sem_falhas, H|].
    apply (grupo_e_listagem di df _ g Hg Hc).
  - eexists. split; [exact Er|]. intros g Hg Hc. eexists.
    split; [apply obter_receitas_sem_falhas, H|].
    apply (grupo_e_listagem di df _ g Hg Hc).
Qed.

(* ----------------------------------------------------------------- *)
(** ** Goals that are complete, and the mean progress *)

Lemma py_min_mono (a b c : Q) : a <= b -> py_min a c <= py_min b c.
Proof.
  intros H. unfold py_min.
  destruct (Qgt_bool a c) eqn:Ea; destruct (Qgt_bool b c) eqn:Eb.
  - apply Qle_refl.
  - apply (proj1 (Qgt_bool_true a c)) in Ea.
    apply (proj1 (Qgt_bool_false b c)) in Eb. lra.
  - apply (proj1 (Qgt_bool_false a c)), Ea.
  - exact H.
Qed.

Lemma progresso_le_100 (receitas_df despesas_df : App.DataFrame)
  (g : App.registro) :
  App.progresso (App.calcular_progresso receitas_df despesas_df g) <= 100.
Proof.
  rewrite progresso_calcular_progresso.
  destruct (Qgt_bool (App.valor g) 0); [apply py_min_le_r | discriminate].
Qed.

Lemma razao_ge (e v : Q) : 0 < v -> (100 <= e / v * 100 <-> v <= e).
Proof.
  intros Hv. split; intros H.
  - assert (H1 : 1 <= e / v) by lra.
    assert (H2 : 1 * v <= e / v * v).
    { apply Qmult_le_compat_r; [exact H1 | apply Qlt_le_weak, Hv]. }
    assert (H3 : e / v * v == e) by (field; intros E; rewrite E in Hv; lra).
    lra.
  - assert (H1 : 1 <= e / v).
    { apply Qle_shift_div_l; [exact Hv | lra]. }
    lra.
Qed.

Lemma razao_mono (e1 e2 v : Q) :
  0 < v -> e1 <= e2 -> e1 / v * 100 <= e2 / v * 100.
Proof.
  intros Hv He.
  assert (H : e1 / v <= e2 / v).
  { unfold Qdiv. apply Qmult_le_compat_r; [exact He|].
    apply Qlt_le_weak, Qinv_lt_0_compat, Hv. }
  lra.
Qed.

Lemma concluida_iff (receitas_df despesas_df : App.DataFrame)
  (g : App.registro) :
  Qle_bool 100
    (App.progresso (App.calcular_progresso receitas_df despesas_df g))
  = Qgt_bool (App.valor g) 0
    && Qle_bool (App.valor g)
         (App.economias (App.calcular_progresso receitas_df despesas_df g)).
Proof.
  rewrite progresso_calcular_progresso.
  set (e := App.economias (App.calcular_progresso receitas_df despesas_df g)).
  destruct (Qgt_bool (App.valor g) 0) eqn:Ev; [|reflexivity].
  apply Qgt_bool_true in Ev. simpl.
  apply eq_true_iff_eq. rewrite !Qle_bool_iff, <- (razao_ge e Ev).
  split; intros H.
  - eapply Qle_trans; [exact H | apply py_min_le_l].
  - unfold py_min. destruct (Qgt_bool (e / App.valor g * 100) 100);
      [apply Qle_refl | exact H].
Qed.

(** X16. A goal is counted as complete exactly when its target amount is above
    0 and the amount saved up to its date reaches it; its progress is then
    100. The number of complete goals shown is the number of such goals. *)
Theorem goal_complete_iff_saved_reaches_target
  (receitas_df despesas_df : App.DataFrame) :
  (forall g,
      let m := App.calcular_progresso receitas_df despesas_df g in
      (100 <= App.progresso m
       <-> 0 < App.valor g /\ App.valor g <= App.economias m)
      /\ (100 <= App.progresso m -> App.progresso m == 100))
  /\ (forall metas_df,
         App.metas_concluidas
           (map (App.calcular_progresso receitas_df despesas_df) metas_df)
         = List.length
             (filter
                (fun g =>
                   Qgt_bool (App.valor g) 0
                   && Qle_bool (App.valor g)
                        (App.economias
                           (App.calcular_progresso receitas_df despesas_df
                              g)))
                metas_df)).
Proof.
  split.
  - intros g m. subst m.
    pose proof (concluida_iff receitas_df despesas_df g) as H.
    split.
    + rewrite <- Qle_bool_iff, H, andb_true_iff, Qgt_bool_true, Qle_bool_iff.
      reflexivity.
    + intros H100. apply Qle_antisym; [|exact H100].
      apply progresso_le_100.
  - intros metas_df. unfold App.metas_concluidas.
    induction metas_df as [|g l IH]; [reflexivity|].
    cbn [map filter]. rewrite concluida_iff.
    destruct (Qgt_bool (App.valor g) 0 && _); cbn [List.length];
      rewrite IH; reflexivity.
Qed.

(** X17. The progress of a goal does not go down when the amount saved goes
    up: between two states of the records, for the same goal, more saved means
    at least as much progress. *)
Theorem progress_is_monotone_in_saved
  (receitas1 despesas1 receitas2 despesas2 : App.DataFrame)
  (g : App.registro) :
  App.economias (App.calcular_progresso receitas1 despesas1 g)
  <= App.economias (App.calcular_progresso receitas2 despesas2 g) ->
  App.progresso (App.calcular_progresso receitas1 despesas1 g)
  <= App.progresso (App.calcular_progresso receitas2 despesas2 g).
Proof.
  intros H. rewrite !progresso_calcular_progresso.
  destruct (Qgt_bool (App.valor g) 0) eqn:Ev; [|apply Qle_refl].
  apply Qgt_bool_true in Ev. apply py_min_mono, razao_mono; assumption.
Qed.

Lemma progress_is_monotone_in_saved_witness :
  App.economias
    (App.calcular_progresso [] despesas_cenario (meta_cenario 4000))
  <= App.economias
       (App.calcular_progresso receitas_cenario despesas_cenario
          (meta_cenario 4000))
  /\ App.progresso
       (App.calcular_progresso [] despesas_cenario (meta_cenario 4000))
     <= App.progresso
          (App.calcular_progresso receitas_cenario despesas_cenario
             (meta_cenario 4000)).
Proof.
  assert (H : App.economias
                (App.calcular_progresso [] despesas_cenario
                   (meta_cenario 4000))
              <= App.economias
                   (App.calcular_progresso receitas_cenario despesas_cenario
                      (meta_cenario 4000))) by discriminate.
  split; [exact H|].
  exact (@progress_is_monotone_in_saved [] despesas_cenario receitas_cenario
           despesas_cenario (meta_cenario 4000) H).
Defined.

Lemma inject_nat_S (n : nat) :
  inject_Z (Z.of_nat (S n)) == inject_Z (Z.of_nat n) + 1.
Proof.
  rewrite Nat2Z.inj_succ. unfold Z.succ. rewrite inject_Z_plus. reflexivity.
Qed.

Lemma total_spec_teto (c : Q) (l : list Q) :
  Forall (fun x => x <= c) l ->
  total_spec l <= c * inject_Z (Z.of_nat (List.length l)).
Proof.
  induction 1 as [|x l Hx Hl IH].
  - change (0 <= c * 0). lra.
  - change (x + total_spec l
            <= c * inject_Z (Z.of_nat (S (List.length l)))).
    rewrite inject_nat_S. lra.
Qed.

(** X18. The mean progress shown on the goals page is a number, since the page
    shows it only when there is a goal, and it is never above 100. *)
Theorem mean_progress_at_most_100
  (receitas_df despesas_df metas_df : App.DataFrame) :
  metas_df <> [] ->
  exists ms q,
    App.metas_com_progresso receitas_df despesas_df metas_df = Some ms
    /\ App.media_progresso ms = App.Num q
    /\ q <= 100.
Proof.
  intros Hne. destruct metas_df as [|g l]; [congruence|].
  eexists. eexists. split; [reflexivity|]. split; [reflexivity|].
  set (ps := map App.progresso
               (map (App.calcular_progresso receitas_df despesas_df)
                  (g :: l))).
  change (soma ps / inject_Z (Z.of_nat (List.length ps)) <= 100).
  assert (Hn : 0 < inject_Z (Z.of_nat (List.length ps))).
  { unfold ps. rewrite !length_map. simpl List.length.
    rewrite inject_nat_S.
    assert (0 <= inject_Z (Z.of_nat (List.length l))).
    { change 0 with (inject_Z 0). rewrite <- Zle_Qle. lia. }
    lra. }
  apply Qle_shift_div_r; [exact Hn|].
  rewrite soma_total_spec. apply total_spec_teto.
  unfold ps. rewrite map_map. apply Forall_map, Forall_forall.
  intros x _. apply progresso_le_100.
Qed.

Lemma mean_progress_at_most_100_witness :
  [meta_cenario 4000; meta_cenario 1000] <> []
  /\ exists ms q,
      App.metas_com_progresso receitas_cenario despesas_cenario
        [meta_cenario 4000; meta_cenario 1000] = Some ms
      /\ App.media_progresso ms = App.Num q
      /\ q <= 100.
Proof.
  assert (H : [meta_cenario 4000; meta_cenario 1000] <> []) by discriminate.
  split; [exact H|].
  exact (@mean_progress_at_most_100 receitas_cenario despesas_cenario
           [meta_cenario 4000; meta_cenario 1000] H).
Defined.

(* ----------------------------------------------------------------- *)
(** ** The filtered list of a page *)

Lemma data_min_le (r : App.registro) (rs : App.DataFrame) :
  Forall (fun x => (App.data_min r rs <= App.data x)%Z) (r :: rs).
Proof.
  unfold App.data_min.
  assert (H : forall l a,
             (fold_left (fun m x => Z.min m (App.data x)) l a <= a)%Z
             /\ Forall
                  (fun x =>
                     (fold_left (fun m x => Z.min m (App.data x)) l a
                      <= App.data x)%Z) l).
  { induction l as [|x l IH]; intros a; simpl.
    - split; [lia | constructor].
    - destruct (IH (Z.min a (App.data x))) as [H1 H2].
      split; [lia|]. constructor; [lia | exact H2]. }
  destruct (H rs (App.data r)) as [H1 H2]. constructor; assumption.
Qed.

Lemma data_max_ge (r : App.registro) (rs : App.DataFrame) :
  Forall (fun x => (App.data x <= App.data_max r rs)%Z) (r :: rs).
Proof.
  unfold App.data_max.
  assert (H : forall l a,
             (a <= fold_left (fun m x => Z.max m (App.data x)) l a)%Z
             /\ Forall
                  (fun x =>
                     (App.data x
                      <= fold_left (fun m x => Z.max m (App.data x)) l a)%Z)
                  l).
  { induction l as [|x l IH]; intros a; simpl.
    - split; [lia | constructor].
    - destruct (IH (Z.max a (App.data x))) as [H1 H2].
      split; [lia|]. constructor; [lia | exact H2]. }
  destruct (H rs (App.data r)) as [H1 H2]. constructor; assumption.
Qed.

Lemma filtrar_In (df : App.DataFrame) (cat : string) (di dfim : date)
  (r : App.registro) :
  In r (App.filtrar df cat di dfim)
  <-> In r df
      /\ (cat = "Todas"%string \/ App.categoria r = cat)
      /\ (di <= App.data r <= dfim)%Z.
Proof.
  unfold App.filtrar. rewrite filter_In, andb_true_iff, !Z.leb_le.
  destruct (String.eqb_spec cat "Todas") as [E|E]; simpl.
  - intuition.
  - rewrite filter_In, String.eqb_eq. intuition.
Qed.

(** X19. The list of a page shows the records of the category chosen, all of
    them for ["Todas"], that are dated within the two bounds, both inclusive.
    With the filters as the page first sets them (["Todas"], the earliest and
    the latest date of the frame) it shows every record, in the order of the
    frame. *)
Theorem page_filter_shows (df : App.DataFrame) :
  (forall cat di dfim r,
      In r (App.filtrar df cat di dfim)
      <-> In r df
          /\ (cat = "Todas"%string \/ App.categoria r = cat)
          /\ (di <= App.data r <= dfim)%Z)
  /\ (forall cat di dfim,
         App.filtros_padrao df = Some (cat, di, dfim) ->
         App.filtrar df cat di dfim = df).
Proof.
  split; [intros; apply filtrar_In|].
  intros cat di dfim H. destruct df as [|r rs]; [discriminate|].
  simpl in H. inversion H; subst. clear H.
  unfold App.filtrar.
  change (negb (String.eqb "Todas" "Todas")) with false. cbv iota.
  pose proof (data_min_le r rs) as Hmin.
  pose proof (data_max_ge r rs) as Hmax.
  set (a := App.data_min r rs) in *. set (b := App.data_max r rs) in *.
  clearbody a b.
  induction (r :: rs) as [|x l IH]; simpl; [reflexivity|].
  inversion Hmin; inversion Hmax; subst.
  rewrite (proj2 (Z.leb_le _ _)), (proj2 (Z.leb_le _ _)) by assumption.
  simpl. f_equal. apply IH; assumption.
Qed.

Lemma page_filter_shows_witness :
  App.filtros_padrao receitas_cenario
  = Some ("Todas"%string, 738895%Z, 738895%Z)
  /\ App.filtrar receitas_cenario "Todas" 738895 738895 = receitas_cenario.
Proof.
  assert (H : App.filtros_padrao receitas_cenario
              = Some ("Todas"%string, 738895%Z, 738895%Z)) by reflexivity.
  split; [exact H|].
  exact (proj2 (page_filter_shows receitas_cenario) _ _ _ H).
Defined.

(* ----------------------------------------------------------------- *)
(** ** Deleting through the filtered list *)

Lemma combine_seq_In (A : Type) (l : list A) (s i : nat) (x : A) :
  In (i, x) (combine (List.seq s (List.length l)) l)
  <-> (s <= i)%nat /\ nth_error l (i - s) = Some x.
Proof.
  revert s. induction l as [|y l IH]; intros s; simpl.
  - split; [intros [] | intros [_ H]]. destruct (i - s)%nat; discriminate.
  - rewrite IH. split.
    + intros [E | [Hs Hn]].
      * inversion E; subst. rewrite Nat.sub_diag. split; [lia | reflexivity].
      * split; [lia|]. replace (i - s)%nat with (S (i - S s)) by lia.
        exact Hn.
    + intros [Hs Hn]. destruct (i - s)%nat as [|k] eqn:E.
      * left. inversion Hn. f_equal. lia.
      * right. split; [lia|]. replace (i - S s)%nat with k by lia. exact Hn.
Qed.

Lemma indexado_In (df : App.DataFrame) (i : nat) (r : App.registro) :
  In (i, r) (App.indexado df) <-> nth_error df i = Some r.
Proof.
  unfold App.indexado. rewrite combine_seq_In, Nat.sub_0_r.
  split; [intros [_ H]; exact H | intros H; split; [lia | exact H]].
Qed.

Lemma filtrar_indexado_In (df : App.DataFrame) (cat : string)
  (di dfim : date) (i : nat) (r : App.registro) :
  In (i, r) (App.filtrar_indexado df cat di dfim)
  <-> nth_error df i = Some r /\ In r (App.filtrar df cat di dfim).
Proof.
  rewrite filtrar_In. unfold App.filtrar_indexado.
  rewrite filter_In, andb_true_iff, !Z.leb_le.
  destruct (String.eqb_spec cat "Todas") as [E|E]; cbn [negb snd].
  - rewrite indexado_In. split.
    + intros (Hn & Hd). repeat split; auto; try apply Hd.
      apply (nth_error_In _ _ Hn).
    + intros (Hn & _ & _ & Hd). split; [exact Hn | exact Hd].
  - rewrite filter_In, indexado_In, String.eqb_eq. cbn [snd]. split.
    + intros ((Hn & Hc) & Hd). repeat split; auto; try apply Hd.
      apply (nth_error_In _ _ Hn).
    + intros (Hn & _ & [Hc | Hc] & Hd); [contradiction|].
      split; [split; [exact Hn | exact Hc] | exact Hd].
Qed.

(** X20. Deleting through the filtered list is safe. Every option of the
    select box is the position of a record that the filtered list shows, and
    the delete of that option removes this record and no other: the records
    before it and after it stay, in their order, and no [KeyError] is met. *)
Theorem delete_option_removes_a_listed_record (df : App.DataFrame)
  (cat : string) (di dfim : date) (i : nat) :
  In i (App.indices_excluir df cat di dfim) ->
  exists l1 r l2,
    df = l1 ++ r :: l2
    /\ List.length l1 = i
    /\ In r (App.filtrar df cat di dfim)
    /\ App.drop df i = Some (l1 ++ l2).
Proof.
  unfold App.indices_excluir. rewrite in_map_iff.
  intros ([j r] & E & Hin). simpl in E. subst j.
  apply filtrar_indexado_In in Hin. destruct Hin as [Hn Hf].
  destruct (nth_error_split _ _ Hn) as (l1 & l2 & El & Hl).
  exists l1, r, l2. split; [exact El | split; [exact Hl | split; [exact Hf|]]].
  unfold App.drop. subst df.
  assert (Hlt : (i <? List.length (l1 ++ r :: l2))%nat = true).
  { apply Nat.ltb_lt. rewrite length_app. simpl. lia. }
  rewrite Hlt. f_equal. subst i. f_equal.
  - rewrite firstn_app, Nat.sub_diag, firstn_all. simpl.
    apply app_nil_r.
  - replace (S (List.length l1)) with (List.length (l1 ++ [r]))
      by (rewrite length_app; simpl; lia).
    change (l1 ++ r :: l2) with (l1 ++ [r] ++ l2). rewrite app_assoc.
    rewrite skipn_app, Nat.sub_diag, skipn_all. reflexivity.
Qed.

Lemma delete_option_removes_a_listed_record_witness :
  In 1%nat
    (App.indices_excluir (receitas_cenario ++ receitas_cenario ++ [
       {| App.data := 738917; App.descricao := "Site"; App.valor := 800;
          App.categoria := "Freelance" |} ]) "Salario" 738895 738946)
  /\ exists l1 r l2,
      receitas_cenario ++ receitas_cenario ++ [
        {| App.data := 738917; App.descricao := "Site"; App.valor := 800;
           App.categoria := "Freelance" |} ] = l1 ++ r :: l2
      /\ List.length l1 = 1%nat
      /\ In r (App.filtrar
                 (receitas_cenario ++ receitas_cenario ++ [
                    {| App.data := 738917; App.descricao := "Site";
                       App.valor := 800; App.categoria := "Freelance" |} ])
                 "Salario" 738895 738946)
      /\ App.drop
           (receitas_cenario ++ receitas_cenario ++ [
              {| App.data := 738917; App.descricao := "Site";
                 App.valor := 800; App.categoria := "Freelance" |} ]) 1
         = Some (l1 ++ l2).
Proof.
  assert (H : In 1%nat
                (App.indices_excluir
                   (receitas_cenario ++ receitas_cenario ++ [
                      {| App.data := 738917; App.descricao := "Site";
                         App.valor := 800; App.categoria := "Freelance" |} ])
                   "Salario" 738895 738946)).
  { simpl. right. left. reflexivity. }
  split; [exact H|].
  exact (@delete_option_removes_a_listed_record _ _ _ _ _ H).
Defined.

(* ----------------------------------------------------------------- *)
(** ** Days of use *)

Lemma data_min_In (r : App.registro) (rs : App.DataFrame) :
  exists x, In x (r :: rs) /\ App.data x = App.data_min r rs.
Proof.
  unfold App.data_min. revert r.
  induction rs as [|y rs IH]; intros r; simpl.
  - exists r. auto.
  - destruct (Z.min_spec (App.data r) (App.data y)) as [[_ E] | [_ E]].
    + rewrite E. destruct (IH r) as (x & [Hx | Hx] & Ex);
        exists x; (split; [|exact Ex]); auto.
    + rewrite E. destruct (IH y) as (x & [Hx | Hx] & Ex);
        exists x; (split; [|exact Ex]); auto.
Qed.

Lemma data_max_In (r : App.registro) (rs : App.DataFrame) :
  exists x, In x (r :: rs) /\ App.data x = App.data_max r rs.
Proof.
  unfold App.data_max. revert r.
  induction rs as [|y rs IH]; intros r; simpl.
  - exists r. auto.
  - destruct (Z.max_spec (App.data r) (App.data y)) as [[_ E] | [_ E]].
    + rewrite E. destruct (IH y) as (x & [Hx | Hx] & Ex);
        exists x; (split; [|exact Ex]); auto.
    + rewrite E. destruct (IH r) as (x & [Hx | Hx] & Ex);
        exists x; (split; [|exact Ex]); auto.
Qed.

(** X21. The days of use on the settings page are never negative. With incomes
    and expenses they are the days from the earliest to the latest date of
    both frames: two records lie that far apart and no two lie further. With
    only incomes or only expenses they are 0, however many days the records
    span; the goals never count. *)
Theorem days_of_use (receitas_df despesas_df metas_df : App.DataFrame) :
  let s := App.sistema receitas_df despesas_df metas_df in
  (0 <= App.dias_uso s)%Z
  /\ (receitas_df = [] \/ despesas_df = [] -> App.dias_uso s = 0%Z)
  /\ (receitas_df <> [] -> despesas_df <> [] ->
      (forall x y,
          In x (receitas_df ++ despesas_df) ->
          In y (receitas_df ++ despesas_df) ->
          (App.data y - App.data x <= App.dias_uso s)%Z)
      /\ exists x y,
          In x (receitas_df ++ despesas_df)
          /\ In y (receitas_df ++ despesas_df)
          /\ (App.data y - App.data x)%Z = App.dias_uso s).
Proof.
  intros s. subst s.
  destruct receitas_df as [|r rs]; destruct despesas_df as [|d ds];
    cbn [App.sistema App.dias_uso snd].
  - split; [lia|]. split; [reflexivity | congruence].
  - split; [lia|]. split; [reflexivity | congruence].
  - split; [lia|]. split; [reflexivity | congruence].
  - pose proof (data_min_le r rs) as Hr1.
    pose proof (data_max_ge r rs) as Hr2.
    pose proof (data_min_le d ds) as Hd1.
    pose proof (data_max_ge d ds) as Hd2.
    rewrite Forall_forall in Hr1, Hr2, Hd1, Hd2.
    destruct (data_min_In r rs) as (a1 & Ha1 & Ea1).
    destruct (data_max_In r rs) as (b1 & Hb1 & Eb1).
    destruct (data_min_In d ds) as (a2 & Ha2 & Ea2).
    destruct (data_max_In d ds) as (b2 & Hb2 & Eb2).
    specialize (Hr1 _ Hb1) as Hrr. specialize (Hd1 _ Hb2) as Hdd.
    rewrite Eb1 in Hrr. rewrite Eb2 in Hdd.
    split; [lia|]. split; [intros [E | E]; discriminate E|].
    intros _ _. split.
    + intros x y Hx Hy. apply in_app_iff in Hx, Hy.
      assert (Hx' : (Z.min (App.data_min r rs) (App.data_min d ds)
                     <= App.data x)%Z).
      { destruct Hx as [Hx | Hx];
          [specialize (Hr1 _ Hx) | specialize (Hd1 _ Hx)]; lia. }
      assert (Hy' : (App.data y
                     <= Z.max (App.data_max r rs) (App.data_max d ds))%Z).
      { destruct Hy as [Hy | Hy];
          [specialize (Hr2 _ Hy) | specialize (Hd2 _ Hy)]; lia. }
      lia.
    + assert (Hmin : exists x, In x ((r :: rs) ++ d :: ds)
                /\ App.data x
                   = Z.min (App.data_min r rs) (App.data_min d ds)).
      { destruct (Z.min_spec (App.data_min r rs) (App.data_min d ds))
          as [[_ E] | [_ E]]; rewrite E.
        - exists a1. split; [apply in_app_iff; left; exact Ha1 | exact Ea1].
        - exists a2. split; [apply in_app_iff; right; exact Ha2 | exact Ea2]. }
      assert (Hmax : exists y, In y ((r :: rs) ++ d :: ds)
                /\ App.data y
                   = Z.max (App.data_max r rs) (App.data_max d ds)).
      { destruct (Z.max_spec (App.data_max r rs) (App.data_max d ds))
          as [[_ E] | [_ E]]; rewrite E.
        - exists b2. split; [apply in_app_iff; right; exact Hb2 | exact Eb2].
        - exists b1. split; [apply in_app_iff; left; exact Hb1 | exact Eb1]. }
      destruct Hmin as (x & Hx & Ex). destruct Hmax as (y & Hy & Ey).
      exists x, y. split; [exact Hx | split; [exact Hy|]].
      rewrite Ex, Ey. reflexivity.
Qed.

Lemma days_of_use_witness :
  (receitas_cenario = [] \/ [] = ([] : App.DataFrame))
  /\ App.dias_uso (App.sistema receitas_cenario [] []) = 0%Z
  /\ receitas_cenario <> []
  /\ despesas_cenario <> []
  /\ exists x y,
      In x (receitas_cenario ++ despesas_cenario)
      /\ In y (receitas_cenario ++ despesas_cenario)
      /\ (App.data y - App.data x)%Z
         = App.dias_uso (App.sistema receitas_cenario despesas_cenario []).
Proof.
  assert (H0 : receitas_cenario = [] \/ [] = ([] : App.DataFrame))
    by (right; reflexivity).
  assert (H1 : receitas_cenario <> []) by discriminate.
  assert (H2 : despesas_cenario <> []) by discriminate.
  split; [exact H0|].
  split; [exact (proj1 (proj2 (days_of_use receitas_cenario [] [])) H0)|].
  split; [exact H1 | split; [exact H2|]].
  exact (proj2 (proj2 (proj2
           (days_of_use receitas_cenario despesas_cenario [])) H1 H2)).
Defined.

(* ----------------------------------------------------------------- *)
(** ** Six months ago *)

Lemma valid_campos (d : App.datetime) :
  App.valid d = true
  <-> (1 <= App.year d <= 9999)%Z
      /\ (1 <= App.month d <= 12)%Z
      /\ (1 <= App.day d
          <= App.days_in_month (App.year d) (App.month d))%Z.
Proof.
  unfold App.valid. rewrite !andb_true_iff, !Z.leb_le. tauto.
Qed.

Lemma replace_None (y m : Z) (d : App.datetime) :
  (1 <= y <= 9999)%Z -> (1 <= m <= 12)%Z -> (1 <= App.day d)%Z ->
  (App.replace y m d = None <-> (App.days_in_month y m < App.day d)%Z).
Proof.
  intros Hy Hm Hd. unfold App.replace.
  destruct (App.valid _) eqn:E.
  - apply valid_campos in E. cbn [App.year App.month App.day] in E.
    split; [discriminate | lia].
  - split; [intros _ | reflexivity].
    destruct (Z.lt_ge_cases (App.days_in_month y m) (App.day d)) as [H|H];
      [exact H|].
    exfalso. apply not_true_iff_false in E. apply E, valid_campos.
    cbn [App.year App.month App.day]. lia.
Qed.

(** X22. The start of the six-month chart cannot be computed on every day: the
    dashboard raises [ValueError] exactly when today's day of the month does
    not exist six months earlier, that is on the 31st of March, May, August,
    October and December, on the 30th of August, and on the 29th of August
    unless the year is a leap year. On every other day the result is the same
    day six months earlier. *)
Theorem six_months_ago_raises_on (hoje : App.datetime) :
  App.valid hoje = true ->
  (1 < App.year hoje)%Z ->
  (App.seis_meses_atras hoje = None
   <-> (App.day hoje = 31%Z
        /\ (App.month hoje = 3 \/ App.month hoje = 5 \/ App.month hoje = 8
            \/ App.month hoje = 10 \/ App.month hoje = 12)%Z)
       \/ (App.month hoje = 8%Z /\ App.day hoje = 30%Z)
       \/ (App.month hoje = 8%Z /\ App.day hoje = 29%Z
           /\ App.is_leap (App.year hoje) = false))
  /\ (App.seis_meses_atras hoje <> None ->
      App.seis_meses_atras hoje
      = Some (if (6 <? App.month hoje)%Z
              then {| App.year := App.year hoje;
                      App.month := App.month hoje - 6;
                      App.day := App.day hoje |}
              else {| App.year := App.year hoje - 1;
                      App.month := App.month hoje + 6;
                      App.day := App.day hoje |})).
Proof.
  intros Hv Hy. apply valid_campos in Hv. destruct Hv as (Hy' & Hm & Hd).
  split.
  - unfold App.seis_meses_atras.
    destruct (Z.ltb_spec 6 (App.month hoje)) as [H6|H6];
      rewrite replace_None by lia.
    + assert (Hc : (App.month hoje = 7 \/ App.month hoje = 8
                    \/ App.month hoje = 9 \/ App.month hoje = 10
                    \/ App.month hoje = 11 \/ App.month hoje = 12)%Z) by lia.
      destruct Hc as [E|[E|[E|[E|[E|E]]]]]; rewrite E in *;
        cbn [Z.sub Z.add Z.opp Z.pos_sub Pos.pred_double] in *;
        unfold App.days_in_month in *; cbn in Hd |- *;
        try (destruct (App.is_leap (App.year hoje)) eqn:El);
        split; intros H; try lia;
        repeat match goal with
               | H : _ \/ _ |- _ => destruct H
               | H : _ /\ _ |- _ => destruct H
               end; try lia; try discriminate.
    + assert (Hc : (App.month hoje = 1 \/ App.month hoje = 2
                    \/ App.month hoje = 3 \/ App.month hoje = 4
                    \/ App.month hoje = 5 \/ App.month hoje = 6)%Z) by lia.
      destruct Hc as [E|[E|[E|[E|[E|E]]]]]; rewrite E in *;
        unfold App.days_in_month in *; cbn in Hd |- *;
        try (destruct (App.is_leap (App.year hoje)) eqn:El);
        split; intros H; try lia;
        repeat match goal with
               | H : _ \/ _ |- _ => destruct H
               | H : _ /\ _ |- _ => destruct H
               end; try lia; try discriminate.
  - unfold App.seis_meses_atras, App.replace.
    destruct (6 <? App.month hoje)%Z;
      destruct (App.valid _); congruence.
Qed.

Lemma six_months_ago_raises_on_witness :
  App.valid {| App.year := 2025; App.month := 8; App.day := 29 |} = true
  /\ (1 < 2025)%Z
  /\ App.seis_meses_atras
       {| App.year := 2025; App.month := 8; App.day := 29 |} = None.
Proof.
  assert (Hv : App.valid {| App.year := 2025; App.month := 8;
                            App.day := 29 |} = true) by reflexivity.
  assert (Hy : (1 < 2025)%Z) by reflexivity.
  split; [exact Hv | split; [exact Hy|]].
  apply (proj1 (@six_months_ago_raises_on
                  {| App.year := 2025; App.month := 8; App.day := 29 |}
                  Hv Hy)).
  right. right. split; [reflexivity | split; reflexivity].
Defined.

(** The 29th of August of a leap year has its day in February; the 31st of
    January goes back to July of the year before; the 31st of December has
    no 31st of June. *)
Example seis_meses_atras_exemplos :
  App.seis_meses_atras {| App.year := 2024; App.month := 8; App.day := 29 |}
  = Some {| App.year := 2024; App.month := 2; App.day := 29 |}
  /\ App.seis_meses_atras
       {| App.year := 2025; App.month := 1; App.day := 31 |}
     = Some {| App.year := 2024; App.month := 7; App.day := 31 |}
  /\ App.seis_meses_atras
       {| App.year := 2025; App.month := 12; App.day := 31 |} = None.
Proof. repeat split. Qed.

(* ----------------------------------------------------------------- *)
(** ** Import from the spreadsheet *)

Lemma linha_eqb_eq (a b : Sheets.linha) :
  Sheets.linha_eqb a b = true <-> a = b.
Proof.
  revert b. induction a as [|x a IH]; intros [|y b]; simpl;
    try (split; [discriminate | congruence]); [tauto|].
  rewrite andb_true_iff, String.eqb_eq, IH.
  split; [intros [-> ->]; reflexivity | intros E; inversion E; auto].
Qed.

Lemma importar_chave_efeito
  (sheet : Sheets.planilha)
  (arq : Sheets.chave -> option (list Sheets.linha)) (k : Sheets.chave) :
  let r := Sheets.importar_chave (sheet, arq) k in
  (forall k', k' <> k -> fst r k' = sheet k' /\ snd r k' = arq k')
  /\ match sheet k with
     | None =>
         fst r k = Some [Sheets.COLUMNS k]
         /\ snd r k = Some [Sheets.COLUMNS k]
     | Some ws =>
         fst r k = Some ws
         /\ (com_cabecalho k ws -> snd r k = Some ws)
         /\ (~ com_cabecalho k ws -> snd r k = arq k)
     end.
Proof.
  assert (Hd : forall A (f : Sheets.chave -> A) v k',
             k' <> k -> Sheets.definir f k v k' = f k').
  { intros A f v k' Hne. unfold Sheets.definir.
    destruct k, k'; try reflexivity; congruence. }
  assert (He : forall A (f : Sheets.chave -> A) v,
             Sheets.definir f k v k = v).
  { intros A f v. unfold Sheets.definir. destruct k; reflexivity. }
  unfold Sheets.importar_chave, Sheets.get_or_create_worksheet.
  cbn [fst snd]. destruct (sheet k) as [ws|] eqn:Ek.
  - destruct ws as [|c ls]; cbn [fst snd].
    + split; [intros; split; reflexivity|].
      split; [exact Ek|]. split; [intros (l & E); discriminate E | reflexivity].
    + destruct (Sheets.linha_eqb c (Sheets.COLUMNS k)) eqn:Ec;
        cbn [negb fst snd].
      * apply linha_eqb_eq in Ec. subst c.
        split; [intros k' Hne; split; [reflexivity | apply Hd, Hne]|].
        split; [exact Ek|]. split; [intros _; apply He|].
        intros H. exfalso. apply H. exists ls. reflexivity.
      * split; [intros; split; reflexivity|].
        split; [exact Ek|]. split; [|reflexivity].
        intros (l & E). inversion E; subst.
        rewrite (proj2 (linha_eqb_eq _ _) eq_refl) in Ec. discriminate.
  - rewrite (proj2 (linha_eqb_eq _ _) eq_refl). cbn [negb fst snd].
    split; [intros k' Hne; split; apply Hd, Hne|].
    split; apply He.
Qed.

(** X24. What [import_from_sheets] does, worksheet by worksheet. A worksheet
    that is missing is created with the header as its only row, and the local
    file is overwritten with the header alone. A worksheet whose first row is
    the header is written over the local file, rows and all. A worksheet with
    no value or another first row is skipped: the local file stays as it was.
    Worksheets that exist are never changed. *)
Theorem import_from_sheets_effect (s : Sheets.estado) (k : Sheets.chave) :
  exists p',
    Sheets.nuvem (Sheets.import_from_sheets s) = Some p'
    /\ match Sheets.get_or_create_sheet (Sheets.nuvem s) k with
       | None =>
           p' k = Some [Sheets.COLUMNS k]
           /\ Sheets.arquivos (Sheets.import_from_sheets s) k
              = Some [Sheets.COLUMNS k]
       | Some ws =>
           p' k = Some ws
           /\ (com_cabecalho k ws ->
               Sheets.arquivos (Sheets.import_from_sheets s) k = Some ws)
           /\ (~ com_cabecalho k ws ->
               Sheets.arquivos (Sheets.import_from_sheets s) k
               = Sheets.arquivos s k)
       end.
Proof.
  eexists. split; [reflexivity|].
  unfold Sheets.import_from_sheets. cbn [Sheets.nuvem Sheets.arquivos].
  set (p0 := Sheets.get_or_create_sheet (Sheets.nuvem s)).
  set (a0 := Sheets.arquivos s).
  unfold Sheets.chaves. cbn [fold_left].
  set (r1 := Sheets.importar_chave (p0, a0) Sheets.receitas).
  set (r2 := Sheets.importar_chave r1 Sheets.despesas).
  set (r3 := Sheets.importar_chave r2 Sheets.metas).
  pose proof (importar_chave_efeito p0 a0 Sheets.receitas) as [N1 E1].
  pose proof (importar_chave_efeito (fst r1) (snd r1) Sheets.despesas)
    as [N2 E2].
  pose proof (importar_chave_efeito (fst r2) (snd r2) Sheets.metas)
    as [N3 E3].
  change (Sheets.importar_chave (fst r1, snd r1) Sheets.despesas) with r2
    in N2, E2.
  change (Sheets.importar_chave (fst r2, snd r2) Sheets.metas) with r3
    in N3, E3.
  fold r1 in N1, E1.
  destruct k.
  - destruct (N2 Sheets.receitas) as [A2 B2]; [discriminate|].
    destruct (N3 Sheets.receitas) as [A3 B3]; [discriminate|].
    rewrite A3, B3, A2, B2. exact E1.
  - destruct (N1 Sheets.despesas) as [A1 B1]; [discriminate|].
    destruct (N3 Sheets.despesas) as [A3 B3]; [discriminate|].
    rewrite A3, B3. rewrite A1, B1 in E2. exact E2.
  - destruct (N1 Sheets.metas) as [A1 B1]; [discriminate|].
    destruct (N2 Sheets.metas) as [A2 B2]; [discriminate|].
    rewrite A2, B2, A1, B1 in E3. exact E3.
Qed.

Lemma com_cabecalho_so (k : Sheets.chave) :
  com_cabecalho k [Sheets.COLUMNS k].
Proof. exists []. reflexivity. Qed.

Lemma classic_cabecalho (k : Sheets.chave) (ws : list Sheets.linha) :
  com_cabecalho k ws \/ ~ com_cabecalho k ws.
Proof.
  destruct ws as [|c ls]; [right; intros (l & E); discriminate E|].
  destruct (Sheets.linha_eqb c (Sheets.COLUMNS k)) eqn:Ec.
  - apply linha_eqb_eq in Ec. subst c. left. exists ls. reflexivity.
  - right. intros (l & E). inversion E; subst.
    rewrite (proj2 (linha_eqb_eq _ _) eq_refl) in Ec. discriminate.
Qed.

(** X25. An import when the spreadsheet or its worksheets do not exist yet
    loses the local records: every local file is left with the header alone,
    whatever it held. An import run twice gives what one import gives. *)
Theorem import_can_empty_the_local_files (s : Sheets.estado)
  (k : Sheets.chave) :
  (Sheets.get_or_create_sheet (Sheets.nuvem s) k = None ->
   Sheets.arquivos (Sheets.import_from_sheets s) k
   = Some [Sheets.COLUMNS k])
  /\ Sheets.arquivos (Sheets.import_from_sheets (Sheets.import_from_sheets s))
       k
     = Sheets.arquivos (Sheets.import_from_sheets s) k
  /\ Sheets.get_or_create_sheet
       (Sheets.nuvem (Sheets.import_from_sheets (Sheets.import_from_sheets s)))
       k
     = Sheets.get_or_create_sheet
         (Sheets.nuvem (Sheets.import_from_sheets s)) k.
Proof.
  destruct (import_from_sheets_effect s k) as (p1 & Ep1 & H1).
  destruct (import_from_sheets_effect (Sheets.import_from_sheets s) k)
    as (p2 & Ep2 & H2).
  rewrite Ep1 in H2. rewrite Ep1, Ep2. cbn [Sheets.get_or_create_sheet] in *.
  split; [intros E; rewrite E in H1; apply H1|].
  destruct (Sheets.get_or_create_sheet (Sheets.nuvem s) k) as [ws|].
  - destruct H1 as (F1 & Hc & Hn). rewrite F1 in H2 |- *.
    destruct H2 as (F2 & Hc2 & Hn2). split; [|exact F2].
    destruct (classic_cabecalho k ws) as [C | C].
    + rewrite (Hc2 C), (Hc C). reflexivity.
    + apply (Hn2 C).
  - destruct H1 as (F1 & G1). rewrite F1 in H2 |- *.
    destruct H2 as (F2 & Hc2 & _). split; [|exact F2].
    rewrite (Hc2 (com_cabecalho_so k)), G1. reflexivity.
Qed.

(* ----------------------------------------------------------------- *)
(** ** The properties at work on the examples *)

Ltac exemplo_ok :=
  unfold banco_ok, tabela_ok; simpl;
  repeat split; repeat constructor; simpl; lia.

Lemma listing_shows_matching_rows_witness :
  banco_ok (db (mundo_exemplo []))
  /\ proxima_ok (mundo_exemplo [])
  /\ exists rs,
      obter_receitas (Some 738895%Z) (Some 738900%Z) (Some ""%string)
        (mundo_exemplo [])
      = (Return rs, apos (db (mundo_exemplo [])) (mundo_exemplo []))
      /\ (forall r,
             In r rs
             <-> In r (linhas (Database.receitas (db (mundo_exemplo []))))
                 /\ passa_transacao (Some 738895%Z) (Some 738900%Z)
                      (Some ""%string) r)
      /\ NoDup (map id rs).
Proof.
  assert (Hb : banco_ok (db (mundo_exemplo []))) by exemplo_ok.
  assert (Hw : proxima_ok (mundo_exemplo [])) by reflexivity.
  split; [exact Hb | split; [exact Hw|]].
  exact (proj1 (@listing_shows_matching_rows (mundo_exemplo [])
                  (Some 738895%Z) (Some 738900%Z) (Some ""%string) Hb Hw)).
Defined.

(** With the empty text as category the listing of the example shows the
    two incomes of 2024-01-10, whatever their category. *)
Example obter_receitas_categoria_vazia :
  option_map (map id)
    (match obter_receitas (Some 738895%Z) (Some 738900%Z) (Some ""%string)
             (mundo_exemplo []) with
     | (Return rs, _) => Some rs
     | _ => None
     end)
  = Some [1%Z; 4%Z].
Proof. reflexivity. Qed.

Lemma goal_listing_shows_matching_rows_witness :
  banco_ok (db (mundo_exemplo []))
  /\ proxima_ok (mundo_exemplo [])
  /\ exists ms,
      obter_metas (Some "ativa"%string) None (mundo_exemplo [])
      = (Return ms, apos (db (mundo_exemplo [])) (mundo_exemplo []))
      /\ (forall r,
             In r ms
             <-> In r (linhas (Database.metas (db (mundo_exemplo []))))
                 /\ passa_meta (Some "ativa"%string) None r)
      /\ NoDup (map m_id ms).
Proof.
  assert (Hb : banco_ok (db (mundo_exemplo []))) by exemplo_ok.
  assert (Hw : proxima_ok (mundo_exemplo [])) by reflexivity.
  split; [exact Hb | split; [exact Hw|]].
  exact (@goal_listing_shows_matching_rows (mundo_exemplo [])
           (Some "ativa"%string) None Hb Hw).
Defined.

Lemma add_then_list_witness :
  sem_falhas (mundo_exemplo [])
  /\ exists i w' antes depois,
      adicionar_receita 738946 "Aulas" 250 "Freelance" (mundo_exemplo [])
      = (Return i, w')
      /\ obter_receitas None None (Some "Freelance"%string)
           (mundo_exemplo []) = (Return antes, mundo_exemplo [])
      /\ obter_receitas None None (Some "Freelance"%string) w'
         = (Return depois, w')
      /\ forall r,
          In r depois
          <-> In r antes
              \/ (r = nova_transacao 738946 "Aulas" 250 "Freelance"
                        (relogio (mundo_exemplo [])) i
                  /\ passa_transacao None None (Some "Freelance"%string) r).
Proof.
  assert (H : sem_falhas (mundo_exemplo [])) by reflexivity.
  split; [exact H|].
  exact (proj1 (@add_then_list (mundo_exemplo []) 738946%Z "Aulas"%string
                  250 "Freelance"%string None None
                  (Some "Freelance"%string) H)).
Defined.

Lemma add_goal_then_list_witness :
  sem_falhas (mundo_exemplo [])
  /\ exists i w' antes depois,
      adicionar_meta 739251 "Carro" 9000 "Compras" (mundo_exemplo [])
      = (Return i, w')
      /\ obter_metas (Some "ativa"%string) None (mundo_exemplo [])
         = (Return antes, mundo_exemplo [])
      /\ obter_metas (Some "ativa"%string) None w' = (Return depois, w')
      /\ forall r,
          In r depois
          <-> In r antes
              \/ (r = nova_meta 739251 "Carro" 9000 "Compras"
                        (relogio (mundo_exemplo [])) i
                  /\ passa_meta (Some "ativa"%string) None r).
Proof.
  assert (H : sem_falhas (mundo_exemplo [])) by reflexivity.
  split; [exact H|].
  exact (@add_goal_then_list (mundo_exemplo []) 739251%Z "Carro"%string
           9000 "Compras"%string (Some "ativa"%string) None H).
Defined.

Lemma update_replaces_the_row_witness :
  DatabaseManager.cabe_int64 3 = true
  /\ sem_falhas (mundo_exemplo [])
  /\ exists w',
      DatabaseManager.atualizar_receita 3 738917 "Site novo" 900 "Freelance"
        (mundo_exemplo []) = (Return true, w')
      /\ map id (linhas (Database.receitas (db w'))) = [1%Z; 3%Z; 4%Z].
Proof.
  assert (Hc : DatabaseManager.cabe_int64 3 = true) by reflexivity.
  assert (H : sem_falhas (mundo_exemplo [])) by reflexivity.
  split; [exact Hc | split; [exact H|]].
  destruct (proj1 (@update_replaces_the_row (mundo_exemplo []) 3%Z 738917%Z
                     "Site novo"%string 900 "Freelance"%string Hc H))
    as (w' & E & Hid & _).
  exists w'. split; [exact E | exact Hid].
Defined.

Lemma goal_update_keeps_status_unless_given_witness :
  DatabaseManager.cabe_int64 2 = true
  /\ sem_falhas (mundo_exemplo [])
  /\ exists w',
      DatabaseManager.atualizar_meta 2 739251 "Viagem" 4500 "Viagem"
        (Some ""%string) (mundo_exemplo []) = (Return true, w')
      /\ map m_id (linhas (Database.metas (db w'))) = [2%Z; 3%Z].
Proof.
  assert (Hc : DatabaseManager.cabe_int64 2 = true) by reflexivity.
  assert (H : sem_falhas (mundo_exemplo [])) by reflexivity.
  split; [exact Hc | split; [exact H|]].
  destruct (@goal_update_keeps_status_unless_given (mundo_exemplo []) 2%Z
              739251%Z "Viagem"%string 4500 "Viagem"%string
              (Some ""%string) Hc H)
    as (w' & E & Hid & _).
  exists w'. split; [exact E | exact Hid].
Defined.

(** The goal completed by hand keeps its status through an update that
    gives the empty text as status, and takes the new target amount. *)
Example atualizar_meta_exemplo :
  option_map
    (fun w' => map (fun g => (m_id g, valor_meta g, status g))
                 (linhas (Database.metas (db w'))))
    (match DatabaseManager.atualizar_meta 2 739251 "Viagem" 4500 "Viagem"
             (Some ""%string) (mundo_exemplo []) with
     | (Return true, w') => Some w'
     | _ => None
     end)
  = Some [(2%Z, 4500, "concluida"%string); (3%Z, 1000, "ativa"%string)].
Proof. reflexivity. Qed.

Lemma delete_removes_exactly_the_row_witness :
  banco_ok (db (mundo_exemplo []))
  /\ sem_falhas (mundo_exemplo [])
  /\ In 3%Z (map id (linhas (Database.receitas (db (mundo_exemplo [])))))
  /\ exists w' l1 r l2,
      excluir_receita 3 (mundo_exemplo []) = (Return true, w')
      /\ linhas (Database.receitas (db (mundo_exemplo []))) = l1 ++ r :: l2
      /\ id r = 3%Z
      /\ linhas (Database.receitas (db w')) = l1 ++ l2
      /\ Database.despesas (db w') = Database.despesas (db (mundo_exemplo []))
      /\ Database.metas (db w') = Database.metas (db (mundo_exemplo [])).
Proof.
  assert (Hb : banco_ok (db (mundo_exemplo []))) by exemplo_ok.
  assert (H : sem_falhas (mundo_exemplo [])) by reflexivity.
  assert (Hi : In 3%Z
                 (map id (linhas (Database.receitas (db (mundo_exemplo []))))))
    by (simpl; right; left; reflexivity).
  split; [exact Hb | split; [exact H | split; [exact Hi|]]].
  exact (proj1 (@delete_removes_exactly_the_row (mundo_exemplo []) 3%Z Hb H)
           Hi).
Defined.

Lemma ids_are_never_reused_witness :
  banco_ok (db (mundo_exemplo []))
  /\ sem_falhas (mundo_exemplo [])
  /\ exists j w',
      (excluir_receita 4 ;;; adicionar_receita 738946 "Aulas" 250 "Freelance")
        (mundo_exemplo []) = (Return j, w')
      /\ Forall (fun r => (id r < j)%Z)
           (linhas (Database.receitas (db (mundo_exemplo [])))).
Proof.
  assert (Hb : banco_ok (db (mundo_exemplo []))) by exemplo_ok.
  assert (H : sem_falhas (mundo_exemplo [])) by reflexivity.
  split; [exact Hb | split; [exact H|]].
  exact (proj1 (@ids_are_never_reused (mundo_exemplo []) 4%Z 738946%Z
                  "Aulas"%string 250 "Freelance"%string Hb H)).
Defined.

(** Income 4 is the newest; once it is deleted the next income is 5. *)
Example excluir_e_adicionar_exemplo :
  fst ((excluir_receita 4 ;;; adicionar_receita 738946 "Aulas" 250 "Freelance")
         (mundo_exemplo []))
  = Return 5%Z.
Proof. reflexivity. Qed.

Lemma clear_leaves_nothing_witness :
  sem_falhas (mundo_exemplo [])
  /\ exists w',
      limpar_dados (mundo_exemplo []) = (Return true, w')
      /\ limpar_dados w' = (Return true, w')
      /\ forall di df cat,
          obter_receitas di df cat w' = (Return [], w')
          /\ obter_despesas di df cat w' = (Return [], w').
Proof.
  assert (H : sem_falhas (mundo_exemplo [])) by reflexivity.
  split; [exact H|].
  destruct (@clear_leaves_nothing (mundo_exemplo []) H)
    as (w' & E1 & E2 & E3 & _).
  exists w'. split; [exact E1 | split; [exact E2 | exact E3]].
Defined.

Lemma statistics_agree_with_listings_witness :
  sem_falhas (mundo_exemplo [])
  /\ exists st rs ds,
      obter_estatisticas_gerais (Some 738895%Z) (Some 738916%Z)
        (mundo_exemplo []) = (Return st, mundo_exemplo [])
      /\ obter_receitas (Some 738895%Z) (Some 738916%Z) None
           (mundo_exemplo []) = (Return rs, mundo_exemplo [])
      /\ obter_despesas (Some 738895%Z) (Some 738916%Z) None
           (mundo_exemplo []) = (Return ds, mundo_exemplo [])
      /\ count_receitas st = Z.of_nat (List.length rs)
      /\ count_despesas st = Z.of_nat (List.length ds)
      /\ Database.total_receitas st == total_spec (map Database.valor rs)
      /\ Database.total_despesas st == total_spec (map Database.valor ds)
      /\ Database.saldo st
         == total_spec (map Database.valor rs)
            - total_spec (map Database.valor ds).
Proof.
  assert (H : sem_falhas (mundo_exemplo [])) by reflexivity.
  split; [exact H|].
  exact (@statistics_agree_with_listings (mundo_exemplo [])
           (Some 738895%Z) (Some 738916%Z) H).
Defined.

Lemma groups_agree_with_listings_witness :
  sem_falhas (mundo_exemplo [])
  /\ exists gs,
      obter_despesas_por_categoria None None (mundo_exemplo [])
      = (Return gs, mundo_exemplo [])
      /\ forall g, In g gs -> g_categoria g <> EmptyString ->
           exists rs,
             obter_despesas None None (Some (g_categoria g))
               (mundo_exemplo []) = (Return rs, mundo_exemplo [])
             /\ quantidade g = Z.of_nat (List.length rs)
             /\ total g == total_spec (map Database.valor rs)
             /\ rs <> [].
Proof.
  assert (H : sem_falhas (mundo_exemplo [])) by reflexivity.
  split; [exact H|].
  exact (proj1 (@groups_agree_with_listings (mundo_exemplo []) None None H)).
Defined.

Lemma goal_complete_iff_saved_reaches_target_witness :
  100 <= App.progresso
           (App.calcular_progresso receitas_cenario despesas_cenario
              (meta_cenario 1000))
  /\ App.progresso
       (App.calcular_progresso receitas_cenario despesas_cenario
          (meta_cenario 1000)) == 100
  /\ 0 < App.valor (meta_cenario 1000)
  /\ App.valor (meta_cenario 1000)
     <= App.economias
          (App.calcular_progresso receitas_cenario despesas_cenario
             (meta_cenario 1000)).
Proof.
  assert (H : 100 <= App.progresso
                       (App.calcular_progresso receitas_cenario
                          despesas_cenario (meta_cenario 1000)))
    by discriminate.
  split; [exact H|].
  split.
  - exact (proj2 (proj1 (goal_complete_iff_saved_reaches_target
                           receitas_cenario despesas_cenario)
                    (meta_cenario 1000)) H).
  - exact (proj1 (proj1 (proj1 (goal_complete_iff_saved_reaches_target
                                  receitas_cenario despesas_cenario)
                           (meta_cenario 1000))) H).
Defined.

(** A restore of the backup of the example runs ten statements; a fault on
    the tenth, the last goal, makes it return [False], and none makes it
    return [True]. *)
Example importar_dados_dez_statements :
  fst (importar_dados dados_exemplo
         (mundo_exemplo
            [false; false; false; false; false; false; false; false;
             false; true]))
  = Return false
  /\ fst (importar_dados dados_exemplo
            (mundo_exemplo
               [false; false; false; false; false; false; false; false;
                false; false; true]))
     = Return true.
Proof. repeat split. Qed.

(** A delete by an id just outside 64 bits returns [False] with no storage
    fault, and by the largest id that fits it returns [True]; the restore of
    a backup with a missing amount returns [False] with no storage fault. *)
Example chamadas_recusadas :
  fst (DatabaseManager.excluir_receita (2 ^ 63) (mundo_exemplo []))
  = Return false
  /\ fst (DatabaseManager.excluir_receita (- 2 ^ 63 - 1) (mundo_exemplo []))
     = Return false
  /\ fst (DatabaseManager.excluir_receita (2 ^ 63 - 1) (mundo_exemplo []))
     = Return true
  /\ fst (DatabaseManager.excluir_receita (- 2 ^ 63) (mundo_exemplo []))
     = Return true
  /\ completo frames_exemplo = false
  /\ fst (DatabaseManager.importar_dados frames_exemplo (mundo_exemplo []))
     = Return false.
Proof. repeat split. Qed.

Lemma import_can_empty_the_local_files_witness :
  Sheets.get_or_create_sheet None Sheets.receitas = None
  /\ Sheets.arquivos
       (Sheets.import_from_sheets
          {| Sheets.nuvem := None;
             Sheets.arquivos :=
               fun _ =>
                 Some [ ["data"; "descricao"; "valor"; "categoria"];
                        ["2024-01-10"; "Salario"; "5000.0"; "Salario"] ]
                 %string |})
       Sheets.receitas
     = Some [Sheets.COLUMNS Sheets.receitas].
Proof.
  assert (H : Sheets.get_or_create_sheet None Sheets.receitas = None)
    by reflexivity.
  split; [exact H|].
  exact (proj1 (import_can_empty_the_local_files
                  {| Sheets.nuvem := None;
                     Sheets.arquivos :=
                       fun _ =>
                         Some [ ["data"; "descricao"; "valor"; "categoria"];
                                ["2024-01-10"; "Salario"; "5000.0";
                                 "Salario"] ]%string |}
                  Sheets.receitas) H).
Defined.

Lemma import_from_sheets_effect_witness :
  exists p',
    Sheets.nuvem
      (Sheets.import_from_sheets
         {| Sheets.nuvem :=
              Some (fun k =>
                      match k with
                      | Sheets.receitas =>
                          Some [ ["data"; "descricao"; "valor"; "categoria"];
                                 ["2024-02-01"; "Site"; "800"; "Freelance"] ]
                          %string
                      | Sheets.despesas => Some [ ["Data"; "Valor"] ]%string
                      | Sheets.metas => None
                      end);
            Sheets.arquivos := fun _ => None |})
    = Some p'
    /\ p' Sheets.receitas
       = Some [ ["data"; "descricao"; "valor"; "categoria"];
                ["2024-02-01"; "Site"; "800"; "Freelance"] ]%string.
Proof.
  destruct (import_from_sheets_effect
              {| Sheets.nuvem :=
                   Some (fun k =>
                           match k with
                           | Sheets.receitas =>
                               Some [ ["data"; "descricao"; "valor";
                                       "categoria"];
                                      ["2024-02-01"; "Site"; "800";
                                       "Freelance"] ]%string
                           | Sheets.despesas =>
                               Some [ ["Data"; "Valor"] ]%string
                           | Sheets.metas => None
                           end);
                 Sheets.arquivos := fun _ => None |} Sheets.receitas)
    as (p' & E & H).
  exists p'. split; [exact E | exact (proj1 H)].
Defined.

(** A spreadsheet with the incomes under the header, the expenses under
    another header and no worksheet of goals: the incomes are written to the
    local file, the expenses are skipped, the goals file gets the header
    alone. *)
Example import_from_sheets_exemplo :
  let s' :=
    Sheets.import_from_sheets
      {| Sheets.nuvem :=
           Some (fun k =>
                   match k with
                   | Sheets.receitas =>
                       Some [ ["data"; "descricao"; "valor"; "categoria"];
                              ["2024-02-01"; "Site"; "800"; "Freelance"] ]
                       %string
                   | Sheets.despesas => Some [ ["Data"; "Valor"] ]%string
                   | Sheets.metas => None
                   end);
         Sheets.arquivos := fun _ => None |} in
  Sheets.arquivos s' Sheets.receitas
  = Some [ ["data"; "descricao"; "valor"; "categoria"];
           ["2024-02-01"; "Site"; "800"; "Freelance"] ]%string
  /\ Sheets.arquivos s' Sheets.despesas = None
  /\ Sheets.arquivos s' Sheets.metas
     = Some [ ["data"; "descricao"; "valor"; "categoria"] ]%string.
Proof. repeat split. Qed.

(* ----------------------------------------------------------------- *)
(** ** A clearing cut short, and what an export holds *)

(** X10. [limpar_dados] is three statements, each committed on its own: a
    storage fault on the second leaves the incomes deleted and the expenses
    and goals in place, a fault on the third leaves only the goals; in both
    cases it returns [False]. *)
Theorem clear_cut_short_by_a_fault (w : mundo) (fs : list bool) :
  (falhas w = false :: true :: fs ->
   limpar_dados w
   = (Return false,
      {| db := {| Database.receitas := tab_clear (Database.receitas (db w));
                  Database.despesas := Database.despesas (db w);
                  Database.metas := Database.metas (db w) |};
         relogio := relogio w; falhas := fs |}))
  /\ (falhas w = false :: false :: true :: fs ->
      limpar_dados w
      = (Return false,
         {| db := {| Database.receitas :=
                       tab_clear (Database.receitas (db w));
                     Database.despesas :=
                       tab_clear (Database.despesas (db w));
                     Database.metas := Database.metas (db w) |};
            relogio := relogio w; falhas := fs |})).
Proof.
  destruct w as [b t f]. simpl. split; intros ->; reflexivity.
Qed.

Lemma clear_cut_short_by_a_fault_witness :
  falhas (mundo_exemplo [false; true]) = [false; true]
  /\ limpar_dados (mundo_exemplo [false; true])
     = (Return false,
        {| db := {| Database.receitas :=
                      tab_clear (Database.receitas banco_exemplo);
                    Database.despesas := Database.despesas banco_exemplo;
                    Database.metas := Database.metas banco_exemplo |};
           relogio := 20; falhas := [] |}).
Proof.
  assert (H : falhas (mundo_exemplo [false; true]) = [false; true])
    by reflexivity.
  split; [exact H|].
  exact (proj1 (clear_cut_short_by_a_fault (mundo_exemplo [false; true]) [])
           H).
Defined.

(** X15. An export holds every row of the three tables, each once and whole,
    ids, status and times included: the incomes and expenses by date
    descending, the goals by target date ascending. *)
Theorem export_holds_every_row (w : mundo) :
  banco_ok (db w) ->
  sem_falhas w ->
  exists rs ds ms,
    exportar_dados w
    = (Return {| d_receitas := Some rs; d_despesas := Some ds;
                 d_metas := Some ms |}, w)
    /\ Permutation rs (linhas (Database.receitas (db w)))
    /\ Permutation ds (linhas (Database.despesas (db w)))
    /\ Permutation ms (linhas (Database.metas (db w)))
    /\ StronglySorted ordem_transacoes rs
    /\ StronglySorted ordem_transacoes ds
    /\ StronglySorted ordem_metas ms.
Proof.
  intros (Hr & Hd & Hm) H. do 3 eexists.
  split; [apply exportar_dados_sem_falhas, H|].
  split; [apply order_by_Permutation|].
  split; [apply order_by_Permutation|].
  split; [apply order_by_Permutation|].
  split; [|split].
  - rewrite <- (filter_all (fun _ => true) (linhas (Database.receitas (db w))))
      by reflexivity.
    apply select_transacoes_ordenadas, Hr.
  - rewrite <- (filter_all (fun _ => true) (linhas (Database.despesas (db w))))
      by reflexivity.
    apply select_transacoes_ordenadas, Hd.
  - rewrite <- (filter_all (fun _ => true) (linhas (Database.metas (db w))))
      by reflexivity.
    apply select_metas_ordenadas, Hm.
Qed.

Lemma export_holds_every_row_witness :
  banco_ok (db (mundo_exemplo []))
  /\ sem_falhas (mundo_exemplo [])
  /\ exists rs ds ms,
      exportar_dados (mundo_exemplo [])
      = (Return {| d_receitas := Some rs; d_despesas := Some ds;
                   d_metas := Some ms |}, mundo_exemplo [])
      /\ Permutation rs (linhas (Database.receitas (db (mundo_exemplo []))))
      /\ Permutation ds (linhas (Database.despesas (db (mundo_exemplo []))))
      /\ Permutation ms (linhas (Database.metas (db (mundo_exemplo []))))
      /\ StronglySorted ordem_transacoes rs
      /\ StronglySorted ordem_transacoes ds
      /\ StronglySorted ordem_metas ms.
Proof.
  assert (Hb : banco_ok (db (mundo_exemplo []))) by exemplo_ok.
  assert (H : sem_falhas (mundo_exemplo [])) by reflexivity.
  split; [exact Hb | split; [exact H|]].
  exact (@export_holds_every_row (mundo_exemplo []) Hb H).
Defined.
